(** * LazyRestic: the asynchronous operation engine and the reactive model

    A shallow embedding of the Go sources of lazyrestic (packages [types],
    [ui], [config], [restic] and [model]) and the properties stated about
    them.  Each Go type becomes a module holding a record [t] and the
    methods of the type; pointer receivers become explicit state passing. *)

From Stdlib Require Import ZArith List Bool String Ascii Lia.
From Stdlib Require Import Numbers.DecimalString.
Import ListNotations.

Set Warnings "-register-all".

Open Scope string_scope.
Open Scope Z_scope.
Open Scope list_scope.

(** ** Go integers, slices and strings *)

(** Go's [int] on a 64-bit platform: two's complement, silent wrap-around. *)
Definition MinInt : Z := - 2 ^ 63.
Definition MaxInt : Z := 2 ^ 63 - 1.

Definition is_int (z : Z) : Prop := MinInt <= z <= MaxInt.

Definition wrap (z : Z) : Z := (z + 2 ^ 63) mod 2 ^ 64 - 2 ^ 63.

Definition int_add (a b : Z) : Z := wrap (a + b).
Definition int_sub (a b : Z) : Z := wrap (a - b).
Definition int_mul (a b : Z) : Z := wrap (a * b).
(** Go's [/] truncates toward zero. *)
Definition int_quot (a b : Z) : Z := wrap (Z.quot a b).

(** [len(s)] of a slice. *)
Definition len {A : Type} (l : list A) : Z := Z.of_nat (List.length l).

(** [s[i]] when [i] is in range. *)
Definition index {A : Type} (l : list A) (i : Z) : option A :=
  if (0 <=? i) && (i <? len l) then nth_error l (Z.to_nat i) else None.

(** [s[i] = f(s[i])], an in-place update of one element. *)
Fixpoint update_nth {A : Type} (n : nat) (f : A -> A) (l : list A) : list A :=
  match l, n with
  | [], _ => []
  | x :: r, O => f x :: r
  | x :: r, S n' => x :: update_nth n' f r
  end.

(** [s[lo:hi]] for [0 <= lo <= hi <= len(s)]. *)
Definition slice {A : Type} (l : list A) (lo hi : Z) : list A :=
  firstn (Z.to_nat (hi - lo)) (skipn (Z.to_nat lo) l).

(** Go strings are byte strings; [string] of the Standard Library is a
    list of 8-bit characters. *)
Definition is_empty (s : string) : bool := String.eqb s EmptyString.

Fixpoint HasPrefix (s prefix : string) : bool :=
  match prefix with
  | EmptyString => true
  | String c prefix' =>
      match s with
      | EmptyString => false
      | String d s' => Ascii.eqb c d && HasPrefix s' prefix'
      end
  end.

(** [strings.Contains(s, substr)]: [substr] occurs somewhere in [s]. *)
Fixpoint Contains (s substr : string) : bool :=
  HasPrefix s substr
  || match s with
     | EmptyString => false
     | String _ s' => Contains s' substr
     end.

(** [strings.ToLower] on the ASCII letters; bytes outside [A-Z] are kept
    (the multi-byte case mappings of Unicode are not represented). *)
Definition lower_ascii (c : ascii) : ascii :=
  let n := nat_of_ascii c in
  if (Nat.leb 65 n && Nat.leb n 90)%bool then ascii_of_nat (n + 32) else c.

Fixpoint ToLower (s : string) : string :=
  match s with
  | EmptyString => EmptyString
  | String c s' => String (lower_ascii c) (ToLower s')
  end.

(** [fmt.Sprintf("%d", n)]. *)
Definition fmt_d (n : Z) : string := NilZero.string_of_int (Z.to_int n).

(** [strings.Join(elems, sep)]. *)
Fixpoint Join (elems : list string) (sep : string) : string :=
  match elems with
  | [] => EmptyString
  | [x] => x
  | x :: rest => (x ++ sep ++ Join rest sep)%string
  end.

(** ** Package [types] *)

Module Repository.
Record t := mk {
  Name : string;
  Path : string;
  LastBackup : Z;
  Size : Z;
  TotalFiles : Z;
  SnapshotCount : Z;
  Status : string
}.
End Repository.

Module Snapshot.
Record t := mk {
  ID : string;
  Time : Z;
  Hostname : string;
  Username : string;
  Paths : list string;
  Tags : list string;
  ShortID : string
}.
End Snapshot.

Module RepositoryConfig.
Record t := mk {
  Name : string;
  Path : string;
  PasswordCommand : string;
  PasswordFile : string;
  Password : string
}.
End RepositoryConfig.

Module ResticConfig.
Record t := mk { Repositories : list RepositoryConfig.t }.
End ResticConfig.

Module FileNode.
Record t := mk {
  MessageType : string;
  Name : string;
  Type_ : string;
  Path : string;
  Size : Z;
  Selected : bool
}.

Definition IsDir (n : t) : bool := String.eqb (Type_ n) "dir".
Definition IsFile (n : t) : bool := String.eqb (Type_ n) "file".

Definition set_Selected (b : bool) (n : t) : t :=
  mk (MessageType n) (Name n) (Type_ n) (Path n) (Size n) b.
End FileNode.

Module BackupProgress.
Record t := mk {
  MessageType : string;
  TotalFiles : Z;
  FilesDone : Z;
  TotalBytes : Z;
  BytesDone : Z;
  CurrentFiles : list string;
  SecondsElapsed : Z;
  SecondsRemaining : Z
}.
End BackupProgress.

Module BackupSummary.
Record t := mk {
  MessageType : string;
  FilesNew : Z;
  FilesChanged : Z;
  FilesUnmodified : Z;
  TotalFilesProcessed : Z;
  TotalBytesProcessed : Z;
  SnapshotID : string
}.
End BackupSummary.

Module BackupOptions.
Record t := mk {
  Paths : list string;
  Tags : list string;
  Exclude : list string
}.
End BackupOptions.

Module RestoreOptions.
Record t := mk {
  SnapshotID : string;
  Target : string;
  Include : list string
}.
End RestoreOptions.

Module RestoreProgress.
Record t := mk { MessageType : string }.
End RestoreProgress.

Module RestoreSummary.
Record t := mk { MessageType : string }.
End RestoreSummary.

(** [types.Panel], an [int] with four named values. *)
Definition Panel := Z.
Definition PanelRepositories : Panel := 0.
Definition PanelMetrics : Panel := 1.
Definition PanelSnapshots : Panel := 2.
Definition PanelOperations : Panel := 3.

(** ** Package [ui]: the snapshot panel (filter engine and scrolling) *)

Module SnapshotPanel.
Record t := mk {
  snapshots : list Snapshot.t;
  filteredSnapshots : list Snapshot.t;
  selected : Z;
  width : Z;
  height : Z;
  scrollOffset : Z;
  filterActive : bool;
  filterText : string;
  filterTag : string;
  filterHost : string
}.

Definition set_snapshots v p :=
  mk v (filteredSnapshots p) (selected p) (width p) (height p)
     (scrollOffset p) (filterActive p) (filterText p) (filterTag p)
     (filterHost p).
Definition set_filteredSnapshots v p :=
  mk (snapshots p) v (selected p) (width p) (height p)
     (scrollOffset p) (filterActive p) (filterText p) (filterTag p)
     (filterHost p).
Definition set_selected v p :=
  mk (snapshots p) (filteredSnapshots p) v (width p) (height p)
     (scrollOffset p) (filterActive p) (filterText p) (filterTag p)
     (filterHost p).
Definition set_scrollOffset v p :=
  mk (snapshots p) (filteredSnapshots p) (selected p) (width p) (height p)
     v (filterActive p) (filterText p) (filterTag p) (filterHost p).
Definition set_filter (active : bool) (text tag host : string) p :=
  mk (snapshots p) (filteredSnapshots p) (selected p) (width p) (height p)
     (scrollOffset p) active text tag host.

Definition NewSnapshotPanel : t :=
  mk [] [] 0 0 0 0 false EmptyString EmptyString EmptyString.

(** The loop [for _, x := range xs { if Contains(ToLower(x), needle)
    { ... } }], left at the first hit. *)
Fixpoint rangeContains (xs : list string) (needle : string) : bool :=
  match xs with
  | [] => false
  | x :: rest =>
      if Contains (ToLower x) needle then true
      else rangeContains rest needle
  end.

Definition matchesFilter (p : t) (snap : Snapshot.t) : bool :=
  if negb (is_empty (filterTag p))
     && negb (rangeContains (Snapshot.Tags snap) (ToLower (filterTag p)))
  then false
  else if negb (is_empty (filterHost p))
          && negb (Contains (ToLower (Snapshot.Hostname snap))
                            (ToLower (filterHost p)))
  then false
  else if negb (is_empty (filterText p)) then
    let filterLower := ToLower (filterText p) in
    if Contains (ToLower (Snapshot.ID snap)) filterLower then true
    else if Contains (ToLower (Snapshot.ShortID snap)) filterLower then true
    else if rangeContains (Snapshot.Paths snap) filterLower then true
    else if rangeContains (Snapshot.Tags snap) filterLower then true
    else false
  else true.

Definition ApplyFilter (p : t) : t :=
  if negb (filterActive p)
     || (is_empty (filterText p) && is_empty (filterTag p)
         && is_empty (filterHost p))
  then set_scrollOffset 0 (set_filteredSnapshots (snapshots p) p)
  else
    let filtered :=
      fold_left
        (fun acc snap => if matchesFilter p snap then acc ++ [snap] else acc)
        (snapshots p) [] in
    let p := set_filteredSnapshots filtered p in
    if (len filtered <=? selected p) && (0 <? len filtered)
    then set_scrollOffset 0 (set_selected 0 p)
    else p.

Definition SetSnapshots (snaps : list Snapshot.t) (p : t) : t :=
  let p := ApplyFilter (set_snapshots snaps p) in
  let listLen := len (filteredSnapshots p) in
  let p := if (listLen <=? selected p) && (0 <? listLen)
           then set_selected (int_sub listLen 1) p else p in
  set_scrollOffset 0 p.

Definition SetFilter (text : string) (p : t) : t :=
  ApplyFilter (set_filter true text (filterTag p) (filterHost p) p).
Definition SetTagFilter (tag : string) (p : t) : t :=
  ApplyFilter (set_filter true (filterText p) tag (filterHost p) p).
Definition SetHostFilter (host : string) (p : t) : t :=
  ApplyFilter (set_filter true (filterText p) (filterTag p) host p).
Definition ClearFilter (p : t) : t :=
  ApplyFilter (set_filter false EmptyString EmptyString EmptyString p).

Definition IsFilterActive (p : t) : bool :=
  filterActive p
  && (negb (is_empty (filterText p)) || negb (is_empty (filterTag p))
      || negb (is_empty (filterHost p))).

Definition SetSize (w h : Z) (p : t) : t :=
  mk (snapshots p) (filteredSnapshots p) (selected p) w h
     (scrollOffset p) (filterActive p) (filterText p) (filterTag p)
     (filterHost p).

(** [visibleLines := p.height - 6; if visibleLines < 1 { visibleLines = 1 }] *)
Definition visibleLines (p : t) : Z :=
  let v := int_sub (height p) 6 in
  if v <? 1 then 1 else v.

Definition MoveUp (p : t) : t :=
  if 0 <? selected p then
    let p := set_selected (int_sub (selected p) 1) p in
    if selected p <? scrollOffset p
    then set_scrollOffset (selected p) p
    else p
  else p.

Definition MoveDown (p : t) : t :=
  let listLen := len (filteredSnapshots p) in
  if selected p <? int_sub listLen 1 then
    let p := set_selected (int_add (selected p) 1) p in
    let visibleLines := visibleLines p in
    if int_add (scrollOffset p) visibleLines <=? selected p
    then set_scrollOffset (int_add (int_sub (selected p) visibleLines) 1) p
    else p
  else p.

Definition GetSelected (p : t) : option Snapshot.t :=
  index (filteredSnapshots p) (selected p).
End SnapshotPanel.

(** The filter as the specification words it: a predicate category is
    active when the filter is switched on and its field is not empty; the
    result keeps, in order, the snapshots that pass every active category. *)
Module FilterSpec.
Definition contains_ci (field needle : string) : bool :=
  Contains (ToLower field) (ToLower needle).

Definition tag_passes (needle : string) (snap : Snapshot.t) : bool :=
  existsb (fun tag => contains_ci tag needle) (Snapshot.Tags snap).

Definition host_passes (needle : string) (snap : Snapshot.t) : bool :=
  contains_ci (Snapshot.Hostname snap) needle.

Definition text_passes (needle : string) (snap : Snapshot.t) : bool :=
  contains_ci (Snapshot.ID snap) needle
  || contains_ci (Snapshot.ShortID snap) needle
  || existsb (fun path => contains_ci path needle) (Snapshot.Paths snap)
  || existsb (fun tag => contains_ci tag needle) (Snapshot.Tags snap).

Definition category_active (p : SnapshotPanel.t) (field : string) : bool :=
  SnapshotPanel.filterActive p && negb (is_empty field).

Definition passes (p : SnapshotPanel.t) (snap : Snapshot.t) : bool :=
  implb (category_active p (SnapshotPanel.filterTag p))
        (tag_passes (SnapshotPanel.filterTag p) snap)
  && implb (category_active p (SnapshotPanel.filterHost p))
           (host_passes (SnapshotPanel.filterHost p) snap)
  && implb (category_active p (SnapshotPanel.filterText p))
           (text_passes (SnapshotPanel.filterText p) snap).

Definition filtered (p : SnapshotPanel.t) : list Snapshot.t :=
  filter (passes p) (SnapshotPanel.snapshots p).
End FilterSpec.

(** The scrolling window [[offset, offset + visibleCapacity)]. *)
Definition in_window (p : SnapshotPanel.t) : Prop :=
  SnapshotPanel.scrollOffset p <= SnapshotPanel.selected p
  /\ SnapshotPanel.selected p
     < SnapshotPanel.scrollOffset p + SnapshotPanel.visibleLines p.

(** The fields of a panel are Go [int]s and its slice has a Go length. *)
Definition panel_ints (p : SnapshotPanel.t) : Prop :=
  is_int (SnapshotPanel.selected p)
  /\ is_int (SnapshotPanel.scrollOffset p)
  /\ is_int (SnapshotPanel.height p)
  /\ is_int (len (SnapshotPanel.filteredSnapshots p)).

(** ** Package [ui]: text inputs, the confirmation dialog *)

(** [textinput.Model] of the bubbles library, reduced to the fields the
    repository reads and writes. *)
Module textinput.
Record t := mk {
  value : string;
  Placeholder : string;
  CharLimit : Z;
  Width : Z;
  focus : bool
}.

Definition New : t := mk EmptyString EmptyString 0 0 false.
Definition Value (m : t) : string := value m.
Definition set_value v m := mk v (Placeholder m) (CharLimit m) (Width m) (focus m).
Definition set_Placeholder v m := mk (value m) v (CharLimit m) (Width m) (focus m).
Definition set_CharLimit v m := mk (value m) (Placeholder m) v (Width m) (focus m).
Definition set_Width v m := mk (value m) (Placeholder m) (CharLimit m) v (focus m).
Definition Focus m := mk (value m) (Placeholder m) (CharLimit m) (Width m) true.
Definition Blur m := mk (value m) (Placeholder m) (CharLimit m) (Width m) false.
End textinput.

Module ConfirmationDialog.
Record t := mk {
  title : string;
  message : string;
  confirmationWord : string;
  input : textinput.t;
  width : Z;
  height : Z
}.

Definition NewConfirmationDialog (title message confirmationWord : string) : t :=
  let input := textinput.New in
  let input := textinput.set_Placeholder "Type here..." input in
  let input := textinput.set_CharLimit 20 input in
  let input := textinput.set_Width 30 input in
  let input := textinput.Focus input in
  mk title message confirmationWord input 0 0.

Definition set_input (i : textinput.t) (cd : t) : t :=
  mk (title cd) (message cd) (confirmationWord cd) i (width cd) (height cd).

Definition IsConfirmed (cd : t) : bool :=
  String.eqb (textinput.Value (input cd)) (confirmationWord cd).

Definition GetInput (cd : t) : string := textinput.Value (input cd).

Definition SetSize (w h : Z) (cd : t) : t :=
  mk (title cd) (message cd) (confirmationWord cd)
     (textinput.set_Width (int_sub w 20) (input cd)) w h.
End ConfirmationDialog.

(** ** Package [ui]: the file browser (paged viewport) *)

Module FileBrowser.
Record t := mk {
  snapshot : option Snapshot.t;
  currentPath : string;
  files : list FileNode.t;
  selected : Z;
  width : Z;
  height : Z;
  multiSelect : bool;
  pageSize : Z;
  currentPage : Z
}.

Definition set_files v fb :=
  mk (snapshot fb) (currentPath fb) v (selected fb) (width fb) (height fb)
     (multiSelect fb) (pageSize fb) (currentPage fb).
Definition set_selected v fb :=
  mk (snapshot fb) (currentPath fb) (files fb) v (width fb) (height fb)
     (multiSelect fb) (pageSize fb) (currentPage fb).
Definition set_currentPage v fb :=
  mk (snapshot fb) (currentPath fb) (files fb) (selected fb) (width fb)
     (height fb) (multiSelect fb) (pageSize fb) v.
Definition set_currentPath v fb :=
  mk (snapshot fb) v (files fb) (selected fb) (width fb) (height fb)
     (multiSelect fb) (pageSize fb) (currentPage fb).

Definition NewFileBrowser (snapshot : option Snapshot.t) : t :=
  mk snapshot "/" [] 0 0 0 true 50 0.

Definition getTotalPages (fb : t) : Z :=
  if len (files fb) =? 0 then 1
  else int_quot (int_sub (int_add (len (files fb)) (pageSize fb)) 1)
                (pageSize fb).

Definition getFilesOnCurrentPage (fb : t) : list FileNode.t :=
  let start := int_mul (currentPage fb) (pageSize fb) in
  let end_ := int_add start (pageSize fb) in
  let end_ := if len (files fb) <? end_ then len (files fb) else end_ in
  if len (files fb) <=? start then []
  else slice (files fb) start end_.

Definition SetFiles (fs : list FileNode.t) (fb : t) : t :=
  let fb := set_currentPage 0 (set_files fs fb) in
  let totalPages := getTotalPages fb in
  let fb := if (totalPages <=? currentPage fb) && (0 <? totalPages)
            then set_currentPage (int_sub totalPages 1) fb else fb in
  let fb := if currentPage fb <? 0 then set_currentPage 0 fb else fb in
  let filesOnPage := getFilesOnCurrentPage fb in
  let fb := if (len filesOnPage <=? selected fb) && (0 <? len filesOnPage)
            then set_selected (int_sub (len filesOnPage) 1) fb else fb in
  if selected fb <? 0 then set_selected 0 fb else fb.

Definition SetSize (w h : Z) (fb : t) : t :=
  mk (snapshot fb) (currentPath fb) (files fb) (selected fb) w h
     (multiSelect fb) (pageSize fb) (currentPage fb).

Definition NextPage (fb : t) : t :=
  let totalPages := getTotalPages fb in
  if currentPage fb <? int_sub totalPages 1
  then set_selected 0 (set_currentPage (int_add (currentPage fb) 1) fb)
  else fb.

Definition PrevPage (fb : t) : t :=
  if 0 <? currentPage fb
  then set_selected 0 (set_currentPage (int_sub (currentPage fb) 1) fb)
  else fb.

Definition MoveUp (fb : t) : t :=
  if 0 <? selected fb then set_selected (int_sub (selected fb) 1) fb else fb.

Definition MoveDown (fb : t) : t :=
  if selected fb <? int_sub (len (files fb)) 1
  then set_selected (int_add (selected fb) 1) fb else fb.

Definition GetSelected (fb : t) : option FileNode.t :=
  index (files fb) (selected fb).

Definition ToggleSelection (fb : t) : t :=
  if (0 <=? selected fb) && (selected fb <? len (files fb))
  then set_files
         (update_nth (Z.to_nat (selected fb))
            (fun f => FileNode.set_Selected (negb (FileNode.Selected f)) f)
            (files fb)) fb
  else fb.

Definition GetSelectedFiles (fb : t) : list FileNode.t :=
  fold_left (fun selected file =>
               if FileNode.Selected file then selected ++ [file] else selected)
            (files fb) [].

Definition ClearSelection (fb : t) : t :=
  set_files (map (FileNode.set_Selected false) (files fb)) fb.

Definition GetCurrentPath (fb : t) : string := currentPath fb.
Definition GetSnapshot (fb : t) : option Snapshot.t := snapshot fb.
Definition SetCurrentPath (path : string) (fb : t) : t := set_currentPath path fb.

Definition CanGoUp (fb : t) : bool :=
  negb (String.eqb (currentPath fb) "/") && negb (is_empty (currentPath fb)).

Definition EnterDirectory (fb : t) : t * (string * bool) :=
  match GetSelected fb with
  | Some selected =>
      if FileNode.IsDir selected
      then (set_currentPath (FileNode.Path selected) fb,
            (FileNode.Path selected, true))
      else (fb, (currentPath fb, false))
  | None => (fb, (currentPath fb, false))
  end.

(** The methods that the key handler of the model calls on an open
    browser, as operations that can be replayed. *)
Inductive op :=
| OpSetFiles (fs : list FileNode.t)
| OpSetSize (w h : Z)
| OpNextPage | OpPrevPage | OpMoveUp | OpMoveDown
| OpToggleSelection | OpClearSelection
| OpSetCurrentPath (path : string)
| OpEnterDirectory.

Definition apply (o : op) (fb : t) : t :=
  match o with
  | OpSetFiles fs => SetFiles fs fb
  | OpSetSize w h => SetSize w h fb
  | OpNextPage => NextPage fb
  | OpPrevPage => PrevPage fb
  | OpMoveUp => MoveUp fb
  | OpMoveDown => MoveDown fb
  | OpToggleSelection => ToggleSelection fb
  | OpClearSelection => ClearSelection fb
  | OpSetCurrentPath path => SetCurrentPath path fb
  | OpEnterDirectory => fst (EnterDirectory fb)
  end.

Definition run (ops : list op) (fb : t) : t :=
  fold_left (fun fb o => apply o fb) ops fb.

(** What every browser reached from [NewFileBrowser] satisfies. *)
Definition page_inv (fb : t) : Prop :=
  pageSize fb = 50
  /\ 0 <= currentPage fb <= MaxInt
  /\ (files fb = [] -> currentPage fb = 0).
End FileBrowser.

(** ** Errors and the operating system *)

(** A Go [error] is represented by its message; [nil] is [None]. *)
Definition error := option string.

Inductive result (A : Type) :=
| Ok (a : A)
| Err (msg : string).
Arguments Ok {A} a.
Arguments Err {A} msg.

(** A YAML document as [yaml.Unmarshal] hands it over in an
    [interface{}]: scalars, [[]interface{}] and
    [map[interface{}]interface{}]. *)
Inductive yaml :=
| YNull
| YBool (b : bool)
| YInt (z : Z)
| YStr (s : string)
| YSeq (items : list yaml)
| YMap (entries : list (yaml * yaml)).

(** [m[key]] with a string key. *)
Fixpoint yaml_get (key : string) (entries : list (yaml * yaml)) : option yaml :=
  match entries with
  | [] => None
  | (YStr k, v) :: rest => if String.eqb k key then Some v else yaml_get key rest
  | _ :: rest => yaml_get key rest
  end.

(** What the program sees of a file: its permission bits, whether it can
    be read, and, for a configuration file, the YAML document that its
    bytes parse to ([None] when they are not YAML). *)
Module File.
Record t := mk {
  perm : Z;
  readable : bool;
  document : option yaml
}.
End File.

(** The part of the operating system that the configuration code asks:
    [os.UserHomeDir] and [os.Stat]. *)
Module OS.
Record t := mk {
  UserHomeDir : option string;
  stat : string -> option File.t
}.
End OS.

(** ** Package [config] *)

Module config.

Definition DefaultConfigPath (os : OS.t) : string :=
  match OS.UserHomeDir os with
  | None => ""
  | Some home => (home ++ "/.config/lazyrestic/config.yaml")%string
  end.

(** The loop of [Load] over [rawConfig["repositories"]]: the index and the
    name of the first entry that is a map with a [password] key. *)
Fixpoint find_password_field (i : Z) (repos : list yaml) : option (Z * string) :=
  match repos with
  | [] => None
  | YMap repoMap :: rest =>
      match yaml_get "password" repoMap with
      | Some _ =>
          let repoName := match yaml_get "name" repoMap with
                          | Some (YStr name) => name
                          | _ => "unknown"
                          end in
          Some (i, repoName)
      | None => find_password_field (i + 1) rest
      end
  | _ :: rest => find_password_field (i + 1) rest
  end.

(** [yaml.Unmarshal] into a [string] field: a scalar gives its text, an
    absent or null value leaves the field empty, a collection is a type
    error. *)
Definition decode_string (v : option yaml) : option string :=
  match v with
  | None | Some YNull => Some ""
  | Some (YStr s) => Some s
  | Some (YInt z) => Some (fmt_d z)
  | Some (YBool true) => Some "true"
  | Some (YBool false) => Some "false"
  | Some (YSeq _) | Some (YMap _) => None
  end.

(** [yaml.Unmarshal] into [types.RepositoryConfig], by the field tags. *)
Definition decode_repository (v : yaml) : option RepositoryConfig.t :=
  match v with
  | YMap m =>
      match decode_string (yaml_get "name" m),
            decode_string (yaml_get "path" m),
            decode_string (yaml_get "password_command" m),
            decode_string (yaml_get "password_file" m),
            decode_string (yaml_get "password" m) with
      | Some name, Some path, Some cmd, Some file, Some password =>
          Some (RepositoryConfig.mk name path cmd file password)
      | _, _, _, _, _ => None
      end
  | YNull => Some (RepositoryConfig.mk "" "" "" "" "")
  | _ => None
  end.

Fixpoint decode_repositories (items : list yaml) : option (list RepositoryConfig.t) :=
  match items with
  | [] => Some []
  | v :: rest =>
      match decode_repository v, decode_repositories rest with
      | Some r, Some rs => Some (r :: rs)
      | _, _ => None
      end
  end.

(** [yaml.Unmarshal] into [types.ResticConfig]. *)
Definition decode_config (doc : yaml) : option ResticConfig.t :=
  match doc with
  | YNull => Some (ResticConfig.mk [])
  | YMap m =>
      match yaml_get "repositories" m with
      | None | Some YNull => Some (ResticConfig.mk [])
      | Some (YSeq items) =>
          match decode_repositories items with
          | Some rs => Some (ResticConfig.mk rs)
          | None => None
          end
      | Some _ => None
      end
  | _ => None
  end.

Definition Load (os : OS.t) (path : string) : result ResticConfig.t :=
  let path := if is_empty path then DefaultConfigPath os else path in
  match OS.stat os path with
  | None => Err ("config file not found: " ++ path)%string
  | Some f =>
      if negb (File.readable f) then Err "failed to read config file"
      else
        match File.document f with
        | None => Err "failed to parse config YAML"
        | Some doc =>
            let deprecated :=
              match doc with
              | YMap rawConfig =>
                  match yaml_get "repositories" rawConfig with
                  | Some (YSeq repos) => find_password_field 0 repos
                  | _ => None
                  end
              | _ => None
              end in
            match deprecated with
            | Some (i, repoName) =>
                Err ("repository " ++ fmt_d i ++ " (" ++ repoName
                     ++ ") uses deprecated 'password' field")%string
            | None =>
                match decode_config doc with
                | None => Err "failed to parse config YAML"
                | Some config => Ok config
                end
            end
        end
  end.

(** File modes [0600] and [0400]. *)
Definition perm_0600 : Z := 384.
Definition perm_0400 : Z := 256.

Definition validateConfigFilePermissions (os : OS.t) (path : string) : error :=
  match OS.stat os path with
  | None => Some "cannot stat config file"
  | Some info =>
      if negb (File.perm info =? perm_0600)
      then Some "config file permissions should be 0600 for security"
      else None
  end.

Definition validatePasswordFile (os : OS.t) (path : string) : error :=
  match OS.stat os path with
  | None => Some ("password file does not exist: " ++ path)%string
  | Some info =>
      if negb (File.perm info =? perm_0400) && negb (File.perm info =? perm_0600)
      then Some "password file permissions should be 0400 or 0600 for security"
      else None
  end.

Definition dangerousChars : list string :=
  [";"; "|"; "&"; "`"; "$"; "("; ")"; "<"; ">";
   String (ascii_of_nat 10) ""; String (ascii_of_nat 13) ""].

Definition dangerousCommands : list string :=
  ["rm"; "del"; "format"; "mkfs"; "dd"; "shred"; "wget"; "curl"].

(** [for _, x := range xs { if strings.Contains(s, x) { return err(x) } }] *)
Fixpoint first_contained (s : string) (xs : list string) : option string :=
  match xs with
  | [] => None
  | x :: rest => if Contains s x then Some x else first_contained s rest
  end.

Definition validatePasswordCommand (cmd : string) : error :=
  match first_contained cmd dangerousChars with
  | Some char =>
      Some ("password command contains dangerous character '" ++ char
            ++ "': " ++ cmd)%string
  | None =>
      let lowerCmd := ToLower cmd in
      match first_contained lowerCmd dangerousCommands with
      | Some badCmd =>
          Some ("password command contains potentially dangerous command '"
                ++ badCmd ++ "': " ++ cmd)%string
      | None => None
      end
  end.

Definition validateRepositoryConfig (os : OS.t) (repo : RepositoryConfig.t)
    (index : Z) : error :=
  let passwordMethods := 0 in
  let passwordMethods :=
    if negb (is_empty (RepositoryConfig.PasswordFile repo))
    then int_add passwordMethods 1 else passwordMethods in
  let passwordMethods :=
    if negb (is_empty (RepositoryConfig.PasswordCommand repo))
    then int_add passwordMethods 1 else passwordMethods in
  if passwordMethods =? 0 then
    Some "no password method specified (password_file or password_command required)"
  else if 1 <? passwordMethods then
    Some "multiple password methods specified, use only one of: password_file or password_command"
  else
    let fileErr :=
      if negb (is_empty (RepositoryConfig.PasswordFile repo))
      then validatePasswordFile os (RepositoryConfig.PasswordFile repo)
      else None in
    match fileErr with
    | Some err => Some ("password_file validation failed: " ++ err)%string
    | None =>
        let cmdErr :=
          if negb (is_empty (RepositoryConfig.PasswordCommand repo))
          then validatePasswordCommand (RepositoryConfig.PasswordCommand repo)
          else None in
        match cmdErr with
        | Some err => Some ("password_command validation failed: " ++ err)%string
        | None => None
        end
    end.

Fixpoint validate_repositories (os : OS.t) (i : Z)
    (repos : list RepositoryConfig.t) : error :=
  match repos with
  | [] => None
  | repo :: rest =>
      match validateRepositoryConfig os repo i with
      | Some err =>
          Some ("repository " ++ fmt_d i ++ " (" ++ RepositoryConfig.Name repo
                ++ ") validation failed: " ++ err)%string
      | None => validate_repositories os (i + 1) rest
      end
  end.

Definition ValidateConfig (os : OS.t) (config : ResticConfig.t)
    (configPath : string) : error :=
  match validateConfigFilePermissions os configPath with
  | Some err => Some ("config file security check failed: " ++ err)%string
  | None => validate_repositories os 0 (ResticConfig.Repositories config)
  end.

Definition LoadAndValidate (os : OS.t) (path : string) : result ResticConfig.t :=
  let path := if is_empty path then DefaultConfigPath os else path in
  match Load os path with
  | Err err => Err err
  | Ok config =>
      match ValidateConfig os config path with
      | Some err => Err ("config validation failed: " ++ err)%string
      | None => Ok config
      end
  end.

Definition LoadOrDefault (os : OS.t) (path : string) : ResticConfig.t :=
  match LoadAndValidate os path with
  | Err _ => ResticConfig.mk []
  | Ok config => config
  end.

(** [RemoveRepository]: the configuration without the first repository of
    that name, and whether one was found. *)
Fixpoint remove_first (name : string) (repos : list RepositoryConfig.t)
  : list RepositoryConfig.t * bool :=
  match repos with
  | [] => ([], false)
  | repo :: rest =>
      if String.eqb (RepositoryConfig.Name repo) name then (rest, true)
      else let (rest', found) := remove_first name rest in (repo :: rest', found)
  end.

Definition RemoveRepository (config : ResticConfig.t) (name : string)
  : ResticConfig.t * bool :=
  let (repos, found) := remove_first name (ResticConfig.Repositories config) in
  (ResticConfig.mk repos, found).

(** A repository entry of the configuration file that carries a literal
    password: a map with a [password] key. *)
Definition has_literal_password (entry : yaml) : bool :=
  match entry with
  | YMap repoMap =>
      match yaml_get "password" repoMap with Some _ => true | None => false end
  | _ => false
  end.

(** The repository entries of a parsed configuration document. *)
Definition repository_entries (doc : yaml) : list yaml :=
  match doc with
  | YMap rawConfig =>
      match yaml_get "repositories" rawConfig with
      | Some (YSeq repos) => repos
      | _ => []
      end
  | _ => []
  end.

End config.

(** ** Package [restic]: the environment of the subprocess *)

Module Client.
Record t := mk { config : RepositoryConfig.t }.

Definition NewClient (config : RepositoryConfig.t) : t := mk config.

Definition buildEnv (c : t) : list string :=
  let env := [("RESTIC_REPOSITORY=" ++ RepositoryConfig.Path (config c))%string] in
  let env :=
    if negb (is_empty (RepositoryConfig.PasswordFile (config c)))
    then env ++ [("RESTIC_PASSWORD_FILE="
                  ++ RepositoryConfig.PasswordFile (config c))%string]
    else env in
  let env :=
    if negb (is_empty (RepositoryConfig.PasswordCommand (config c)))
    then env ++ [("RESTIC_PASSWORD_COMMAND="
                  ++ RepositoryConfig.PasswordCommand (config c))%string]
    else env in
  env.

(** [cmd.Env = append(os.Environ(), c.buildEnv()...)]. *)
Definition command_env (environ : list string) (c : t) : list string :=
  environ ++ buildEnv c.
End Client.

(** Exactly one of the two credential methods is configured. *)
Definition one_credential_method (repo : RepositoryConfig.t) : Prop :=
  (RepositoryConfig.PasswordFile repo <> "" /\ RepositoryConfig.PasswordCommand repo = "")
  \/ (RepositoryConfig.PasswordFile repo = "" /\ RepositoryConfig.PasswordCommand repo <> "").

(** The credential variable of a repository with one method. *)
Definition credential_variable (repo : RepositoryConfig.t) : string :=
  if is_empty (RepositoryConfig.PasswordFile repo)
  then ("RESTIC_PASSWORD_COMMAND=" ++ RepositoryConfig.PasswordCommand repo)%string
  else ("RESTIC_PASSWORD_FILE=" ++ RepositoryConfig.PasswordFile repo)%string.

(** The variables from which restic takes the password of a repository:
    the password itself, a file that holds it, a command that prints it. *)
Definition is_credential_variable (entry : string) : bool :=
  HasPrefix entry "RESTIC_PASSWORD="
  || HasPrefix entry "RESTIC_PASSWORD_FILE="
  || HasPrefix entry "RESTIC_PASSWORD_COMMAND=".

(** The credential variables of an environment, in order. *)
Definition credential_variables (environ : list string) : list string :=
  filter is_credential_variable environ.

(** No method is configured, or both are. *)
Definition zero_or_two_methods (repo : RepositoryConfig.t) : Prop :=
  (RepositoryConfig.PasswordFile repo = "" /\ RepositoryConfig.PasswordCommand repo = "")
  \/ (RepositoryConfig.PasswordFile repo <> ""
      /\ RepositoryConfig.PasswordCommand repo <> "").

(** The claim C7 on the environment of a subprocess started with the
    inherited environment [environ]: its only credential variable is the
    configured one. *)
Definition only_configured_credential (environ : list string)
    (repo : RepositoryConfig.t) : Prop :=
  credential_variables (Client.command_env environ (Client.NewClient repo))
  = [credential_variable repo].

(** ** More string functions of the Go library *)

(** [strings.Split(s, sep)] for a one-byte separator. *)
Fixpoint Split (sep : ascii) (s : string) : list string :=
  match s with
  | EmptyString => [EmptyString]
  | String c s' =>
      let rest := Split sep s' in
      if Ascii.eqb c sep then EmptyString :: rest
      else match rest with
           | [] => [String c EmptyString]
           | h :: t => String c h :: t
           end
  end.

(** White space for [strings.TrimSpace], on ASCII. *)
Definition is_space (c : ascii) : bool :=
  let n := nat_of_ascii c in
  (Nat.eqb n 32 || (Nat.leb 9 n && Nat.leb n 13))%bool.

Fixpoint TrimLeft (s : string) : string :=
  match s with
  | EmptyString => EmptyString
  | String c s' => if is_space c then TrimLeft s' else s
  end.

Fixpoint TrimRight (s : string) : string :=
  match s with
  | EmptyString => EmptyString
  | String c s' =>
      let rest := TrimRight s' in
      if is_empty rest && is_space c then EmptyString else String c rest
  end.

Definition TrimSpace (s : string) : string := TrimRight (TrimLeft s).

(** [s[:len(s)-1]] of a non-empty string. *)
Fixpoint drop_last (s : string) : string :=
  match s with
  | EmptyString => EmptyString
  | String c EmptyString => EmptyString
  | String c s' => String c (drop_last s')
  end.

(** [len(s)] of a string. *)
Definition slen (s : string) : Z := Z.of_nat (String.length s).

(** The idiom of the forms: split the value at commas, trim every piece and
    keep the non-empty ones; an empty value gives the empty slice. *)
Definition comma_list (value : string) : list string :=
  if is_empty value then []
  else fold_left
         (fun acc p => let trimmed := TrimSpace p in
                       if negb (is_empty trimmed) then acc ++ [trimmed] else acc)
         (Split "," value) [].

(** ** The environment: library calls and effects outside the repository *)

(** Ratios of the layout, multiplied in floating point by the source. *)
Inductive ratio :=
| LeftPanelWidthRatio | FormWidthRatio | FormHeightRatio
| RepoHeightRatio | MetricsHeightRatio.

Module Env.
(** - [textinput_Update], [textinput_SetValue]: the bubbles library; the
      command a text input returns is opaque to the model;
    - [scale x r]: [int(float64(x) * r)];
    - [FormatTime], [FormatTimeAgo]: formatting against the clock;
    - [path_Dir]: [path.Dir];
    - the rest: calls to the operating system and to restic made inside
      the key handler, each with the result it returned. *)
Record t := mk {
  textinput_Update : textinput.t -> string -> textinput.t * option Z;
  textinput_SetValue : textinput.t -> string -> textinput.t;
  scale : Z -> ratio -> Z;
  FormatTime : Z -> string;
  FormatTimeAgo : Z -> string;
  path_Dir : string -> string;
  UserHomeDir : result string;
  MkdirAll : string -> error;
  generateSecurePassword : Z -> result string;
  WriteFile : string -> string -> error;
  Save : ResticConfig.t -> string -> error;
  Init : RepositoryConfig.t -> error;
  DefaultConfigPath : string
}.
End Env.

(** ** Package [ui]: log panel, repository panels *)

Module LogEntry.
(** The time stamp of an entry is not represented. *)
Record t := mk { Level : string; Message : string }.
End LogEntry.

Module OperationsPanel.
Record t := mk {
  logs : list LogEntry.t;
  width : Z;
  height : Z;
  backupProgress : option BackupProgress.t;
  backupInProgress : bool
}.

Definition set_logs (v : list LogEntry.t) (p : t) : t :=
  mk v (width p) (height p) (backupProgress p) (backupInProgress p).
Definition set_width (v : Z) (p : t) : t :=
  mk (logs p) v (height p) (backupProgress p) (backupInProgress p).
Definition set_height (v : Z) (p : t) : t :=
  mk (logs p) (width p) v (backupProgress p) (backupInProgress p).
Definition set_backupProgress (v : option BackupProgress.t) (p : t) : t :=
  mk (logs p) (width p) (height p) v (backupInProgress p).
Definition set_backupInProgress (v : bool) (p : t) : t :=
  mk (logs p) (width p) (height p) (backupProgress p) v.

Definition NewOperationsPanel : t := mk [] 0 0 None false.

(** [p.logs[len(p.logs)-100:]] *)
Definition last_100 (logs : list LogEntry.t) : list LogEntry.t :=
  skipn (List.length logs - 100)%nat logs.

Definition AddLog (level message : string) (p : t) : t :=
  let logs := logs p ++ [LogEntry.mk level message] in
  let logs := if 100 <? len logs then last_100 logs else logs in
  set_logs logs p.

Definition Info (message : string) (p : t) : t := AddLog "info" message p.
Definition Dimmed (message : string) (p : t) : t := AddLog "dimmed" message p.
Definition Success (message : string) (p : t) : t := AddLog "success" message p.
Definition Warning (message : string) (p : t) : t := AddLog "warning" message p.
Definition Error (message : string) (p : t) : t := AddLog "error" message p.

Definition SetBackupProgress (progress : option BackupProgress.t) (p : t) : t :=
  set_backupInProgress true (set_backupProgress progress p).

Definition ClearBackupProgress (p : t) : t :=
  set_backupInProgress false (set_backupProgress None p).

Definition SetSize (w h : Z) (p : t) : t := set_height h (set_width w p).
End OperationsPanel.

Module RepositoryPanel.
Record t := mk {
  repositories : list Repository.t;
  selected : Z;
  width : Z;
  height : Z;
  scrollOffset : Z
}.

Definition set_repositories (v : list Repository.t) (p : t) : t :=
  mk v (selected p) (width p) (height p) (scrollOffset p).
Definition set_selected (v : Z) (p : t) : t :=
  mk (repositories p) v (width p) (height p) (scrollOffset p).
Definition set_width (v : Z) (p : t) : t :=
  mk (repositories p) (selected p) v (height p) (scrollOffset p).
Definition set_height (v : Z) (p : t) : t :=
  mk (repositories p) (selected p) (width p) v (scrollOffset p).
Definition set_scrollOffset (v : Z) (p : t) : t :=
  mk (repositories p) (selected p) (width p) (height p) v.

Definition NewRepositoryPanel : t := mk [] 0 0 0 0.

Definition SetRepositories (repos : list Repository.t) (p : t) : t :=
  let p := set_repositories repos p in
  let p := if (len repos <=? selected p) && (0 <? len repos)
           then set_selected (int_sub (len repos) 1) p else p in
  set_scrollOffset 0 p.

Definition SetSize (w h : Z) (p : t) : t := set_height h (set_width w p).

Definition MoveUp (p : t) : t :=
  if 0 <? selected p then
    let p := set_selected (int_sub (selected p) 1) p in
    if selected p <? scrollOffset p then set_scrollOffset (selected p) p else p
  else p.

Definition MoveDown (p : t) : t :=
  if selected p <? int_sub (len (repositories p)) 1 then
    let p := set_selected (int_add (selected p) 1) p in
    let visibleRepos := int_quot (int_sub (height p) 6) 3 in
    let visibleRepos := if visibleRepos <? 1 then 1 else visibleRepos in
    if int_add (scrollOffset p) visibleRepos <=? selected p
    then set_scrollOffset (int_add (int_sub (selected p) visibleRepos) 1) p
    else p
  else p.

Definition GetSelected (p : t) : option Repository.t :=
  index (repositories p) (selected p).
End RepositoryPanel.

Module RepoMetricsPanel.
Record t := mk {
  width : Z;
  height : Z;
  repository : option Repository.t;
  active : bool
}.

Definition set_width (v : Z) (p : t) : t :=
  mk v (height p) (repository p) (active p).
Definition set_height (v : Z) (p : t) : t :=
  mk (width p) v (repository p) (active p).
Definition set_repository (v : option Repository.t) (p : t) : t :=
  mk (width p) (height p) v (active p).
Definition set_active (v : bool) (p : t) : t :=
  mk (width p) (height p) (repository p) v.

Definition NewRepoMetricsPanel : t := mk 80 10 None false.
Definition SetSize (w h : Z) (p : t) : t := set_height h (set_width w p).
Definition SetRepository (repo : option Repository.t) (p : t) : t :=
  set_repository repo p.
End RepoMetricsPanel.

Module ForgetPolicy.
Record t := mk {
  KeepLast : Z;
  KeepHourly : Z;
  KeepDaily : Z;
  KeepWeekly : Z;
  KeepMonthly : Z;
  KeepYearly : Z;
  KeepWithin : string;
  KeepTags : list string;
  Host : string;
  Paths : list string;
  Tags : list string
}.
Definition zero : t := mk 0 0 0 0 0 0 "" [] "" [] [].
End ForgetPolicy.

Module ForgetResult.
Record t := mk {
  SnapshotsToKeep : list Snapshot.t;
  SnapshotsToRemove : list Snapshot.t;
  Host : string;
  Paths : list string;
  Tags : list string
}.
End ForgetResult.

Module ForgetPreview.
Record t := mk {
  results : list ForgetResult.t;
  policy : ForgetPolicy.t;
  width : Z;
  height : Z;
  scrollOffset : Z
}.

Definition NewForgetPreview (results : list ForgetResult.t)
    (policy : ForgetPolicy.t) : t := mk results policy 0 0 0.

Definition SetSize (w h : Z) (fp : t) : t :=
  mk (results fp) (policy fp) w h (scrollOffset fp).

Definition GetTotalToRemove (fp : t) : Z :=
  fold_left (fun total result =>
               int_add total (len (ForgetResult.SnapshotsToRemove result)))
            (results fp) 0.
End ForgetPreview.

(** The retention form is a field of the model that [Update] never
    touches; only its focus is kept. *)
Module ForgetForm.
Record t := mk { focusedField : Z }.
End ForgetForm.

(** ** Package [ui]: the forms *)

Module BackupForm.
Definition BackupFieldPaths : Z := 0.
Definition BackupFieldTags : Z := 1.
Definition BackupFieldExclude : Z := 2.
Definition BackupFieldSubmit : Z := 3.

Record t := mk {
  pathsInput : textinput.t;
  tagsInput : textinput.t;
  excludeInput : textinput.t;
  focusedField : Z;
  width : Z;
  height : Z
}.

Definition set_pathsInput (v : textinput.t) (f : t) : t :=
  mk v (tagsInput f) (excludeInput f) (focusedField f) (width f) (height f).
Definition set_tagsInput (v : textinput.t) (f : t) : t :=
  mk (pathsInput f) v (excludeInput f) (focusedField f) (width f) (height f).
Definition set_excludeInput (v : textinput.t) (f : t) : t :=
  mk (pathsInput f) (tagsInput f) v (focusedField f) (width f) (height f).
Definition set_focusedField (v : Z) (f : t) : t :=
  mk (pathsInput f) (tagsInput f) (excludeInput f) v (width f) (height f).
Definition set_width (v : Z) (f : t) : t :=
  mk (pathsInput f) (tagsInput f) (excludeInput f) (focusedField f) v
    (height f).
Definition set_height (v : Z) (f : t) : t :=
  mk (pathsInput f) (tagsInput f) (excludeInput f) (focusedField f) (width
    f) v.

Definition NewBackupForm : t :=
  let pathsInput := textinput.New in
  let pathsInput :=
    textinput.set_Placeholder "/home/user, /etc (comma-separated)" pathsInput in
  let pathsInput := textinput.Focus pathsInput in
  let pathsInput := textinput.set_CharLimit 500 pathsInput in
  let tagsInput := textinput.New in
  let tagsInput := textinput.set_Placeholder "config, manual (optional)" tagsInput in
  let tagsInput := textinput.set_CharLimit 200 tagsInput in
  let excludeInput := textinput.New in
  let excludeInput :=
    textinput.set_Placeholder "*.tmp, *.cache (optional)" excludeInput in
  let excludeInput := textinput.set_CharLimit 200 excludeInput in
  mk pathsInput tagsInput excludeInput BackupFieldPaths 0 0.

Definition BlurAll (f : t) : t :=
  set_excludeInput (textinput.Blur (excludeInput f))
    (set_tagsInput (textinput.Blur (tagsInput f))
       (set_pathsInput (textinput.Blur (pathsInput f)) f)).

Definition FocusCurrent (f : t) : t :=
  if focusedField f =? BackupFieldPaths
  then set_pathsInput (textinput.Focus (pathsInput f)) f
  else if focusedField f =? BackupFieldTags
  then set_tagsInput (textinput.Focus (tagsInput f)) f
  else if focusedField f =? BackupFieldExclude
  then set_excludeInput (textinput.Focus (excludeInput f)) f
  else f.

Definition NextField (f : t) : t :=
  let f := BlurAll f in
  let f := set_focusedField (int_add (focusedField f) 1) f in
  let f := if BackupFieldSubmit <? focusedField f
           then set_focusedField BackupFieldPaths f else f in
  FocusCurrent f.

Definition PrevField (f : t) : t :=
  let f := BlurAll f in
  let f := set_focusedField (int_sub (focusedField f) 1) f in
  let f := if focusedField f <? BackupFieldPaths
           then set_focusedField BackupFieldSubmit f else f in
  FocusCurrent f.

Definition Update (env : Env.t) (key : string) (f : t) : t * option Z :=
  if String.eqb key "tab" || String.eqb key "down" then (NextField f, None)
  else if String.eqb key "shift+tab" || String.eqb key "up"
  then (PrevField f, None)
  else if focusedField f =? BackupFieldPaths then
    let (i, cmd) := Env.textinput_Update env (pathsInput f) key in
    (set_pathsInput i f, cmd)
  else if focusedField f =? BackupFieldTags then
    let (i, cmd) := Env.textinput_Update env (tagsInput f) key in
    (set_tagsInput i f, cmd)
  else if focusedField f =? BackupFieldExclude then
    let (i, cmd) := Env.textinput_Update env (excludeInput f) key in
    (set_excludeInput i f, cmd)
  else (f, None).

Definition GetPaths (f : t) : list string :=
  comma_list (textinput.Value (pathsInput f)).
Definition GetTags (f : t) : list string :=
  comma_list (textinput.Value (tagsInput f)).
Definition GetExclude (f : t) : list string :=
  comma_list (textinput.Value (excludeInput f)).

Definition IsValid (f : t) : bool := 0 <? len (GetPaths f).

Definition SetSize (w h : Z) (f : t) : t :=
  let f := set_height h (set_width w f) in
  let f := set_pathsInput (textinput.set_Width (int_sub w 20) (pathsInput f)) f in
  let f := set_tagsInput (textinput.set_Width (int_sub w 20) (tagsInput f)) f in
  set_excludeInput (textinput.set_Width (int_sub w 20) (excludeInput f)) f.
End BackupForm.

Module RestoreForm.
Definition RestoreFieldDestination : Z := 0.
Definition RestoreFieldInclude : Z := 1.
Definition RestoreFieldSubmit : Z := 2.

Record t := mk {
  snapshot : option Snapshot.t;
  targetInput : textinput.t;
  includeInput : textinput.t;
  focusedField : Z;
  restoreToOriginal : bool;
  width : Z;
  height : Z
}.

Definition set_snapshot (v : option Snapshot.t) (f : t) : t :=
  mk v (targetInput f) (includeInput f) (focusedField f) (restoreToOriginal
    f) (width f) (height f).
Definition set_targetInput (v : textinput.t) (f : t) : t :=
  mk (snapshot f) v (includeInput f) (focusedField f) (restoreToOriginal f)
    (width f) (height f).
Definition set_includeInput (v : textinput.t) (f : t) : t :=
  mk (snapshot f) (targetInput f) v (focusedField f) (restoreToOriginal f)
    (width f) (height f).
Definition set_focusedField (v : Z) (f : t) : t :=
  mk (snapshot f) (targetInput f) (includeInput f) v (restoreToOriginal f)
    (width f) (height f).
Definition set_restoreToOriginal (v : bool) (f : t) : t :=
  mk (snapshot f) (targetInput f) (includeInput f) (focusedField f) v (width
    f) (height f).
Definition set_width (v : Z) (f : t) : t :=
  mk (snapshot f) (targetInput f) (includeInput f) (focusedField f)
    (restoreToOriginal f) v (height f).
Definition set_height (v : Z) (f : t) : t :=
  mk (snapshot f) (targetInput f) (includeInput f) (focusedField f)
    (restoreToOriginal f) (width f) v.

Definition NewRestoreForm (snapshot : option Snapshot.t) : t :=
  let targetInput := textinput.New in
  let targetInput :=
    textinput.set_Placeholder "/path/to/restore/location" targetInput in
  let targetInput := textinput.Focus targetInput in
  let targetInput := textinput.set_CharLimit 500 targetInput in
  let includeInput := textinput.New in
  let includeInput :=
    textinput.set_Placeholder
      "path/to/file, path/to/dir (optional - leave empty for all)" includeInput in
  let includeInput := textinput.set_CharLimit 500 includeInput in
  mk snapshot targetInput includeInput RestoreFieldDestination false 0 0.

Definition BlurAll (f : t) : t :=
  set_includeInput (textinput.Blur (includeInput f))
    (set_targetInput (textinput.Blur (targetInput f)) f).

Definition FocusCurrent (f : t) : t :=
  if focusedField f =? RestoreFieldDestination then
    if negb (restoreToOriginal f)
    then set_targetInput (textinput.Focus (targetInput f)) f else f
  else if focusedField f =? RestoreFieldInclude
  then set_includeInput (textinput.Focus (includeInput f)) f
  else f.

Definition NextField (f : t) : t :=
  let f := BlurAll f in
  let f := set_focusedField (int_add (focusedField f) 1) f in
  let f := if RestoreFieldSubmit <? focusedField f
           then set_focusedField RestoreFieldDestination f else f in
  FocusCurrent f.

Definition PrevField (f : t) : t :=
  let f := BlurAll f in
  let f := set_focusedField (int_sub (focusedField f) 1) f in
  let f := if focusedField f <? RestoreFieldDestination
           then set_focusedField RestoreFieldSubmit f else f in
  FocusCurrent f.

(** The part of [Update] after the key switch: the focused input. *)
Definition update_focused_input (env : Env.t) (key : string) (f : t)
  : t * option Z :=
  if negb (restoreToOriginal f)
     || negb (focusedField f =? RestoreFieldDestination) then
    if focusedField f =? RestoreFieldDestination then
      let (i, cmd) := Env.textinput_Update env (targetInput f) key in
      (set_targetInput i f, cmd)
    else if focusedField f =? RestoreFieldInclude then
      let (i, cmd) := Env.textinput_Update env (includeInput f) key in
      (set_includeInput i f, cmd)
    else (f, None)
  else (f, None).

Definition Update (env : Env.t) (key : string) (f : t) : t * option Z :=
  if String.eqb key "tab" || String.eqb key "down" then (NextField f, None)
  else if String.eqb key "shift+tab" || String.eqb key "up"
  then (PrevField f, None)
  else if String.eqb key " " then
    if focusedField f =? RestoreFieldDestination then
      let f := set_restoreToOriginal (negb (restoreToOriginal f)) f in
      let f :=
        if restoreToOriginal f then
          let i := Env.textinput_SetValue env (targetInput f) "" in
          set_targetInput (textinput.Blur i) f
        else set_targetInput (textinput.Focus (targetInput f)) f in
      (f, None)
    else update_focused_input env key f
  else update_focused_input env key f.

Definition GetTarget (f : t) : string :=
  if restoreToOriginal f then ""
  else TrimSpace (textinput.Value (targetInput f)).

Definition GetInclude (f : t) : list string :=
  comma_list (textinput.Value (includeInput f)).

Definition IsRestoreToOriginal (f : t) : bool := restoreToOriginal f.

Definition IsValid (f : t) : bool :=
  restoreToOriginal f || negb (is_empty (GetTarget f)).

Definition SetSize (w h : Z) (f : t) : t :=
  let f := set_height h (set_width w f) in
  let f := set_targetInput (textinput.set_Width (int_sub w 20) (targetInput f)) f in
  set_includeInput (textinput.set_Width (int_sub w 20) (includeInput f)) f.

Definition SetIncludePaths (env : Env.t) (paths : list string) (f : t) : t :=
  set_includeInput
    (Env.textinput_SetValue env (includeInput f) (Join paths ", ")) f.
End RestoreForm.

Module RepoForm.
Definition FieldName : Z := 0.
Definition FieldPath : Z := 1.
Definition FieldPasswordMethod : Z := 2.
Definition FieldPassword : Z := 3.
Definition FieldGeneratePasswordFile : Z := 4.
Definition FieldInitialize : Z := 5.
Definition FieldSubmit : Z := 6.

Record t := mk {
  nameInput : textinput.t;
  pathInput : textinput.t;
  passwordInput : textinput.t;
  focusedField : Z;
  passwordMethod : string;
  autoGeneratePasswordFile : bool;
  initializeRepo : bool;
  width : Z;
  height : Z
}.

Definition set_nameInput (v : textinput.t) (f : t) : t :=
  mk v (pathInput f) (passwordInput f) (focusedField f) (passwordMethod f)
    (autoGeneratePasswordFile f) (initializeRepo f) (width f) (height f).
Definition set_pathInput (v : textinput.t) (f : t) : t :=
  mk (nameInput f) v (passwordInput f) (focusedField f) (passwordMethod f)
    (autoGeneratePasswordFile f) (initializeRepo f) (width f) (height f).
Definition set_passwordInput (v : textinput.t) (f : t) : t :=
  mk (nameInput f) (pathInput f) v (focusedField f) (passwordMethod f)
    (autoGeneratePasswordFile f) (initializeRepo f) (width f) (height f).
Definition set_focusedField (v : Z) (f : t) : t :=
  mk (nameInput f) (pathInput f) (passwordInput f) v (passwordMethod f)
    (autoGeneratePasswordFile f) (initializeRepo f) (width f) (height f).
Definition set_passwordMethod (v : string) (f : t) : t :=
  mk (nameInput f) (pathInput f) (passwordInput f) (focusedField f) v
    (autoGeneratePasswordFile f) (initializeRepo f) (width f) (height f).
Definition set_autoGeneratePasswordFile (v : bool) (f : t) : t :=
  mk (nameInput f) (pathInput f) (passwordInput f) (focusedField f)
    (passwordMethod f) v (initializeRepo f) (width f) (height f).
Definition set_initializeRepo (v : bool) (f : t) : t :=
  mk (nameInput f) (pathInput f) (passwordInput f) (focusedField f)
    (passwordMethod f) (autoGeneratePasswordFile f) v (width f) (height f).
Definition set_width (v : Z) (f : t) : t :=
  mk (nameInput f) (pathInput f) (passwordInput f) (focusedField f)
    (passwordMethod f) (autoGeneratePasswordFile f) (initializeRepo f) v
    (height f).
Definition set_height (v : Z) (f : t) : t :=
  mk (nameInput f) (pathInput f) (passwordInput f) (focusedField f)
    (passwordMethod f) (autoGeneratePasswordFile f) (initializeRepo f)
    (width f) v.

Definition NewRepoForm : t :=
  let nameInput := textinput.New in
  let nameInput := textinput.set_Placeholder "my-backup" nameInput in
  let nameInput := textinput.Focus nameInput in
  let nameInput := textinput.set_CharLimit 50 nameInput in
  let pathInput := textinput.New in
  let pathInput :=
    textinput.set_Placeholder "/path/to/repo or s3:bucket/path" pathInput in
  let pathInput := textinput.set_CharLimit 200 pathInput in
  let passwordInput := textinput.New in
  let passwordInput :=
    textinput.set_Placeholder "Will be auto-generated if using file method"
      passwordInput in
  let passwordInput := textinput.set_CharLimit 200 passwordInput in
  mk nameInput pathInput passwordInput FieldName "file" true false 0 0.

Definition BlurAll (f : t) : t :=
  set_passwordInput (textinput.Blur (passwordInput f))
    (set_pathInput (textinput.Blur (pathInput f))
       (set_nameInput (textinput.Blur (nameInput f)) f)).

Definition FocusCurrent (f : t) : t :=
  if focusedField f =? FieldName
  then set_nameInput (textinput.Focus (nameInput f)) f
  else if focusedField f =? FieldPath
  then set_pathInput (textinput.Focus (pathInput f)) f
  else if focusedField f =? FieldPassword
  then set_passwordInput (textinput.Focus (passwordInput f)) f
  else f.

Definition NextField (f : t) : t :=
  let f := BlurAll f in
  let f := set_focusedField (int_add (focusedField f) 1) f in
  let f := if FieldSubmit <? focusedField f then set_focusedField FieldName f
           else f in
  let f :=
    if (focusedField f =? FieldGeneratePasswordFile)
       && String.eqb (passwordMethod f) "command" then
      let f := set_focusedField (int_add (focusedField f) 1) f in
      if FieldSubmit <? focusedField f then set_focusedField FieldName f else f
    else f in
  FocusCurrent f.

Definition PrevField (f : t) : t :=
  let f := BlurAll f in
  let f := set_focusedField (int_sub (focusedField f) 1) f in
  let f := if focusedField f <? FieldName then set_focusedField FieldSubmit f
           else f in
  let f :=
    if (focusedField f =? FieldGeneratePasswordFile)
       && String.eqb (passwordMethod f) "command" then
      let f := set_focusedField (int_sub (focusedField f) 1) f in
      if focusedField f <? FieldName then set_focusedField FieldSubmit f else f
    else f in
  FocusCurrent f.

Definition nextPasswordMethod (f : t) : string :=
  if String.eqb (passwordMethod f) "file" then "command"
  else if String.eqb (passwordMethod f) "command" then "file"
  else "file".

Definition updatePasswordPlaceholder (f : t) : t :=
  if String.eqb (passwordMethod f) "file" then
    if autoGeneratePasswordFile f
    then set_passwordInput
           (textinput.set_Placeholder
              "Will be auto-generated: ~/.config/lazyrestic/passwords/<name>.txt"
              (passwordInput f)) f
    else set_passwordInput
           (textinput.set_Placeholder "/path/to/password-file" (passwordInput f)) f
  else if String.eqb (passwordMethod f) "command"
  then set_passwordInput
         (textinput.set_Placeholder "pass show restic/my-repo" (passwordInput f)) f
  else f.

Definition Update (env : Env.t) (key : string) (f : t) : t * option Z :=
  if String.eqb key "tab" || String.eqb key "down" then (NextField f, None)
  else if String.eqb key "shift+tab" || String.eqb key "up"
  then (PrevField f, None)
  else if focusedField f =? FieldName then
    let (i, cmd) := Env.textinput_Update env (nameInput f) key in
    (set_nameInput i f, cmd)
  else if focusedField f =? FieldPath then
    let (i, cmd) := Env.textinput_Update env (pathInput f) key in
    (set_pathInput i f, cmd)
  else if focusedField f =? FieldPassword then
    let (i, cmd) := Env.textinput_Update env (passwordInput f) key in
    (set_passwordInput i f, cmd)
  else if focusedField f =? FieldPasswordMethod then
    if String.eqb key " " then
      let oldMethod := passwordMethod f in
      let f := set_passwordMethod (nextPasswordMethod f) f in
      if negb (String.eqb oldMethod (passwordMethod f)) then
        let f := set_passwordInput
                   (Env.textinput_SetValue env (passwordInput f) "") f in
        (updatePasswordPlaceholder f, None)
      else (f, None)
    else (f, None)
  else if focusedField f =? FieldGeneratePasswordFile then
    if String.eqb key " " then
      let f := set_autoGeneratePasswordFile (negb (autoGeneratePasswordFile f)) f in
      if autoGeneratePasswordFile f
      then (set_passwordInput
              (Env.textinput_SetValue env (passwordInput f) "") f, None)
      else (f, None)
    else (f, None)
  else if focusedField f =? FieldInitialize then
    if String.eqb key " "
    then (set_initializeRepo (negb (initializeRepo f)) f, None)
    else (f, None)
  else (f, None).

Definition GetName (f : t) : string := textinput.Value (nameInput f).
Definition GetPath (f : t) : string := textinput.Value (pathInput f).
Definition GetPassword (f : t) : string := textinput.Value (passwordInput f).
Definition GetPasswordMethod (f : t) : string := passwordMethod f.
Definition ShouldInitialize (f : t) : bool := initializeRepo f.
Definition SetPath (env : Env.t) (path : string) (f : t) : t :=
  set_pathInput (Env.textinput_SetValue env (pathInput f) path) f.
Definition SetName (env : Env.t) (name : string) (f : t) : t :=
  set_nameInput (Env.textinput_SetValue env (nameInput f) name) f.
Definition ShouldAutoGeneratePasswordFile (f : t) : bool :=
  String.eqb (passwordMethod f) "file" && autoGeneratePasswordFile f.
Definition GetFocusedField (f : t) : Z := focusedField f.

Definition SetSize (w h : Z) (f : t) : t :=
  let f := set_height h (set_width w f) in
  let f := set_nameInput (textinput.set_Width (int_sub w 20) (nameInput f)) f in
  let f := set_pathInput (textinput.set_Width (int_sub w 20) (pathInput f)) f in
  set_passwordInput (textinput.set_Width (int_sub w 20) (passwordInput f)) f.
End RepoForm.

(** [ConfirmationDialog.Update] and [FileBrowser.GoUp], which call into
    libraries. *)
Definition ConfirmationDialog_Update (env : Env.t) (key : string)
    (cd : ConfirmationDialog.t) : ConfirmationDialog.t * option Z :=
  let (i, cmd) := Env.textinput_Update env (ConfirmationDialog.input cd) key in
  (ConfirmationDialog.set_input i cd, cmd).

Definition FileBrowser_GoUp (env : Env.t) (fb : FileBrowser.t) : FileBrowser.t :=
  if negb (FileBrowser.CanGoUp fb) then fb
  else
    let fb := FileBrowser.set_currentPath
                (Env.path_Dir env (FileBrowser.currentPath fb)) fb in
    if String.eqb (FileBrowser.currentPath fb) "."
    then FileBrowser.set_currentPath "/" fb else fb.

(** ** Package [restic]: the streaming adapters *)

Module BackupMessage.
Record t := mk {
  Progress : option BackupProgress.t;
  Summary : option BackupSummary.t;
  Error : error
}.
End BackupMessage.

Module RestoreMessage.
Record t := mk {
  Progress : option RestoreProgress.t;
  Summary : option RestoreSummary.t;
  Error : error
}.
End RestoreMessage.

(** What a goroutine does to its channel. *)
Inductive chan_action (M : Type) :=
| Send (m : M)
| Close.
Arguments Send {M} m.
Arguments Close {M}.

(** The messages of a trace of channel actions, in order. *)
Fixpoint sent {M : Type} (trace : list (chan_action M)) : list M :=
  match trace with
  | [] => []
  | Send m :: rest => m :: sent rest
  | Close :: rest => sent rest
  end.

(** A line of the standard output of [restic backup --json], as
    [json.Unmarshal] reads it: [NotJSON] when decoding the type
    discriminator fails, otherwise the [message_type] and the outcome of
    decoding the line as a progress record and as a summary record
    ([None]: the decoder returned an error). *)
Inductive backup_line :=
| NotJSON (text : string)
| Record_ (message_type : string)
          (as_progress : option BackupProgress.t)
          (as_summary : option BackupSummary.t).

(** The behaviour of one run of the external program, as the adapter
    observes it: the errors of creating the pipes and of starting, the
    lines the scanner delivers, the error of the scanner, the text on
    standard error and the error of [cmd.Wait]. *)
Module Process.
Record t (L : Type) := mk {
  stdoutPipeErr : error;
  stderrPipeErr : error;
  startErr : error;
  stdout : list L;
  scanErr : error;
  stderrData : string;
  waitErr : error
}.
Arguments mk {L}.
Arguments stdoutPipeErr {L}.
Arguments stderrPipeErr {L}.
Arguments startErr {L}.
Arguments stdout {L}.
Arguments scanErr {L}.
Arguments stderrData {L}.
Arguments waitErr {L}.
End Process.

Module restic.

(** The argument vector of [restic backup]. *)
Definition backup_args (opts : BackupOptions.t) : list string :=
  let args := ["backup"; "--json"] in
  let args := fold_left (fun args tag => args ++ ["--tag"; tag])
                        (BackupOptions.Tags opts) args in
  let args := fold_left (fun args exclude => args ++ ["--exclude"; exclude])
                        (BackupOptions.Exclude opts) args in
  args ++ BackupOptions.Paths opts.

(** The argument vector of [restic restore]. *)
Definition restore_args (opts : RestoreOptions.t) : list string :=
  let args := ["restore"; RestoreOptions.SnapshotID opts] in
  let args := if negb (is_empty (RestoreOptions.Target opts))
              then args ++ ["--target"; RestoreOptions.Target opts] else args in
  fold_left (fun args include => args ++ ["--include"; include])
            (RestoreOptions.Include opts) args.

(** One turn of the scanner loop of [BackupWithChannel]. *)
Definition backup_line_sends (line : backup_line)
  : list (chan_action BackupMessage.t) :=
  match line with
  | NotJSON _ => []
  | Record_ message_type as_progress as_summary =>
      if String.eqb message_type "status" then
        match as_progress with
        | None => []
        | Some progress => [Send (BackupMessage.mk (Some progress) None None)]
        end
      else if String.eqb message_type "summary" then
        match as_summary with
        | None => []
        | Some summary => [Send (BackupMessage.mk None (Some summary) None)]
        end
      else []
  end.

Definition backup_error (msg : string) : chan_action BackupMessage.t :=
  Send (BackupMessage.mk None None (Some msg)).

(** [BackupWithChannel]: the sends on [updates]; the deferred [close] ends
    every path. *)
Definition BackupWithChannel (proc : Process.t backup_line)
  : list (chan_action BackupMessage.t) :=
  let body :=
    match Process.stdoutPipeErr proc with
    | Some err => [backup_error ("failed to create stdout pipe: " ++ err)%string]
    | None =>
    match Process.stderrPipeErr proc with
    | Some err => [backup_error ("failed to create stderr pipe: " ++ err)%string]
    | None =>
    match Process.startErr proc with
    | Some err => [backup_error ("failed to start backup: " ++ err)%string]
    | None =>
        flat_map backup_line_sends (Process.stdout proc)
        ++ match Process.scanErr proc with
           | Some err =>
               [backup_error ("error reading backup output: " ++ err)%string]
           | None =>
               match Process.waitErr proc with
               | Some err =>
                   [backup_error ("backup failed: " ++ err ++ " (stderr: "
                                  ++ Process.stderrData proc ++ ")")%string]
               | None => []
               end
           end
    end end end in
  body ++ [Close].

Definition restore_error (msg : string) : chan_action RestoreMessage.t :=
  Send (RestoreMessage.mk None None (Some msg)).

(** One turn of the scanner loop of [RestoreWithChannel]. *)
Definition restore_line_sends (line : string)
  : list (chan_action RestoreMessage.t) :=
  if Contains line "restoring"
  then [Send (RestoreMessage.mk (Some (RestoreProgress.mk "status")) None None)]
  else [].

Definition RestoreWithChannel (proc : Process.t string)
  : list (chan_action RestoreMessage.t) :=
  let body :=
    match Process.stdoutPipeErr proc with
    | Some err => [restore_error ("failed to create stdout pipe: " ++ err)%string]
    | None =>
    match Process.stderrPipeErr proc with
    | Some err => [restore_error ("failed to create stderr pipe: " ++ err)%string]
    | None =>
    match Process.startErr proc with
    | Some err => [restore_error ("failed to start restore: " ++ err)%string]
    | None =>
        flat_map restore_line_sends (Process.stdout proc)
        ++ match Process.scanErr proc with
           | Some err =>
               [restore_error ("error reading restore output: " ++ err)%string]
           | None =>
               match Process.waitErr proc with
               | Some err =>
                   [restore_error ("restore failed: " ++ err ++ " (stderr: "
                                   ++ Process.stderrData proc ++ ")")%string]
               | None =>
                   [Send (RestoreMessage.mk None
                            (Some (RestoreSummary.mk "summary")) None)]
               end
           end
    end end end in
  body ++ [Close].

End restic.

(** *** Terminal events on an update channel *)

Definition backup_terminal (m : BackupMessage.t) : bool :=
  match BackupMessage.Summary m, BackupMessage.Error m with
  | None, None => false
  | _, _ => true
  end.

Definition restore_terminal (m : RestoreMessage.t) : bool :=
  match RestoreMessage.Summary m, RestoreMessage.Error m with
  | None, None => false
  | _, _ => true
  end.

Definition backup_is_error (m : BackupMessage.t) : bool :=
  match BackupMessage.Error m with Some _ => true | None => false end.

(** The number of elements of [l] that satisfy [p]. *)
Definition count {A : Type} (p : A -> bool) (l : list A) : nat :=
  List.length (filter p l).

(** The claim on a trace: at most one terminal event, nothing sent after
    it, and the channel closed at the end. *)
Definition terminal_exclusive {M : Type} (terminal : M -> bool)
    (trace : list (chan_action M)) : Prop :=
  (count terminal (sent trace) <= 1)%nat
  /\ (forall before m after,
         sent trace = before ++ m :: after -> terminal m = true -> after = [])
  /\ exists body, trace = map Send body ++ [Close].

(** Processes used as examples: a backup that prints progress and a
    summary and then exits with status 3 (some files could not be read), and
    one whose output goes on after the summary. *)
Module SampleProcess.
Definition progress : BackupProgress.t :=
  BackupProgress.mk "status" 10 5 1000 500 ["/home/a"] 1 1.

Definition summary : BackupSummary.t :=
  BackupSummary.mk "summary" 3 1 6 10 1000 "abc123".

Definition incomplete_backup : Process.t backup_line :=
  Process.mk None None None
    [Record_ "status" (Some progress) None;
     Record_ "summary" None (Some summary)]
    None "Warning: failed to read all source data" (Some "exit status 3").

Definition summary_then_status : Process.t backup_line :=
  Process.mk None None None
    [Record_ "summary" None (Some summary);
     Record_ "status" (Some progress) None]
    None "" None.

Definition clean_restore : Process.t string :=
  Process.mk None None None
    ["restoring <Snapshot abc123> to /tmp/out"; "Summary: Restored 3 files"]
    None "" None.

Definition silent_backup : Process.t backup_line :=
  Process.mk None None None
    [NotJSON "open repository"; Record_ "status" (Some progress) None]
    None "" None.
End SampleProcess.

(** ** Package [model]: messages and commands *)

(** The messages of the event loop.  A channel travelling in a progress
    message is the list of the messages still to be received from it, the
    close coming after the last one; [None] is the nil channel. *)
Inductive Msg :=
| WindowSizeMsg (Width Height : Z)
| RepositoriesLoadedMsg (Repositories : list Repository.t)
| SnapshotsLoadedMsg (Snapshots : list Snapshot.t) (Error : error)
    (FilteredCount : Z) (RepoName RepoPath : string)
| FilesLoadedMsg (Files : list FileNode.t) (Error : error)
| BackupProgressMsg (Progress : option BackupProgress.t)
    (Updates : option (list BackupMessage.t))
| BackupSummaryMsg (Summary : option BackupSummary.t) (Error : error)
| RestoreProgressMsg (Progress : option RestoreProgress.t)
    (Updates : option (list RestoreMessage.t))
| RestoreSummaryMsg (Summary : option RestoreSummary.t) (Error : error)
| ForgetDryRunMsg (Results : list ForgetResult.t) (Policy : ForgetPolicy.t)
    (Error : error)
| ForgetCompleteMsg (Error : error)
| PruneDryRunMsg (Output : string) (Error : error)
| PruneCompleteMsg (Error : error)
| ScannedReposMsg (FoundRepos : list RepositoryConfig.t)
| CacheCleanupMsg (Output : string) (Error : error)
| UnlockMsg (Output : string) (Error : error)
| RepoRemovedMsg (RepoName : string) (Error : error)
| KeyMsg (key : string)
| OtherMsg.

(** A [tea.Cmd] is a closure that the runtime calls for its message; the
    closures that [Update] can return are listed, each with the values it
    captured.  [runBackup] and [runRestore] are the closures of
    [executeBackup] and [executeRestore] that start the session. *)
Inductive Cmd :=
| Quit
| Batch (cmds : list Cmd)
| InputCmd (c : Z)
| loadRepositories
| loadSnapshots (currentRepoIndex : Z)
| loadFiles (currentRepoIndex : Z)
| cleanupCache (currentRepoIndex : Z)
| unlockRepository (currentRepoIndex : Z)
| removeRepository (repoToRemove : string)
| scanForRepositories
| Return (msg : Msg)
| runBackup (repoConfig : RepositoryConfig.t) (opts : BackupOptions.t)
| runRestore (repoConfig : RepositoryConfig.t) (opts : RestoreOptions.t)
| listenForBackupUpdates (updates : list BackupMessage.t)
| listenForRestoreUpdates (updates : list RestoreMessage.t).

(** [waitForBackupUpdate]: one receive on the channel. *)
Definition waitForBackupUpdate (updates : list BackupMessage.t) : Msg :=
  match updates with
  | [] => BackupSummaryMsg None None
  | msg :: rest =>
      match BackupMessage.Error msg with
      | Some err => BackupSummaryMsg None (Some err)
      | None =>
          match BackupMessage.Progress msg with
          | Some progress => BackupProgressMsg (Some progress) (Some rest)
          | None =>
              match BackupMessage.Summary msg with
              | Some summary => BackupSummaryMsg (Some summary) None
              | None => BackupProgressMsg None (Some rest)
              end
          end
      end
  end.

(** [waitForRestoreUpdate]. *)
Definition waitForRestoreUpdate (updates : list RestoreMessage.t) : Msg :=
  match updates with
  | [] => RestoreSummaryMsg None None
  | msg :: rest =>
      match RestoreMessage.Error msg with
      | Some err => RestoreSummaryMsg None (Some err)
      | None =>
          match RestoreMessage.Progress msg with
          | Some progress => RestoreProgressMsg (Some progress) (Some rest)
          | None =>
              match RestoreMessage.Summary msg with
              | Some summary => RestoreSummaryMsg (Some summary) None
              | None => RestoreProgressMsg None (Some rest)
              end
          end
      end
  end.

(** ** Package [model]: the state *)

Module Model.
Record t := mk {
  width : Z;
  height : Z;
  ready : bool;
  tooSmall : bool;
  config : ResticConfig.t;
  activePanel : Panel;
  repositories : list Repository.t;
  currentRepoIndex : Z;
  loadingSnapshots : bool;
  loadingRepositories : bool;
  repoPanel : RepositoryPanel.t;
  metricsPanel : RepoMetricsPanel.t;
  snapPanel : SnapshotPanel.t;
  opsPanel : OperationsPanel.t;
  showHelp : bool;
  showRepoForm : bool;
  repoForm : option RepoForm.t;
  showBackupForm : bool;
  backupForm : BackupForm.t;
  backupInProgress : bool;
  currentBackupProgress : option BackupProgress.t;
  showRestoreForm : bool;
  restoreForm : option RestoreForm.t;
  restoreInProgress : bool;
  currentRestoreProgress : option RestoreProgress.t;
  filterInputActive : bool;
  filterInputText : string;
  showFileBrowser : bool;
  fileBrowser : option FileBrowser.t;
  showFoundRepos : bool;
  foundRepos : list RepositoryConfig.t;
  selectedFound : Z;
  showForgetForm : bool;
  forgetForm : option ForgetForm.t;
  showForgetPreview : bool;
  forgetPreview : option ForgetPreview.t;
  showForgetConfirm : bool;
  forgetConfirmDialog : option ConfirmationDialog.t;
  forgetPreviewResults : list ForgetResult.t;
  forgetPolicy : ForgetPolicy.t;
  showPruneConfirm : bool;
  pruneConfirmDialog : option ConfirmationDialog.t;
  pruneDryRunOutput : string;
  showRemoveConfirm : bool;
  removeConfirmDialog : option ConfirmationDialog.t;
  repoToRemove : string
}.

Definition set_width (v : Z) (m : t) : t :=
  mk v (height m) (ready m) (tooSmall m) (config m) (activePanel m)
    (repositories m) (currentRepoIndex m) (loadingSnapshots m)
    (loadingRepositories m) (repoPanel m) (metricsPanel m) (snapPanel m)
    (opsPanel m) (showHelp m) (showRepoForm m) (repoForm m) (showBackupForm
    m) (backupForm m) (backupInProgress m) (currentBackupProgress m)
    (showRestoreForm m) (restoreForm m) (restoreInProgress m)
    (currentRestoreProgress m) (filterInputActive m) (filterInputText m)
    (showFileBrowser m) (fileBrowser m) (showFoundRepos m) (foundRepos m)
    (selectedFound m) (showForgetForm m) (forgetForm m) (showForgetPreview
    m) (forgetPreview m) (showForgetConfirm m) (forgetConfirmDialog m)
    (forgetPreviewResults m) (forgetPolicy m) (showPruneConfirm m)
    (pruneConfirmDialog m) (pruneDryRunOutput m) (showRemoveConfirm m)
    (removeConfirmDialog m) (repoToRemove m).
Definition set_height (v : Z) (m : t) : t :=
  mk (width m) v (ready m) (tooSmall m) (config m) (activePanel m)
    (repositories m) (currentRepoIndex m) (loadingSnapshots m)
    (loadingRepositories m) (repoPanel m) (metricsPanel m) (snapPanel m)
    (opsPanel m) (showHelp m) (showRepoForm m) (repoForm m) (showBackupForm
    m) (backupForm m) (backupInProgress m) (currentBackupProgress m)
    (showRestoreForm m) (restoreForm m) (restoreInProgress m)
    (currentRestoreProgress m) (filterInputActive m) (filterInputText m)
    (showFileBrowser m) (fileBrowser m) (showFoundRepos m) (foundRepos m)
    (selectedFound m) (showForgetForm m) (forgetForm m) (showForgetPreview
    m) (forgetPreview m) (showForgetConfirm m) (forgetConfirmDialog m)
    (forgetPreviewResults m) (forgetPolicy m) (showPruneConfirm m)
    (pruneConfirmDialog m) (pruneDryRunOutput m) (showRemoveConfirm m)
    (removeConfirmDialog m) (repoToRemove m).
Definition set_ready (v : bool) (m : t) : t :=
  mk (width m) (height m) v (tooSmall m) (config m) (activePanel m)
    (repositories m) (currentRepoIndex m) (loadingSnapshots m)
    (loadingRepositories m) (repoPanel m) (metricsPanel m) (snapPanel m)
    (opsPanel m) (showHelp m) (showRepoForm m) (repoForm m) (showBackupForm
    m) (backupForm m) (backupInProgress m) (currentBackupProgress m)
    (showRestoreForm m) (restoreForm m) (restoreInProgress m)
    (currentRestoreProgress m) (filterInputActive m) (filterInputText m)
    (showFileBrowser m) (fileBrowser m) (showFoundRepos m) (foundRepos m)
    (selectedFound m) (showForgetForm m) (forgetForm m) (showForgetPreview
    m) (forgetPreview m) (showForgetConfirm m) (forgetConfirmDialog m)
    (forgetPreviewResults m) (forgetPolicy m) (showPruneConfirm m)
    (pruneConfirmDialog m) (pruneDryRunOutput m) (showRemoveConfirm m)
    (removeConfirmDialog m) (repoToRemove m).
Definition set_tooSmall (v : bool) (m : t) : t :=
  mk (width m) (height m) (ready m) v (config m) (activePanel m)
    (repositories m) (currentRepoIndex m) (loadingSnapshots m)
    (loadingRepositories m) (repoPanel m) (metricsPanel m) (snapPanel m)
    (opsPanel m) (showHelp m) (showRepoForm m) (repoForm m) (showBackupForm
    m) (backupForm m) (backupInProgress m) (currentBackupProgress m)
    (showRestoreForm m) (restoreForm m) (restoreInProgress m)
    (currentRestoreProgress m) (filterInputActive m) (filterInputText m)
    (showFileBrowser m) (fileBrowser m) (showFoundRepos m) (foundRepos m)
    (selectedFound m) (showForgetForm m) (forgetForm m) (showForgetPreview
    m) (forgetPreview m) (showForgetConfirm m) (forgetConfirmDialog m)
    (forgetPreviewResults m) (forgetPolicy m) (showPruneConfirm m)
    (pruneConfirmDialog m) (pruneDryRunOutput m) (showRemoveConfirm m)
    (removeConfirmDialog m) (repoToRemove m).
Definition set_config (v : ResticConfig.t) (m : t) : t :=
  mk (width m) (height m) (ready m) (tooSmall m) v (activePanel m)
    (repositories m) (currentRepoIndex m) (loadingSnapshots m)
    (loadingRepositories m) (repoPanel m) (metricsPanel m) (snapPanel m)
    (opsPanel m) (showHelp m) (showRepoForm m) (repoForm m) (showBackupForm
    m) (backupForm m) (backupInProgress m) (currentBackupProgress m)
    (showRestoreForm m) (restoreForm m) (restoreInProgress m)
    (currentRestoreProgress m) (filterInputActive m) (filterInputText m)
    (showFileBrowser m) (fileBrowser m) (showFoundRepos m) (foundRepos m)
    (selectedFound m) (showForgetForm m) (forgetForm m) (showForgetPreview
    m) (forgetPreview m) (showForgetConfirm m) (forgetConfirmDialog m)
    (forgetPreviewResults m) (forgetPolicy m) (showPruneConfirm m)
    (pruneConfirmDialog m) (pruneDryRunOutput m) (showRemoveConfirm m)
    (removeConfirmDialog m) (repoToRemove m).
Definition set_activePanel (v : Panel) (m : t) : t :=
  mk (width m) (height m) (ready m) (tooSmall m) (config m) v (repositories
    m) (currentRepoIndex m) (loadingSnapshots m) (loadingRepositories m)
    (repoPanel m) (metricsPanel m) (snapPanel m) (opsPanel m) (showHelp m)
    (showRepoForm m) (repoForm m) (showBackupForm m) (backupForm m)
    (backupInProgress m) (currentBackupProgress m) (showRestoreForm m)
    (restoreForm m) (restoreInProgress m) (currentRestoreProgress m)
    (filterInputActive m) (filterInputText m) (showFileBrowser m)
    (fileBrowser m) (showFoundRepos m) (foundRepos m) (selectedFound m)
    (showForgetForm m) (forgetForm m) (showForgetPreview m) (forgetPreview
    m) (showForgetConfirm m) (forgetConfirmDialog m) (forgetPreviewResults
    m) (forgetPolicy m) (showPruneConfirm m) (pruneConfirmDialog m)
    (pruneDryRunOutput m) (showRemoveConfirm m) (removeConfirmDialog m)
    (repoToRemove m).
Definition set_repositories (v : list Repository.t) (m : t) : t :=
  mk (width m) (height m) (ready m) (tooSmall m) (config m) (activePanel m)
    v (currentRepoIndex m) (loadingSnapshots m) (loadingRepositories m)
    (repoPanel m) (metricsPanel m) (snapPanel m) (opsPanel m) (showHelp m)
    (showRepoForm m) (repoForm m) (showBackupForm m) (backupForm m)
    (backupInProgress m) (currentBackupProgress m) (showRestoreForm m)
    (restoreForm m) (restoreInProgress m) (currentRestoreProgress m)
    (filterInputActive m) (filterInputText m) (showFileBrowser m)
    (fileBrowser m) (showFoundRepos m) (foundRepos m) (selectedFound m)
    (showForgetForm m) (forgetForm m) (showForgetPreview m) (forgetPreview
    m) (showForgetConfirm m) (forgetConfirmDialog m) (forgetPreviewResults
    m) (forgetPolicy m) (showPruneConfirm m) (pruneConfirmDialog m)
    (pruneDryRunOutput m) (showRemoveConfirm m) (removeConfirmDialog m)
    (repoToRemove m).
Definition set_currentRepoIndex (v : Z) (m : t) : t :=
  mk (width m) (height m) (ready m) (tooSmall m) (config m) (activePanel m)
    (repositories m) v (loadingSnapshots m) (loadingRepositories m)
    (repoPanel m) (metricsPanel m) (snapPanel m) (opsPanel m) (showHelp m)
    (showRepoForm m) (repoForm m) (showBackupForm m) (backupForm m)
    (backupInProgress m) (currentBackupProgress m) (showRestoreForm m)
    (restoreForm m) (restoreInProgress m) (currentRestoreProgress m)
    (filterInputActive m) (filterInputText m) (showFileBrowser m)
    (fileBrowser m) (showFoundRepos m) (foundRepos m) (selectedFound m)
    (showForgetForm m) (forgetForm m) (showForgetPreview m) (forgetPreview
    m) (showForgetConfirm m) (forgetConfirmDialog m) (forgetPreviewResults
    m) (forgetPolicy m) (showPruneConfirm m) (pruneConfirmDialog m)
    (pruneDryRunOutput m) (showRemoveConfirm m) (removeConfirmDialog m)
    (repoToRemove m).
Definition set_loadingSnapshots (v : bool) (m : t) : t :=
  mk (width m) (height m) (ready m) (tooSmall m) (config m) (activePanel m)
    (repositories m) (currentRepoIndex m) v (loadingRepositories m)
    (repoPanel m) (metricsPanel m) (snapPanel m) (opsPanel m) (showHelp m)
    (showRepoForm m) (repoForm m) (showBackupForm m) (backupForm m)
    (backupInProgress m) (currentBackupProgress m) (showRestoreForm m)
    (restoreForm m) (restoreInProgress m) (currentRestoreProgress m)
    (filterInputActive m) (filterInputText m) (showFileBrowser m)
    (fileBrowser m) (showFoundRepos m) (foundRepos m) (selectedFound m)
    (showForgetForm m) (forgetForm m) (showForgetPreview m) (forgetPreview
    m) (showForgetConfirm m) (forgetConfirmDialog m) (forgetPreviewResults
    m) (forgetPolicy m) (showPruneConfirm m) (pruneConfirmDialog m)
    (pruneDryRunOutput m) (showRemoveConfirm m) (removeConfirmDialog m)
    (repoToRemove m).
Definition set_loadingRepositories (v : bool) (m : t) : t :=
  mk (width m) (height m) (ready m) (tooSmall m) (config m) (activePanel m)
    (repositories m) (currentRepoIndex m) (loadingSnapshots m) v (repoPanel
    m) (metricsPanel m) (snapPanel m) (opsPanel m) (showHelp m)
    (showRepoForm m) (repoForm m) (showBackupForm m) (backupForm m)
    (backupInProgress m) (currentBackupProgress m) (showRestoreForm m)
    (restoreForm m) (restoreInProgress m) (currentRestoreProgress m)
    (filterInputActive m) (filterInputText m) (showFileBrowser m)
    (fileBrowser m) (showFoundRepos m) (foundRepos m) (selectedFound m)
    (showForgetForm m) (forgetForm m) (showForgetPreview m) (forgetPreview
    m) (showForgetConfirm m) (forgetConfirmDialog m) (forgetPreviewResults
    m) (forgetPolicy m) (showPruneConfirm m) (pruneConfirmDialog m)
    (pruneDryRunOutput m) (showRemoveConfirm m) (removeConfirmDialog m)
    (repoToRemove m).
Definition set_repoPanel (v : RepositoryPanel.t) (m : t) : t :=
  mk (width m) (height m) (ready m) (tooSmall m) (config m) (activePanel m)
    (repositories m) (currentRepoIndex m) (loadingSnapshots m)
    (loadingRepositories m) v (metricsPanel m) (snapPanel m) (opsPanel m)
    (showHelp m) (showRepoForm m) (repoForm m) (showBackupForm m)
    (backupForm m) (backupInProgress m) (currentBackupProgress m)
    (showRestoreForm m) (restoreForm m) (restoreInProgress m)
    (currentRestoreProgress m) (filterInputActive m) (filterInputText m)
    (showFileBrowser m) (fileBrowser m) (showFoundRepos m) (foundRepos m)
    (selectedFound m) (showForgetForm m) (forgetForm m) (showForgetPreview
    m) (forgetPreview m) (showForgetConfirm m) (forgetConfirmDialog m)
    (forgetPreviewResults m) (forgetPolicy m) (showPruneConfirm m)
    (pruneConfirmDialog m) (pruneDryRunOutput m) (showRemoveConfirm m)
    (removeConfirmDialog m) (repoToRemove m).
Definition set_metricsPanel (v : RepoMetricsPanel.t) (m : t) : t :=
  mk (width m) (height m) (ready m) (tooSmall m) (config m) (activePanel m)
    (repositories m) (currentRepoIndex m) (loadingSnapshots m)
    (loadingRepositories m) (repoPanel m) v (snapPanel m) (opsPanel m)
    (showHelp m) (showRepoForm m) (repoForm m) (showBackupForm m)
    (backupForm m) (backupInProgress m) (currentBackupProgress m)
    (showRestoreForm m) (restoreForm m) (restoreInProgress m)
    (currentRestoreProgress m) (filterInputActive m) (filterInputText m)
    (showFileBrowser m) (fileBrowser m) (showFoundRepos m) (foundRepos m)
    (selectedFound m) (showForgetForm m) (forgetForm m) (showForgetPreview
    m) (forgetPreview m) (showForgetConfirm m) (forgetConfirmDialog m)
    (forgetPreviewResults m) (forgetPolicy m) (showPruneConfirm m)
    (pruneConfirmDialog m) (pruneDryRunOutput m) (showRemoveConfirm m)
    (removeConfirmDialog m) (repoToRemove m).
Definition set_snapPanel (v : SnapshotPanel.t) (m : t) : t :=
  mk (width m) (height m) (ready m) (tooSmall m) (config m) (activePanel m)
    (repositories m) (currentRepoIndex m) (loadingSnapshots m)
    (loadingRepositories m) (repoPanel m) (metricsPanel m) v (opsPanel m)
    (showHelp m) (showRepoForm m) (repoForm m) (showBackupForm m)
    (backupForm m) (backupInProgress m) (currentBackupProgress m)
    (showRestoreForm m) (restoreForm m) (restoreInProgress m)
    (currentRestoreProgress m) (filterInputActive m) (filterInputText m)
    (showFileBrowser m) (fileBrowser m) (showFoundRepos m) (foundRepos m)
    (selectedFound m) (showForgetForm m) (forgetForm m) (showForgetPreview
    m) (forgetPreview m) (showForgetConfirm m) (forgetConfirmDialog m)
    (forgetPreviewResults m) (forgetPolicy m) (showPruneConfirm m)
    (pruneConfirmDialog m) (pruneDryRunOutput m) (showRemoveConfirm m)
    (removeConfirmDialog m) (repoToRemove m).
Definition set_opsPanel (v : OperationsPanel.t) (m : t) : t :=
  mk (width m) (height m) (ready m) (tooSmall m) (config m) (activePanel m)
    (repositories m) (currentRepoIndex m) (loadingSnapshots m)
    (loadingRepositories m) (repoPanel m) (metricsPanel m) (snapPanel m) v
    (showHelp m) (showRepoForm m) (repoForm m) (showBackupForm m)
    (backupForm m) (backupInProgress m) (currentBackupProgress m)
    (showRestoreForm m) (restoreForm m) (restoreInProgress m)
    (currentRestoreProgress m) (filterInputActive m) (filterInputText m)
    (showFileBrowser m) (fileBrowser m) (showFoundRepos m) (foundRepos m)
    (selectedFound m) (showForgetForm m) (forgetForm m) (showForgetPreview
    m) (forgetPreview m) (showForgetConfirm m) (forgetConfirmDialog m)
    (forgetPreviewResults m) (forgetPolicy m) (showPruneConfirm m)
    (pruneConfirmDialog m) (pruneDryRunOutput m) (showRemoveConfirm m)
    (removeConfirmDialog m) (repoToRemove m).
Definition set_showHelp (v : bool) (m : t) : t :=
  mk (width m) (height m) (ready m) (tooSmall m) (config m) (activePanel m)
    (repositories m) (currentRepoIndex m) (loadingSnapshots m)
    (loadingRepositories m) (repoPanel m) (metricsPanel m) (snapPanel m)
    (opsPanel m) v (showRepoForm m) (repoForm m) (showBackupForm m)
    (backupForm m) (backupInProgress m) (currentBackupProgress m)
    (showRestoreForm m) (restoreForm m) (restoreInProgress m)
    (currentRestoreProgress m) (filterInputActive m) (filterInputText m)
    (showFileBrowser m) (fileBrowser m) (showFoundRepos m) (foundRepos m)
    (selectedFound m) (showForgetForm m) (forgetForm m) (showForgetPreview
    m) (forgetPreview m) (showForgetConfirm m) (forgetConfirmDialog m)
    (forgetPreviewResults m) (forgetPolicy m) (showPruneConfirm m)
    (pruneConfirmDialog m) (pruneDryRunOutput m) (showRemoveConfirm m)
    (removeConfirmDialog m) (repoToRemove m).
Definition set_showRepoForm (v : bool) (m : t) : t :=
  mk (width m) (height m) (ready m) (tooSmall m) (config m) (activePanel m)
    (repositories m) (currentRepoIndex m) (loadingSnapshots m)
    (loadingRepositories m) (repoPanel m) (metricsPanel m) (snapPanel m)
    (opsPanel m) (showHelp m) v (repoForm m) (showBackupForm m) (backupForm
    m) (backupInProgress m) (currentBackupProgress m) (showRestoreForm m)
    (restoreForm m) (restoreInProgress m) (currentRestoreProgress m)
    (filterInputActive m) (filterInputText m) (showFileBrowser m)
    (fileBrowser m) (showFoundRepos m) (foundRepos m) (selectedFound m)
    (showForgetForm m) (forgetForm m) (showForgetPreview m) (forgetPreview
    m) (showForgetConfirm m) (forgetConfirmDialog m) (forgetPreviewResults
    m) (forgetPolicy m) (showPruneConfirm m) (pruneConfirmDialog m)
    (pruneDryRunOutput m) (showRemoveConfirm m) (removeConfirmDialog m)
    (repoToRemove m).
Definition set_repoForm (v : option RepoForm.t) (m : t) : t :=
  mk (width m) (height m) (ready m) (tooSmall m) (config m) (activePanel m)
    (repositories m) (currentRepoIndex m) (loadingSnapshots m)
    (loadingRepositories m) (repoPanel m) (metricsPanel m) (snapPanel m)
    (opsPanel m) (showHelp m) (showRepoForm m) v (showBackupForm m)
    (backupForm m) (backupInProgress m) (currentBackupProgress m)
    (showRestoreForm m) (restoreForm m) (restoreInProgress m)
    (currentRestoreProgress m) (filterInputActive m) (filterInputText m)
    (showFileBrowser m) (fileBrowser m) (showFoundRepos m) (foundRepos m)
    (selectedFound m) (showForgetForm m) (forgetForm m) (showForgetPreview
    m) (forgetPreview m) (showForgetConfirm m) (forgetConfirmDialog m)
    (forgetPreviewResults m) (forgetPolicy m) (showPruneConfirm m)
    (pruneConfirmDialog m) (pruneDryRunOutput m) (showRemoveConfirm m)
    (removeConfirmDialog m) (repoToRemove m).
Definition set_showBackupForm (v : bool) (m : t) : t :=
  mk (width m) (height m) (ready m) (tooSmall m) (config m) (activePanel m)
    (repositories m) (currentRepoIndex m) (loadingSnapshots m)
    (loadingRepositories m) (repoPanel m) (metricsPanel m) (snapPanel m)
    (opsPanel m) (showHelp m) (showRepoForm m) (repoForm m) v (backupForm m)
    (backupInProgress m) (currentBackupProgress m) (showRestoreForm m)
    (restoreForm m) (restoreInProgress m) (currentRestoreProgress m)
    (filterInputActive m) (filterInputText m) (showFileBrowser m)
    (fileBrowser m) (showFoundRepos m) (foundRepos m) (selectedFound m)
    (showForgetForm m) (forgetForm m) (showForgetPreview m) (forgetPreview
    m) (showForgetConfirm m) (forgetConfirmDialog m) (forgetPreviewResults
    m) (forgetPolicy m) (showPruneConfirm m) (pruneConfirmDialog m)
    (pruneDryRunOutput m) (showRemoveConfirm m) (removeConfirmDialog m)
    (repoToRemove m).
Definition set_backupForm (v : BackupForm.t) (m : t) : t :=
  mk (width m) (height m) (ready m) (tooSmall m) (config m) (activePanel m)
    (repositories m) (currentRepoIndex m) (loadingSnapshots m)
    (loadingRepositories m) (repoPanel m) (metricsPanel m) (snapPanel m)
    (opsPanel m) (showHelp m) (showRepoForm m) (repoForm m) (showBackupForm
    m) v (backupInProgress m) (currentBackupProgress m) (showRestoreForm m)
    (restoreForm m) (restoreInProgress m) (currentRestoreProgress m)
    (filterInputActive m) (filterInputText m) (showFileBrowser m)
    (fileBrowser m) (showFoundRepos m) (foundRepos m) (selectedFound m)
    (showForgetForm m) (forgetForm m) (showForgetPreview m) (forgetPreview
    m) (showForgetConfirm m) (forgetConfirmDialog m) (forgetPreviewResults
    m) (forgetPolicy m) (showPruneConfirm m) (pruneConfirmDialog m)
    (pruneDryRunOutput m) (showRemoveConfirm m) (removeConfirmDialog m)
    (repoToRemove m).
Definition set_backupInProgress (v : bool) (m : t) : t :=
  mk (width m) (height m) (ready m) (tooSmall m) (config m) (activePanel m)
    (repositories m) (currentRepoIndex m) (loadingSnapshots m)
    (loadingRepositories m) (repoPanel m) (metricsPanel m) (snapPanel m)
    (opsPanel m) (showHelp m) (showRepoForm m) (repoForm m) (showBackupForm
    m) (backupForm m) v (currentBackupProgress m) (showRestoreForm m)
    (restoreForm m) (restoreInProgress m) (currentRestoreProgress m)
    (filterInputActive m) (filterInputText m) (showFileBrowser m)
    (fileBrowser m) (showFoundRepos m) (foundRepos m) (selectedFound m)
    (showForgetForm m) (forgetForm m) (showForgetPreview m) (forgetPreview
    m) (showForgetConfirm m) (forgetConfirmDialog m) (forgetPreviewResults
    m) (forgetPolicy m) (showPruneConfirm m) (pruneConfirmDialog m)
    (pruneDryRunOutput m) (showRemoveConfirm m) (removeConfirmDialog m)
    (repoToRemove m).
Definition set_currentBackupProgress (v : option BackupProgress.t) (m : t) : t :=
  mk (width m) (height m) (ready m) (tooSmall m) (config m) (activePanel m)
    (repositories m) (currentRepoIndex m) (loadingSnapshots m)
    (loadingRepositories m) (repoPanel m) (metricsPanel m) (snapPanel m)
    (opsPanel m) (showHelp m) (showRepoForm m) (repoForm m) (showBackupForm
    m) (backupForm m) (backupInProgress m) v (showRestoreForm m)
    (restoreForm m) (restoreInProgress m) (currentRestoreProgress m)
    (filterInputActive m) (filterInputText m) (showFileBrowser m)
    (fileBrowser m) (showFoundRepos m) (foundRepos m) (selectedFound m)
    (showForgetForm m) (forgetForm m) (showForgetPreview m) (forgetPreview
    m) (showForgetConfirm m) (forgetConfirmDialog m) (forgetPreviewResults
    m) (forgetPolicy m) (showPruneConfirm m) (pruneConfirmDialog m)
    (pruneDryRunOutput m) (showRemoveConfirm m) (removeConfirmDialog m)
    (repoToRemove m).
Definition set_showRestoreForm (v : bool) (m : t) : t :=
  mk (width m) (height m) (ready m) (tooSmall m) (config m) (activePanel m)
    (repositories m) (currentRepoIndex m) (loadingSnapshots m)
    (loadingRepositories m) (repoPanel m) (metricsPanel m) (snapPanel m)
    (opsPanel m) (showHelp m) (showRepoForm m) (repoForm m) (showBackupForm
    m) (backupForm m) (backupInProgress m) (currentBackupProgress m) v
    (restoreForm m) (restoreInProgress m) (currentRestoreProgress m)
    (filterInputActive m) (filterInputText m) (showFileBrowser m)
    (fileBrowser m) (showFoundRepos m) (foundRepos m) (selectedFound m)
    (showForgetForm m) (forgetForm m) (showForgetPreview m) (forgetPreview
    m) (showForgetConfirm m) (forgetConfirmDialog m) (forgetPreviewResults
    m) (forgetPolicy m) (showPruneConfirm m) (pruneConfirmDialog m)
    (pruneDryRunOutput m) (showRemoveConfirm m) (removeConfirmDialog m)
    (repoToRemove m).
Definition set_restoreForm (v : option RestoreForm.t) (m : t) : t :=
  mk (width m) (height m) (ready m) (tooSmall m) (config m) (activePanel m)
    (repositories m) (currentRepoIndex m) (loadingSnapshots m)
    (loadingRepositories m) (repoPanel m) (metricsPanel m) (snapPanel m)
    (opsPanel m) (showHelp m) (showRepoForm m) (repoForm m) (showBackupForm
    m) (backupForm m) (backupInProgress m) (currentBackupProgress m)
    (showRestoreForm m) v (restoreInProgress m) (currentRestoreProgress m)
    (filterInputActive m) (filterInputText m) (showFileBrowser m)
    (fileBrowser m) (showFoundRepos m) (foundRepos m) (selectedFound m)
    (showForgetForm m) (forgetForm m) (showForgetPreview m) (forgetPreview
    m) (showForgetConfirm m) (forgetConfirmDialog m) (forgetPreviewResults
    m) (forgetPolicy m) (showPruneConfirm m) (pruneConfirmDialog m)
    (pruneDryRunOutput m) (showRemoveConfirm m) (removeConfirmDialog m)
    (repoToRemove m).
Definition set_restoreInProgress (v : bool) (m : t) : t :=
  mk (width m) (height m) (ready m) (tooSmall m) (config m) (activePanel m)
    (repositories m) (currentRepoIndex m) (loadingSnapshots m)
    (loadingRepositories m) (repoPanel m) (metricsPanel m) (snapPanel m)
    (opsPanel m) (showHelp m) (showRepoForm m) (repoForm m) (showBackupForm
    m) (backupForm m) (backupInProgress m) (currentBackupProgress m)
    (showRestoreForm m) (restoreForm m) v (currentRestoreProgress m)
    (filterInputActive m) (filterInputText m) (showFileBrowser m)
    (fileBrowser m) (showFoundRepos m) (foundRepos m) (selectedFound m)
    (showForgetForm m) (forgetForm m) (showForgetPreview m) (forgetPreview
    m) (showForgetConfirm m) (forgetConfirmDialog m) (forgetPreviewResults
    m) (forgetPolicy m) (showPruneConfirm m) (pruneConfirmDialog m)
    (pruneDryRunOutput m) (showRemoveConfirm m) (removeConfirmDialog m)
    (repoToRemove m).
Definition set_currentRestoreProgress (v : option RestoreProgress.t) (m : t) : t :=
  mk (width m) (height m) (ready m) (tooSmall m) (config m) (activePanel m)
    (repositories m) (currentRepoIndex m) (loadingSnapshots m)
    (loadingRepositories m) (repoPanel m) (metricsPanel m) (snapPanel m)
    (opsPanel m) (showHelp m) (showRepoForm m) (repoForm m) (showBackupForm
    m) (backupForm m) (backupInProgress m) (currentBackupProgress m)
    (showRestoreForm m) (restoreForm m) (restoreInProgress m) v
    (filterInputActive m) (filterInputText m) (showFileBrowser m)
    (fileBrowser m) (showFoundRepos m) (foundRepos m) (selectedFound m)
    (showForgetForm m) (forgetForm m) (showForgetPreview m) (forgetPreview
    m) (showForgetConfirm m) (forgetConfirmDialog m) (forgetPreviewResults
    m) (forgetPolicy m) (showPruneConfirm m) (pruneConfirmDialog m)
    (pruneDryRunOutput m) (showRemoveConfirm m) (removeConfirmDialog m)
    (repoToRemove m).
Definition set_filterInputActive (v : bool) (m : t) : t :=
  mk (width m) (height m) (ready m) (tooSmall m) (config m) (activePanel m)
    (repositories m) (currentRepoIndex m) (loadingSnapshots m)
    (loadingRepositories m) (repoPanel m) (metricsPanel m) (snapPanel m)
    (opsPanel m) (showHelp m) (showRepoForm m) (repoForm m) (showBackupForm
    m) (backupForm m) (backupInProgress m) (currentBackupProgress m)
    (showRestoreForm m) (restoreForm m) (restoreInProgress m)
    (currentRestoreProgress m) v (filterInputText m) (showFileBrowser m)
    (fileBrowser m) (showFoundRepos m) (foundRepos m) (selectedFound m)
    (showForgetForm m) (forgetForm m) (showForgetPreview m) (forgetPreview
    m) (showForgetConfirm m) (forgetConfirmDialog m) (forgetPreviewResults
    m) (forgetPolicy m) (showPruneConfirm m) (pruneConfirmDialog m)
    (pruneDryRunOutput m) (showRemoveConfirm m) (removeConfirmDialog m)
    (repoToRemove m).
Definition set_filterInputText (v : string) (m : t) : t :=
  mk (width m) (height m) (ready m) (tooSmall m) (config m) (activePanel m)
    (repositories m) (currentRepoIndex m) (loadingSnapshots m)
    (loadingRepositories m) (repoPanel m) (metricsPanel m) (snapPanel m)
    (opsPanel m) (showHelp m) (showRepoForm m) (repoForm m) (showBackupForm
    m) (backupForm m) (backupInProgress m) (currentBackupProgress m)
    (showRestoreForm m) (restoreForm m) (restoreInProgress m)
    (currentRestoreProgress m) (filterInputActive m) v (showFileBrowser m)
    (fileBrowser m) (showFoundRepos m) (foundRepos m) (selectedFound m)
    (showForgetForm m) (forgetForm m) (showForgetPreview m) (forgetPreview
    m) (showForgetConfirm m) (forgetConfirmDialog m) (forgetPreviewResults
    m) (forgetPolicy m) (showPruneConfirm m) (pruneConfirmDialog m)
    (pruneDryRunOutput m) (showRemoveConfirm m) (removeConfirmDialog m)
    (repoToRemove m).
Definition set_showFileBrowser (v : bool) (m : t) : t :=
  mk (width m) (height m) (ready m) (tooSmall m) (config m) (activePanel m)
    (repositories m) (currentRepoIndex m) (loadingSnapshots m)
    (loadingRepositories m) (repoPanel m) (metricsPanel m) (snapPanel m)
    (opsPanel m) (showHelp m) (showRepoForm m) (repoForm m) (showBackupForm
    m) (backupForm m) (backupInProgress m) (currentBackupProgress m)
    (showRestoreForm m) (restoreForm m) (restoreInProgress m)
    (currentRestoreProgress m) (filterInputActive m) (filterInputText m) v
    (fileBrowser m) (showFoundRepos m) (foundRepos m) (selectedFound m)
    (showForgetForm m) (forgetForm m) (showForgetPreview m) (forgetPreview
    m) (showForgetConfirm m) (forgetConfirmDialog m) (forgetPreviewResults
    m) (forgetPolicy m) (showPruneConfirm m) (pruneConfirmDialog m)
    (pruneDryRunOutput m) (showRemoveConfirm m) (removeConfirmDialog m)
    (repoToRemove m).
Definition set_fileBrowser (v : option FileBrowser.t) (m : t) : t :=
  mk (width m) (height m) (ready m) (tooSmall m) (config m) (activePanel m)
    (repositories m) (currentRepoIndex m) (loadingSnapshots m)
    (loadingRepositories m) (repoPanel m) (metricsPanel m) (snapPanel m)
    (opsPanel m) (showHelp m) (showRepoForm m) (repoForm m) (showBackupForm
    m) (backupForm m) (backupInProgress m) (currentBackupProgress m)
    (showRestoreForm m) (restoreForm m) (restoreInProgress m)
    (currentRestoreProgress m) (filterInputActive m) (filterInputText m)
    (showFileBrowser m) v (showFoundRepos m) (foundRepos m) (selectedFound
    m) (showForgetForm m) (forgetForm m) (showForgetPreview m)
    (forgetPreview m) (showForgetConfirm m) (forgetConfirmDialog m)
    (forgetPreviewResults m) (forgetPolicy m) (showPruneConfirm m)
    (pruneConfirmDialog m) (pruneDryRunOutput m) (showRemoveConfirm m)
    (removeConfirmDialog m) (repoToRemove m).
Definition set_showFoundRepos (v : bool) (m : t) : t :=
  mk (width m) (height m) (ready m) (tooSmall m) (config m) (activePanel m)
    (repositories m) (currentRepoIndex m) (loadingSnapshots m)
    (loadingRepositories m) (repoPanel m) (metricsPanel m) (snapPanel m)
    (opsPanel m) (showHelp m) (showRepoForm m) (repoForm m) (showBackupForm
    m) (backupForm m) (backupInProgress m) (currentBackupProgress m)
    (showRestoreForm m) (restoreForm m) (restoreInProgress m)
    (currentRestoreProgress m) (filterInputActive m) (filterInputText m)
    (showFileBrowser m) (fileBrowser m) v (foundRepos m) (selectedFound m)
    (showForgetForm m) (forgetForm m) (showForgetPreview m) (forgetPreview
    m) (showForgetConfirm m) (forgetConfirmDialog m) (forgetPreviewResults
    m) (forgetPolicy m) (showPruneConfirm m) (pruneConfirmDialog m)
    (pruneDryRunOutput m) (showRemoveConfirm m) (removeConfirmDialog m)
    (repoToRemove m).
Definition set_foundRepos (v : list RepositoryConfig.t) (m : t) : t :=
  mk (width m) (height m) (ready m) (tooSmall m) (config m) (activePanel m)
    (repositories m) (currentRepoIndex m) (loadingSnapshots m)
    (loadingRepositories m) (repoPanel m) (metricsPanel m) (snapPanel m)
    (opsPanel m) (showHelp m) (showRepoForm m) (repoForm m) (showBackupForm
    m) (backupForm m) (backupInProgress m) (currentBackupProgress m)
    (showRestoreForm m) (restoreForm m) (restoreInProgress m)
    (currentRestoreProgress m) (filterInputActive m) (filterInputText m)
    (showFileBrowser m) (fileBrowser m) (showFoundRepos m) v (selectedFound
    m) (showForgetForm m) (forgetForm m) (showForgetPreview m)
    (forgetPreview m) (showForgetConfirm m) (forgetConfirmDialog m)
    (forgetPreviewResults m) (forgetPolicy m) (showPruneConfirm m)
    (pruneConfirmDialog m) (pruneDryRunOutput m) (showRemoveConfirm m)
    (removeConfirmDialog m) (repoToRemove m).
Definition set_selectedFound (v : Z) (m : t) : t :=
  mk (width m) (height m) (ready m) (tooSmall m) (config m) (activePanel m)
    (repositories m) (currentRepoIndex m) (loadingSnapshots m)
    (loadingRepositories m) (repoPanel m) (metricsPanel m) (snapPanel m)
    (opsPanel m) (showHelp m) (showRepoForm m) (repoForm m) (showBackupForm
    m) (backupForm m) (backupInProgress m) (currentBackupProgress m)
    (showRestoreForm m) (restoreForm m) (restoreInProgress m)
    (currentRestoreProgress m) (filterInputActive m) (filterInputText m)
    (showFileBrowser m) (fileBrowser m) (showFoundRepos m) (foundRepos m) v
    (showForgetForm m) (forgetForm m) (showForgetPreview m) (forgetPreview
    m) (showForgetConfirm m) (forgetConfirmDialog m) (forgetPreviewResults
    m) (forgetPolicy m) (showPruneConfirm m) (pruneConfirmDialog m)
    (pruneDryRunOutput m) (showRemoveConfirm m) (removeConfirmDialog m)
    (repoToRemove m).
Definition set_showForgetForm (v : bool) (m : t) : t :=
  mk (width m) (height m) (ready m) (tooSmall m) (config m) (activePanel m)
    (repositories m) (currentRepoIndex m) (loadingSnapshots m)
    (loadingRepositories m) (repoPanel m) (metricsPanel m) (snapPanel m)
    (opsPanel m) (showHelp m) (showRepoForm m) (repoForm m) (showBackupForm
    m) (backupForm m) (backupInProgress m) (currentBackupProgress m)
    (showRestoreForm m) (restoreForm m) (restoreInProgress m)
    (currentRestoreProgress m) (filterInputActive m) (filterInputText m)
    (showFileBrowser m) (fileBrowser m) (showFoundRepos m) (foundRepos m)
    (selectedFound m) v (forgetForm m) (showForgetPreview m) (forgetPreview
    m) (showForgetConfirm m) (forgetConfirmDialog m) (forgetPreviewResults
    m) (forgetPolicy m) (showPruneConfirm m) (pruneConfirmDialog m)
    (pruneDryRunOutput m) (showRemoveConfirm m) (removeConfirmDialog m)
    (repoToRemove m).
Definition set_forgetForm (v : option ForgetForm.t) (m : t) : t :=
  mk (width m) (height m) (ready m) (tooSmall m) (config m) (activePanel m)
    (repositories m) (currentRepoIndex m) (loadingSnapshots m)
    (loadingRepositories m) (repoPanel m) (metricsPanel m) (snapPanel m)
    (opsPanel m) (showHelp m) (showRepoForm m) (repoForm m) (showBackupForm
    m) (backupForm m) (backupInProgress m) (currentBackupProgress m)
    (showRestoreForm m) (restoreForm m) (restoreInProgress m)
    (currentRestoreProgress m) (filterInputActive m) (filterInputText m)
    (showFileBrowser m) (fileBrowser m) (showFoundRepos m) (foundRepos m)
    (selectedFound m) (showForgetForm m) v (showForgetPreview m)
    (forgetPreview m) (showForgetConfirm m) (forgetConfirmDialog m)
    (forgetPreviewResults m) (forgetPolicy m) (showPruneConfirm m)
    (pruneConfirmDialog m) (pruneDryRunOutput m) (showRemoveConfirm m)
    (removeConfirmDialog m) (repoToRemove m).
Definition set_showForgetPreview (v : bool) (m : t) : t :=
  mk (width m) (height m) (ready m) (tooSmall m) (config m) (activePanel m)
    (repositories m) (currentRepoIndex m) (loadingSnapshots m)
    (loadingRepositories m) (repoPanel m) (metricsPanel m) (snapPanel m)
    (opsPanel m) (showHelp m) (showRepoForm m) (repoForm m) (showBackupForm
    m) (backupForm m) (backupInProgress m) (currentBackupProgress m)
    (showRestoreForm m) (restoreForm m) (restoreInProgress m)
    (currentRestoreProgress m) (filterInputActive m) (filterInputText m)
    (showFileBrowser m) (fileBrowser m) (showFoundRepos m) (foundRepos m)
    (selectedFound m) (showForgetForm m) (forgetForm m) v (forgetPreview m)
    (showForgetConfirm m) (forgetConfirmDialog m) (forgetPreviewResults m)
    (forgetPolicy m) (showPruneConfirm m) (pruneConfirmDialog m)
    (pruneDryRunOutput m) (showRemoveConfirm m) (removeConfirmDialog m)
    (repoToRemove m).
Definition set_forgetPreview (v : option ForgetPreview.t) (m : t) : t :=
  mk (width m) (height m) (ready m) (tooSmall m) (config m) (activePanel m)
    (repositories m) (currentRepoIndex m) (loadingSnapshots m)
    (loadingRepositories m) (repoPanel m) (metricsPanel m) (snapPanel m)
    (opsPanel m) (showHelp m) (showRepoForm m) (repoForm m) (showBackupForm
    m) (backupForm m) (backupInProgress m) (currentBackupProgress m)
    (showRestoreForm m) (restoreForm m) (restoreInProgress m)
    (currentRestoreProgress m) (filterInputActive m) (filterInputText m)
    (showFileBrowser m) (fileBrowser m) (showFoundRepos m) (foundRepos m)
    (selectedFound m) (showForgetForm m) (forgetForm m) (showForgetPreview
    m) v (showForgetConfirm m) (forgetConfirmDialog m) (forgetPreviewResults
    m) (forgetPolicy m) (showPruneConfirm m) (pruneConfirmDialog m)
    (pruneDryRunOutput m) (showRemoveConfirm m) (removeConfirmDialog m)
    (repoToRemove m).
Definition set_showForgetConfirm (v : bool) (m : t) : t :=
  mk (width m) (height m) (ready m) (tooSmall m) (config m) (activePanel m)
    (repositories m) (currentRepoIndex m) (loadingSnapshots m)
    (loadingRepositories m) (repoPanel m) (metricsPanel m) (snapPanel m)
    (opsPanel m) (showHelp m) (showRepoForm m) (repoForm m) (showBackupForm
    m) (backupForm m) (backupInProgress m) (currentBackupProgress m)
    (showRestoreForm m) (restoreForm m) (restoreInProgress m)
    (currentRestoreProgress m) (filterInputActive m) (filterInputText m)
    (showFileBrowser m) (fileBrowser m) (showFoundRepos m) (foundRepos m)
    (selectedFound m) (showForgetForm m) (forgetForm m) (showForgetPreview
    m) (forgetPreview m) v (forgetConfirmDialog m) (forgetPreviewResults m)
    (forgetPolicy m) (showPruneConfirm m) (pruneConfirmDialog m)
    (pruneDryRunOutput m) (showRemoveConfirm m) (removeConfirmDialog m)
    (repoToRemove m).
Definition set_forgetConfirmDialog (v : option ConfirmationDialog.t) (m : t) : t :=
  mk (width m) (height m) (ready m) (tooSmall m) (config m) (activePanel m)
    (repositories m) (currentRepoIndex m) (loadingSnapshots m)
    (loadingRepositories m) (repoPanel m) (metricsPanel m) (snapPanel m)
    (opsPanel m) (showHelp m) (showRepoForm m) (repoForm m) (showBackupForm
    m) (backupForm m) (backupInProgress m) (currentBackupProgress m)
    (showRestoreForm m) (restoreForm m) (restoreInProgress m)
    (currentRestoreProgress m) (filterInputActive m) (filterInputText m)
    (showFileBrowser m) (fileBrowser m) (showFoundRepos m) (foundRepos m)
    (selectedFound m) (showForgetForm m) (forgetForm m) (showForgetPreview
    m) (forgetPreview m) (showForgetConfirm m) v (forgetPreviewResults m)
    (forgetPolicy m) (showPruneConfirm m) (pruneConfirmDialog m)
    (pruneDryRunOutput m) (showRemoveConfirm m) (removeConfirmDialog m)
    (repoToRemove m).
Definition set_forgetPreviewResults (v : list ForgetResult.t) (m : t) : t :=
  mk (width m) (height m) (ready m) (tooSmall m) (config m) (activePanel m)
    (repositories m) (currentRepoIndex m) (loadingSnapshots m)
    (loadingRepositories m) (repoPanel m) (metricsPanel m) (snapPanel m)
    (opsPanel m) (showHelp m) (showRepoForm m) (repoForm m) (showBackupForm
    m) (backupForm m) (backupInProgress m) (currentBackupProgress m)
    (showRestoreForm m) (restoreForm m) (restoreInProgress m)
    (currentRestoreProgress m) (filterInputActive m) (filterInputText m)
    (showFileBrowser m) (fileBrowser m) (showFoundRepos m) (foundRepos m)
    (selectedFound m) (showForgetForm m) (forgetForm m) (showForgetPreview
    m) (forgetPreview m) (showForgetConfirm m) (forgetConfirmDialog m) v
    (forgetPolicy m) (showPruneConfirm m) (pruneConfirmDialog m)
    (pruneDryRunOutput m) (showRemoveConfirm m) (removeConfirmDialog m)
    (repoToRemove m).
Definition set_forgetPolicy (v : ForgetPolicy.t) (m : t) : t :=
  mk (width m) (height m) (ready m) (tooSmall m) (config m) (activePanel m)
    (repositories m) (currentRepoIndex m) (loadingSnapshots m)
    (loadingRepositories m) (repoPanel m) (metricsPanel m) (snapPanel m)
    (opsPanel m) (showHelp m) (showRepoForm m) (repoForm m) (showBackupForm
    m) (backupForm m) (backupInProgress m) (currentBackupProgress m)
    (showRestoreForm m) (restoreForm m) (restoreInProgress m)
    (currentRestoreProgress m) (filterInputActive m) (filterInputText m)
    (showFileBrowser m) (fileBrowser m) (showFoundRepos m) (foundRepos m)
    (selectedFound m) (showForgetForm m) (forgetForm m) (showForgetPreview
    m) (forgetPreview m) (showForgetConfirm m) (forgetConfirmDialog m)
    (forgetPreviewResults m) v (showPruneConfirm m) (pruneConfirmDialog m)
    (pruneDryRunOutput m) (showRemoveConfirm m) (removeConfirmDialog m)
    (repoToRemove m).
Definition set_showPruneConfirm (v : bool) (m : t) : t :=
  mk (width m) (height m) (ready m) (tooSmall m) (config m) (activePanel m)
    (repositories m) (currentRepoIndex m) (loadingSnapshots m)
    (loadingRepositories m) (repoPanel m) (metricsPanel m) (snapPanel m)
    (opsPanel m) (showHelp m) (showRepoForm m) (repoForm m) (showBackupForm
    m) (backupForm m) (backupInProgress m) (currentBackupProgress m)
    (showRestoreForm m) (restoreForm m) (restoreInProgress m)
    (currentRestoreProgress m) (filterInputActive m) (filterInputText m)
    (showFileBrowser m) (fileBrowser m) (showFoundRepos m) (foundRepos m)
    (selectedFound m) (showForgetForm m) (forgetForm m) (showForgetPreview
    m) (forgetPreview m) (showForgetConfirm m) (forgetConfirmDialog m)
    (forgetPreviewResults m) (forgetPolicy m) v (pruneConfirmDialog m)
    (pruneDryRunOutput m) (showRemoveConfirm m) (removeConfirmDialog m)
    (repoToRemove m).
Definition set_pruneConfirmDialog (v : option ConfirmationDialog.t) (m : t) : t :=
  mk (width m) (height m) (ready m) (tooSmall m) (config m) (activePanel m)
    (repositories m) (currentRepoIndex m) (loadingSnapshots m)
    (loadingRepositories m) (repoPanel m) (metricsPanel m) (snapPanel m)
    (opsPanel m) (showHelp m) (showRepoForm m) (repoForm m) (showBackupForm
    m) (backupForm m) (backupInProgress m) (currentBackupProgress m)
    (showRestoreForm m) (restoreForm m) (restoreInProgress m)
    (currentRestoreProgress m) (filterInputActive m) (filterInputText m)
    (showFileBrowser m) (fileBrowser m) (showFoundRepos m) (foundRepos m)
    (selectedFound m) (showForgetForm m) (forgetForm m) (showForgetPreview
    m) (forgetPreview m) (showForgetConfirm m) (forgetConfirmDialog m)
    (forgetPreviewResults m) (forgetPolicy m) (showPruneConfirm m) v
    (pruneDryRunOutput m) (showRemoveConfirm m) (removeConfirmDialog m)
    (repoToRemove m).
Definition set_pruneDryRunOutput (v : string) (m : t) : t :=
  mk (width m) (height m) (ready m) (tooSmall m) (config m) (activePanel m)
    (repositories m) (currentRepoIndex m) (loadingSnapshots m)
    (loadingRepositories m) (repoPanel m) (metricsPanel m) (snapPanel m)
    (opsPanel m) (showHelp m) (showRepoForm m) (repoForm m) (showBackupForm
    m) (backupForm m) (backupInProgress m) (currentBackupProgress m)
    (showRestoreForm m) (restoreForm m) (restoreInProgress m)
    (currentRestoreProgress m) (filterInputActive m) (filterInputText m)
    (showFileBrowser m) (fileBrowser m) (showFoundRepos m) (foundRepos m)
    (selectedFound m) (showForgetForm m) (forgetForm m) (showForgetPreview
    m) (forgetPreview m) (showForgetConfirm m) (forgetConfirmDialog m)
    (forgetPreviewResults m) (forgetPolicy m) (showPruneConfirm m)
    (pruneConfirmDialog m) v (showRemoveConfirm m) (removeConfirmDialog m)
    (repoToRemove m).
Definition set_showRemoveConfirm (v : bool) (m : t) : t :=
  mk (width m) (height m) (ready m) (tooSmall m) (config m) (activePanel m)
    (repositories m) (currentRepoIndex m) (loadingSnapshots m)
    (loadingRepositories m) (repoPanel m) (metricsPanel m) (snapPanel m)
    (opsPanel m) (showHelp m) (showRepoForm m) (repoForm m) (showBackupForm
    m) (backupForm m) (backupInProgress m) (currentBackupProgress m)
    (showRestoreForm m) (restoreForm m) (restoreInProgress m)
    (currentRestoreProgress m) (filterInputActive m) (filterInputText m)
    (showFileBrowser m) (fileBrowser m) (showFoundRepos m) (foundRepos m)
    (selectedFound m) (showForgetForm m) (forgetForm m) (showForgetPreview
    m) (forgetPreview m) (showForgetConfirm m) (forgetConfirmDialog m)
    (forgetPreviewResults m) (forgetPolicy m) (showPruneConfirm m)
    (pruneConfirmDialog m) (pruneDryRunOutput m) v (removeConfirmDialog m)
    (repoToRemove m).
Definition set_removeConfirmDialog (v : option ConfirmationDialog.t) (m : t) : t :=
  mk (width m) (height m) (ready m) (tooSmall m) (config m) (activePanel m)
    (repositories m) (currentRepoIndex m) (loadingSnapshots m)
    (loadingRepositories m) (repoPanel m) (metricsPanel m) (snapPanel m)
    (opsPanel m) (showHelp m) (showRepoForm m) (repoForm m) (showBackupForm
    m) (backupForm m) (backupInProgress m) (currentBackupProgress m)
    (showRestoreForm m) (restoreForm m) (restoreInProgress m)
    (currentRestoreProgress m) (filterInputActive m) (filterInputText m)
    (showFileBrowser m) (fileBrowser m) (showFoundRepos m) (foundRepos m)
    (selectedFound m) (showForgetForm m) (forgetForm m) (showForgetPreview
    m) (forgetPreview m) (showForgetConfirm m) (forgetConfirmDialog m)
    (forgetPreviewResults m) (forgetPolicy m) (showPruneConfirm m)
    (pruneConfirmDialog m) (pruneDryRunOutput m) (showRemoveConfirm m) v
    (repoToRemove m).
Definition set_repoToRemove (v : string) (m : t) : t :=
  mk (width m) (height m) (ready m) (tooSmall m) (config m) (activePanel m)
    (repositories m) (currentRepoIndex m) (loadingSnapshots m)
    (loadingRepositories m) (repoPanel m) (metricsPanel m) (snapPanel m)
    (opsPanel m) (showHelp m) (showRepoForm m) (repoForm m) (showBackupForm
    m) (backupForm m) (backupInProgress m) (currentBackupProgress m)
    (showRestoreForm m) (restoreForm m) (restoreInProgress m)
    (currentRestoreProgress m) (filterInputActive m) (filterInputText m)
    (showFileBrowser m) (fileBrowser m) (showFoundRepos m) (foundRepos m)
    (selectedFound m) (showForgetForm m) (forgetForm m) (showForgetPreview
    m) (forgetPreview m) (showForgetConfirm m) (forgetConfirmDialog m)
    (forgetPreviewResults m) (forgetPolicy m) (showPruneConfirm m)
    (pruneConfirmDialog m) (pruneDryRunOutput m) (showRemoveConfirm m)
    (removeConfirmDialog m) v.

(** [NewModel], given the configuration that [config.LoadOrDefault]
    returned and the log lines about the restic binary. *)
Definition NewModel (cfg : ResticConfig.t) (opsPanel : OperationsPanel.t) : t :=
  mk 0 0 false false cfg PanelRepositories [] 0 false true
     RepositoryPanel.NewRepositoryPanel RepoMetricsPanel.NewRepoMetricsPanel
     SnapshotPanel.NewSnapshotPanel opsPanel false
     false (Some RepoForm.NewRepoForm)
     false BackupForm.NewBackupForm false None
     false None false None
     false ""
     false None
     false [] 0
     false None false None false None [] ForgetPolicy.zero
     false None ""
     false None "".

Definition Info (message : string) (m : t) : t :=
  set_opsPanel (OperationsPanel.Info message (opsPanel m)) m.
Definition Dimmed (message : string) (m : t) : t :=
  set_opsPanel (OperationsPanel.Dimmed message (opsPanel m)) m.
Definition Success (message : string) (m : t) : t :=
  set_opsPanel (OperationsPanel.Success message (opsPanel m)) m.
Definition Warning (message : string) (m : t) : t :=
  set_opsPanel (OperationsPanel.Warning message (opsPanel m)) m.
Definition Error (message : string) (m : t) : t :=
  set_opsPanel (OperationsPanel.Error message (opsPanel m)) m.
End Model.

(** The result of one call of [Update]: the next state and the command,
    [None] for the nil command; [Panic] when the Go code dereferences a nil
    pointer. *)
Inductive outcome :=
| Next (m : Model.t) (cmd : option Cmd)
| Panic.

(** ** Package [model]: [Update] *)

Section ModelUpdate.
Variable env : Env.t.
Import Model.

(** The newline of the Go string literals. *)
Definition nl : string := String (ascii_of_nat 10) EmptyString.

Definition rule : string :=
  "─────────────────────────────────────────────────────────".

(** [loadSnapshotsWithMessage]; the state returned next to the command
    carries the loading flag, as the gc compiler orders the evaluation of
    [return m, m.loadSnapshotsWithMessage()]. *)
Definition loadSnapshotsWithMessage (m : t) : t * Cmd :=
  let m := set_loadingSnapshots true m in
  let m := Info "Loading snapshots..." m in
  (m, loadSnapshots (currentRepoIndex m)).

Fixpoint index_of_name (name : string) (i : Z) (repos : list Repository.t) : Z :=
  match repos with
  | [] => 0
  | r :: rest =>
      if String.eqb (Repository.Name r) name then i
      else index_of_name name (i + 1) rest
  end.

(** [Model.GetSelected]: the index of the repository selected in the panel. *)
Definition GetSelected (m : t) : Z :=
  match RepositoryPanel.GetSelected (repoPanel m) with
  | Some repo => index_of_name (Repository.Name repo) 0 (repositories m)
  | None => 0
  end.

(** [executeBackup]; [None] when indexing the configuration panics. *)
Definition executeBackup (m : t) (opts : BackupOptions.t) : option Cmd :=
  if len (ResticConfig.Repositories (config m)) <=? currentRepoIndex m
  then Some (Return (BackupSummaryMsg None (Some "no repository selected")))
  else match index (ResticConfig.Repositories (config m)) (currentRepoIndex m) with
       | Some repoConfig => Some (runBackup repoConfig opts)
       | None => None
       end.

(** [executeRestore]. *)
Definition executeRestore (m : t) (opts : RestoreOptions.t) : option Cmd :=
  if len (ResticConfig.Repositories (config m)) <=? currentRepoIndex m
  then Some (Return (RestoreSummaryMsg None (Some "no repository selected")))
  else match index (ResticConfig.Repositories (config m)) (currentRepoIndex m) with
       | Some repoConfig => Some (runRestore repoConfig opts)
       | None => None
       end.

Definition logSelectedSnapshot (m : t) : t :=
  match SnapshotPanel.GetSelected (snapPanel m) with
  | None => m
  | Some snapshot =>
      let m := Success rule m in
      let m := Success ("📸 Snapshot: " ++ Snapshot.ShortID snapshot)%string m in
      let m := Dimmed ("Full ID: " ++ Snapshot.ID snapshot)%string m in
      let m := Info ("Created: "
                     ++ Env.FormatTime env (Snapshot.Time snapshot))%string m in
      let m := Info ("Hostname: " ++ Snapshot.Hostname snapshot)%string m in
      let m := if 0 <? len (Snapshot.Paths snapshot)
               then Info ("Paths: " ++ Join (Snapshot.Paths snapshot) ", ")%string m
               else m in
      let m := if 0 <? len (Snapshot.Tags snapshot)
               then Info ("Tags: " ++ Join (Snapshot.Tags snapshot) ", ")%string m
               else m in
      let m := if negb (is_empty (Snapshot.Username snapshot))
               then Dimmed ("User: " ++ Snapshot.Username snapshot)%string m
               else m in
      let m := Dimmed ("Time ago: "
                       ++ Env.FormatTimeAgo env (Snapshot.Time snapshot))%string m in
      Success rule m
  end.

(** [m.repositories[m.currentRepoIndex]] after the guard
    [m.currentRepoIndex >= len(m.repositories)] has failed. *)
Definition with_current_repo (m : t) (k : Repository.t -> outcome) : outcome :=
  match index (repositories m) (currentRepoIndex m) with
  | Some repo => k repo
  | None => Panic
  end.

(** [if m.currentRepoIndex < len(m.repositories)
       { m.metricsPanel.SetRepository(&m.repositories[m.currentRepoIndex]) }] *)
Definition show_current_repo_metrics (m : t) : option t :=
  if currentRepoIndex m <? len (repositories m) then
    match index (repositories m) (currentRepoIndex m) with
    | Some repo =>
        Some (set_metricsPanel
                (RepoMetricsPanel.SetRepository (Some repo) (metricsPanel m)) m)
    | None => None
    end
  else Some m.

Definition MinTerminalWidth : Z := 80.
Definition MinTerminalHeight : Z := 20.
Definition TitleAndHelpHeight : Z := 4.

Definition on_WindowSizeMsg (Width Height : Z) (m : t) : outcome :=
  let m := set_ready true (set_height Height (set_width Width m)) in
  if (width m <? MinTerminalWidth) || (height m <? MinTerminalHeight)
  then Next (set_tooSmall true m) None
  else
    let m := set_tooSmall false m in
    let leftWidth := Env.scale env (width m) LeftPanelWidthRatio in
    let rightWidth := int_sub (width m) leftWidth in
    let panelHeight := int_sub (height m) TitleAndHelpHeight in
    let repoHeight := Env.scale env panelHeight RepoHeightRatio in
    let metricsHeight := Env.scale env panelHeight MetricsHeightRatio in
    let snapshotsHeight := int_sub (int_sub panelHeight repoHeight) metricsHeight in
    let m := set_repoPanel
               (RepositoryPanel.SetSize leftWidth repoHeight (repoPanel m)) m in
    let m := set_metricsPanel
               (RepoMetricsPanel.SetSize leftWidth metricsHeight (metricsPanel m)) m in
    let m := set_snapPanel
               (SnapshotPanel.SetSize leftWidth snapshotsHeight (snapPanel m)) m in
    let m := set_opsPanel
               (OperationsPanel.SetSize rightWidth panelHeight (opsPanel m)) m in
    let formWidth := Env.scale env (width m) FormWidthRatio in
    let formHeight := Env.scale env (height m) FormHeightRatio in
    match repoForm m with
    | None => Panic
    | Some f =>
        let m := set_repoForm (Some (RepoForm.SetSize formWidth formHeight f)) m in
        let m := set_backupForm
                   (BackupForm.SetSize formWidth formHeight (backupForm m)) m in
        Next m None
    end.

Definition on_RepositoriesLoadedMsg (Repositories : list Repository.t) (m : t)
  : outcome :=
  let m := set_loadingRepositories false m in
  let m := set_repositories Repositories m in
  let m := Success ("✓ Loaded " ++ fmt_d (len Repositories)
                    ++ " repositories from config")%string m in
  if len Repositories =? 0 then
    let m := Dimmed "No repositories configured" m in
    let m := Info "Press 'a' to add repository or 's' to scan for existing repos" m in
    let m := Dimmed "Config: ~/.config/lazyrestic/config.yaml" m in
    let m := set_metricsPanel
               (RepoMetricsPanel.SetRepository None (metricsPanel m)) m in
    Next m None
  else
    let selected :=
      if currentRepoIndex m <? len (repositories m) then
        match index (repositories m) (currentRepoIndex m) with
        | Some selectedRepo =>
            let m := set_metricsPanel
                       (RepoMetricsPanel.SetRepository (Some selectedRepo)
                          (metricsPanel m)) m in
            Some (Info ("Selected repository: '" ++ Repository.Name selectedRepo
                        ++ "' at " ++ Repository.Path selectedRepo)%string m)
        | None => None
        end
      else Some m in
    match selected with
    | None => Panic
    | Some m => let (m, cmd) := loadSnapshotsWithMessage m in Next m (Some cmd)
    end.

Definition on_SnapshotsLoadedMsg (Snapshots : list Snapshot.t) (Error_ : error)
    (FilteredCount : Z) (RepoName RepoPath : string) (m : t) : outcome :=
  let m := set_loadingSnapshots false m in
  match Error_ with
  | Some err =>
      let m := Error ("Failed to load snapshots from '" ++ RepoName ++ "': "
                      ++ err)%string m in
      let m := Dimmed ("Repository: " ++ RepoPath)%string m in
      Next m None
  | None =>
      let m := set_snapPanel (SnapshotPanel.SetSnapshots Snapshots (snapPanel m)) m in
      let m := Success ("✓ Loaded " ++ fmt_d (len Snapshots) ++ " snapshots from '"
                        ++ RepoName ++ "'")%string m in
      let m := Dimmed ("Repository path: " ++ RepoPath)%string m in
      let m := if 0 <? FilteredCount
               then Dimmed ("Filtered " ++ fmt_d FilteredCount
                            ++ " systemd-private snapshots")%string m
               else m in
      let m := Info ("Command: restic -r " ++ RepoPath
                     ++ " snapshots --json")%string m in
      let m := if 0 <? len Snapshots then logSelectedSnapshot m else m in
      Next m None
  end.

Definition on_FilesLoadedMsg (Files : list FileNode.t) (Error_ : error) (m : t)
  : outcome :=
  match Error_ with
  | Some err => Next (Error ("Failed to load files: " ++ err)%string m) None
  | None =>
      match fileBrowser m with
      | Some fb =>
          let m := set_fileBrowser (Some (FileBrowser.SetFiles Files fb)) m in
          Next (Info ("Loaded " ++ fmt_d (len Files)
                      ++ " files/directories")%string m) None
      | None => Next m None
      end
  end.

Definition on_BackupProgressMsg (Progress : option BackupProgress.t)
    (Updates : option (list BackupMessage.t)) (m : t) : outcome :=
  let m := set_currentBackupProgress Progress m in
  let m := match Progress with
           | Some _ =>
               set_opsPanel
                 (OperationsPanel.SetBackupProgress Progress (opsPanel m)) m
           | None => m
           end in
  match Updates with
  | Some updates => Next m (Some (listenForBackupUpdates updates))
  | None => Next m None
  end.

Definition on_BackupSummaryMsg (Summary : option BackupSummary.t)
    (Error_ : error) (m : t) : outcome :=
  let m := set_backupInProgress false m in
  let m := set_currentBackupProgress None m in
  let m := set_opsPanel (OperationsPanel.ClearBackupProgress (opsPanel m)) m in
  let m :=
    match Error_, Summary with
    | Some err, _ => Error ("Backup failed: " ++ err)%string m
    | None, Some summary =>
        Success ("Backup completed! New: "
                 ++ fmt_d (BackupSummary.FilesNew summary)
                 ++ ", Changed: " ++ fmt_d (BackupSummary.FilesChanged summary)
                 ++ ", Unmodified: "
                 ++ fmt_d (BackupSummary.FilesUnmodified summary))%string m
    | None, None => Success "Backup completed successfully" m
    end in
  let (m, cmd) := loadSnapshotsWithMessage m in
  Next m (Some cmd).

Definition on_RestoreProgressMsg (Progress : option RestoreProgress.t)
    (Updates : option (list RestoreMessage.t)) (m : t) : outcome :=
  let m := set_currentRestoreProgress Progress m in
  let m := match Progress with
           | Some _ => Info "Restoring snapshot..." m
           | None => m
           end in
  match Updates with
  | Some updates => Next m (Some (listenForRestoreUpdates updates))
  | None => Next m None
  end.

Definition on_RestoreSummaryMsg (Summary : option RestoreSummary.t)
    (Error_ : error) (m : t) : outcome :=
  let m := set_restoreInProgress false m in
  let m := set_currentRestoreProgress None m in
  let m :=
    match Error_, Summary with
    | Some err, _ => Error ("Restore failed: " ++ err)%string m
    | None, Some _ => Success "Restore completed successfully" m
    | None, None => Success "Restore completed" m
    end in
  Next m None.

Definition on_ForgetDryRunMsg (Results : list ForgetResult.t)
    (Policy : ForgetPolicy.t) (Error_ : error) (m : t) : outcome :=
  match Error_ with
  | Some err =>
      let m := Error ("Forget dry-run failed: " ++ err)%string m in
      Next (set_showForgetForm false m) None
  | None =>
      let m := set_forgetPreviewResults Results m in
      let m := set_forgetPolicy Policy m in
      let preview := ForgetPreview.NewForgetPreview Results Policy in
      let preview :=
        ForgetPreview.SetSize (int_quot (int_mul (width m) 3) 4)
                              (int_quot (int_mul (height m) 3) 4) preview in
      let m := set_forgetPreview (Some preview) m in
      let m := set_showForgetForm false m in
      let m := set_showForgetPreview true m in
      let totalRemove := ForgetPreview.GetTotalToRemove preview in
      Next (Info ("Dry-run complete: " ++ fmt_d totalRemove
                  ++ " snapshots will be removed")%string m) None
  end.

Definition on_ForgetCompleteMsg (Error_ : error) (m : t) : outcome :=
  let m := set_showForgetConfirm false m in
  let m := set_forgetConfirmDialog None m in
  let m :=
    match Error_ with
    | Some err => Error ("Forget failed: " ++ err)%string m
    | None =>
        let totalRemoved :=
          fold_left (fun total result =>
                       int_add total (len (ForgetResult.SnapshotsToRemove result)))
                    (forgetPreviewResults m) 0 in
        Success ("✓ Forget completed: " ++ fmt_d totalRemoved
                 ++ " snapshots removed")%string m
    end in
  let (m, cmd) := loadSnapshotsWithMessage m in
  Next m (Some cmd).

Definition on_PruneDryRunMsg (Output : string) (Error_ : error) (m : t) : outcome :=
  match Error_ with
  | Some err => Next (Error ("Prune dry-run failed: " ++ err)%string m) None
  | None =>
      let m := set_pruneDryRunOutput Output m in
      let dialog :=
        ConfirmationDialog.NewConfirmationDialog "PRUNE REPOSITORY"
          ("You are about to PRUNE the repository." ++ nl ++ nl
           ++ "This will permanently remove unreferenced data." ++ nl
           ++ "This operation CANNOT be undone!" ++ nl ++ nl ++ Output)%string
          "PRUNE" in
      let dialog :=
        ConfirmationDialog.SetSize (int_quot (int_mul (width m) 3) 4)
                                   (int_quot (int_mul (height m) 3) 4) dialog in
      let m := set_pruneConfirmDialog (Some dialog) m in
      let m := set_showPruneConfirm true m in
      Next (Info "Prune dry-run complete - review and confirm" m) None
  end.

Definition on_PruneCompleteMsg (Error_ : error) (m : t) : outcome :=
  let m := set_showPruneConfirm false m in
  let m := set_pruneConfirmDialog None m in
  let m :=
    match Error_ with
    | Some err => Error ("Prune failed: " ++ err)%string m
    | None => Success "Prune completed successfully" m
    end in
  Next m (Some loadRepositories).

Definition on_ScannedReposMsg (FoundRepos : list RepositoryConfig.t) (m : t)
  : outcome :=
  if len FoundRepos =? 0 then
    let m := Info "No restic repositories found in scanned locations" m in
    Next (Dimmed "Scanned: /mnt, /media, /backup, /srv, /opt" m) None
  else
    let m := Success ("✓ Found " ++ fmt_d (len FoundRepos)
                      ++ " potential repositories")%string m in
    let m := Info "Select a repository and press Enter to add it" m in
    let m := set_showFoundRepos true m in
    let m := set_foundRepos FoundRepos m in
    Next (set_selectedFound 0 m) None.

Definition on_CacheCleanupMsg (Output : string) (Error_ : error) (m : t) : outcome :=
  match Error_ with
  | Some err => Next (Error ("Cache cleanup failed: " ++ err)%string m) None
  | None =>
      let m := Success "✓ Cache cleanup completed successfully" m in
      let m := if negb (is_empty Output) then Info Output m else m in
      Next (Dimmed "Removed old/unused cache entries" m) None
  end.

Definition on_UnlockMsg (Output : string) (Error_ : error) (m : t) : outcome :=
  match Error_ with
  | Some err => Next (Error ("Unlock failed: " ++ err)%string m) None
  | None =>
      let m := Success "✓ Repository unlocked successfully" m in
      let m := if negb (is_empty Output) then Info Output m else m in
      let m := Dimmed "Stale locks removed - repository is now accessible" m in
      Next m (Some loadRepositories)
  end.

(** The model holds a pointer to the configuration, and the command that
    sends this message has called [config.RemoveRepository] on it: when the
    message arrives the first repository of that name, if there was one, is
    gone from the configuration, whether or not saving the file succeeded. *)
Definition on_RepoRemovedMsg (RepoName : string) (Error_ : error) (m : t) : outcome :=
  let m := set_config (fst (config.RemoveRepository (config m) RepoName)) m in
  let m := set_showRemoveConfirm false m in
  let m := set_removeConfirmDialog None m in
  let m := set_repoToRemove "" m in
  match Error_ with
  | Some err =>
      let m := Error ("✗ Failed to remove repository: " ++ err)%string m in
      Next (Dimmed "Repository was not removed from configuration" m) None
  | None =>
      let m := Success rule m in
      let m := Success ("✓ Repository '" ++ RepoName
                        ++ "' removed from LazyRestic")%string m in
      let m := Dimmed ("Configuration file updated: "
                       ++ Env.DefaultConfigPath env)%string m in
      let m := Info "Repository files are still on disk - only config entry removed" m in
      let m := Success rule m in
      Next m (Some loadRepositories)
  end.

(** *** Key presses *)

(** A block of the key handler either returns or lets the key fall through
    to the code after it ([None]). *)
Definition handled : Type := option outcome.

Definition key_help (key : string) (m : t) : handled :=
  if showHelp m then
    if String.eqb key "?" || String.eqb key "esc"
    then Some (Next (set_showHelp false m) None)
    else Some (Next m None)
  else None.

Definition input_cmd (c : option Z) : option Cmd :=
  match c with Some c => Some (InputCmd c) | None => None end.

Definition key_backup_form (key : string) (m : t) : handled :=
  if showBackupForm m then
    let pass_to_form :=
      let (f, cmd) := BackupForm.Update env key (backupForm m) in
      Some (Next (set_backupForm f m) (input_cmd cmd)) in
    if String.eqb key "esc" then Some (Next (set_showBackupForm false m) None)
    else if String.eqb key "enter" then
      if BackupForm.IsValid (backupForm m) then
        let opts := BackupOptions.mk (BackupForm.GetPaths (backupForm m))
                                     (BackupForm.GetTags (backupForm m))
                                     (BackupForm.GetExclude (backupForm m)) in
        let m := set_showBackupForm false m in
        let m := set_backupInProgress true m in
        let m := Info ("Starting backup of "
                       ++ fmt_d (len (BackupOptions.Paths opts))
                       ++ " paths...")%string m in
        match executeBackup m opts with
        | Some cmd => Some (Next m (Some cmd))
        | None => Some Panic
        end
      else pass_to_form
    else pass_to_form
  else None.

Definition key_restore_form (key : string) (m : t) : handled :=
  if showRestoreForm m then
    match restoreForm m with
    | None =>
        (* only "esc" does not touch the nil form *)
        if String.eqb key "esc" then Some (Next (set_showRestoreForm false m) None)
        else Some Panic
    | Some form =>
        let pass_to_form :=
          let (f, cmd) := RestoreForm.Update env key form in
          Some (Next (set_restoreForm (Some f) m) (input_cmd cmd)) in
        if String.eqb key "esc"
        then Some (Next (set_showRestoreForm false m) None)
        else if String.eqb key "enter" then
          if RestoreForm.IsValid form then
            match SnapshotPanel.GetSelected (snapPanel m) with
            | None =>
                let m := Error "No snapshot selected" m in
                Some (Next (set_showRestoreForm false m) None)
            | Some selectedSnapshot =>
                let opts := RestoreOptions.mk (Snapshot.ID selectedSnapshot)
                                              (RestoreForm.GetTarget form)
                                              (RestoreForm.GetInclude form) in
                let m := set_showRestoreForm false m in
                let m := set_restoreInProgress true m in
                let m := Info ("Starting restore of snapshot "
                               ++ Snapshot.ShortID selectedSnapshot
                               ++ "...")%string m in
                match executeRestore m opts with
                | Some cmd => Some (Next m (Some cmd))
                | None => Some Panic
                end
            end
          else pass_to_form
        else pass_to_form
    end
  else None.

Definition key_filter_input (key : string) (m : t) : handled :=
  if filterInputActive m then
    if String.eqb key "esc" then
      Some (Next (set_filterInputText "" (set_filterInputActive false m)) None)
    else if String.eqb key "enter" then
      let m := set_snapPanel
                 (SnapshotPanel.SetFilter (filterInputText m) (snapPanel m)) m in
      let m := set_filterInputActive false m in
      Some (Next (Info ("Filter applied: " ++ filterInputText m)%string m) None)
    else if String.eqb key "backspace" then
      if 0 <? slen (filterInputText m) then
        let m := set_filterInputText (drop_last (filterInputText m)) m in
        let m := if is_empty (filterInputText m)
                 then set_snapPanel (SnapshotPanel.ClearFilter (snapPanel m)) m
                 else set_snapPanel
                        (SnapshotPanel.SetFilter (filterInputText m) (snapPanel m))
                        m in
        Some (Next m None)
      else Some (Next m None)
    else if slen key =? 1 then
      let m := set_filterInputText (filterInputText m ++ key)%string m in
      let m := set_snapPanel
                 (SnapshotPanel.SetFilter (filterInputText m) (snapPanel m)) m in
      Some (Next m None)
    else Some (Next m None)
  else None.

Definition is_key (key : string) (names : list string) : bool :=
  existsb (String.eqb key) names.

Definition key_file_browser (key : string) (m : t) : handled :=
  match showFileBrowser m, fileBrowser m with
  | true, Some fb =>
      let with_browser fb' := Some (Next (set_fileBrowser (Some fb') m) None) in
      if String.eqb key "esc" then
        let m := set_showFileBrowser false m in
        Some (Next (Info "Closed file browser" m) None)
      else if is_key key ["j"; "down"] then with_browser (FileBrowser.MoveDown fb)
      else if is_key key ["k"; "up"] then with_browser (FileBrowser.MoveUp fb)
      else if is_key key ["h"; "left"] then
        if FileBrowser.CanGoUp fb then
          let m := set_fileBrowser (Some (FileBrowser_GoUp env fb)) m in
          Some (Next m (Some (loadFiles (currentRepoIndex m))))
        else Some (Next m None)
      else if is_key key ["n"; "pgdown"] then with_browser (FileBrowser.NextPage fb)
      else if is_key key ["p"; "pgup"] then with_browser (FileBrowser.PrevPage fb)
      else if is_key key ["l"; "right"; "enter"] then
        match FileBrowser.EnterDirectory fb with
        | (fb', (newPath, true)) =>
            let m := set_fileBrowser (Some fb') m in
            let m := Info ("Navigating to " ++ newPath ++ "...")%string m in
            Some (Next m (Some (loadFiles (currentRepoIndex m))))
        | (fb', (_, false)) => Some (Next (set_fileBrowser (Some fb') m) None)
        end
      else if is_key key [" "; "space"]
      then with_browser (FileBrowser.ToggleSelection fb)
      else if String.eqb key "r" then
        let selectedFiles := FileBrowser.GetSelectedFiles fb in
        if len selectedFiles =? 0 then
          Some (Next (Warning "No files selected - press Space to select files" m)
                     None)
        else
          let paths := map FileNode.Path selectedFiles in
          let snapshot := FileBrowser.GetSnapshot fb in
          let form := RestoreForm.NewRestoreForm snapshot in
          let form := RestoreForm.SetSize (int_quot (int_mul (width m) 2) 3)
                                          (int_quot (int_mul (height m) 2) 3) form in
          let form := RestoreForm.SetIncludePaths env paths form in
          let m := set_restoreForm (Some form) m in
          let m := set_showRestoreForm true m in
          let m := set_showFileBrowser false m in
          Some (Next (Info ("Restoring " ++ fmt_d (len paths)
                            ++ " selected files...")%string m) None)
      else None
  | _, _ => None
  end.

Definition key_found_repos (key : string) (m : t) : handled :=
  if showFoundRepos m then
    if String.eqb key "esc" then
      let m := set_showFoundRepos false m in
      let m := set_foundRepos [] m in
      let m := set_selectedFound 0 m in
      Some (Next (Info "Cancelled repository selection" m) None)
    else if is_key key ["j"; "down"] then
      if selectedFound m <? int_sub (len (foundRepos m)) 1
      then Some (Next (set_selectedFound (int_add (selectedFound m) 1) m) None)
      else Some (Next m None)
    else if is_key key ["k"; "up"] then
      if 0 <? selectedFound m
      then Some (Next (set_selectedFound (int_sub (selectedFound m) 1) m) None)
      else Some (Next m None)
    else if String.eqb key "enter" then
      match index (foundRepos m) (selectedFound m) with
      | Some selectedRepo =>
          let m := set_showFoundRepos false m in
          let m := set_foundRepos [] m in
          let m := set_selectedFound 0 m in
          let form := RepoForm.NewRepoForm in
          let form := RepoForm.SetPath env (RepositoryConfig.Path selectedRepo) form in
          let form := RepoForm.SetName env (RepositoryConfig.Name selectedRepo) form in
          let m := set_repoForm (Some form) m in
          let m := set_showRepoForm true m in
          Some (Next (Info ("Adding repository: "
                            ++ RepositoryConfig.Name selectedRepo)%string m) None)
      | None => Some (Next m None)
      end
    else None
  else None.

Definition key_remove_confirm (key : string) (m : t) : handled :=
  match showRemoveConfirm m, removeConfirmDialog m with
  | true, Some dialog =>
      if String.eqb key "esc" then
        let m := set_showRemoveConfirm false m in
        let m := set_removeConfirmDialog None m in
        let m := set_repoToRemove "" m in
        Some (Next (Info "Cancelled repository removal" m) None)
      else if String.eqb key "enter" then
        if ConfirmationDialog.IsConfirmed dialog then
          let m := Info ("✓ Confirmed - removing '" ++ repoToRemove m
                         ++ "' from configuration...")%string m in
          let m := Dimmed "Updating configuration file..." m in
          Some (Next m (Some (removeRepository (repoToRemove m))))
        else Some (Next m None)
      else
        let (dialog', cmd) := ConfirmationDialog_Update env key dialog in
        Some (Next (set_removeConfirmDialog (Some dialog') m) (input_cmd cmd))
  | _, _ => None
  end.

(** The submit branch of the repository form: the password method decides
    the credential field; [None] stands for an early [return m, nil] with
    the state given. *)
Definition repo_form_credentials (form : RepoForm.t) (name password : string)
    (repoConfig : RepositoryConfig.t) (m : t) : t * option RepositoryConfig.t :=
  let with_file (m : t) (passwordFilePath : string) :=
    (m, Some (RepositoryConfig.mk (RepositoryConfig.Name repoConfig)
                (RepositoryConfig.Path repoConfig)
                (RepositoryConfig.PasswordCommand repoConfig)
                passwordFilePath
                (RepositoryConfig.Password repoConfig))) in
  if String.eqb (RepoForm.GetPasswordMethod form) "file" then
    if RepoForm.ShouldAutoGeneratePasswordFile form then
      match Env.UserHomeDir env with
      | Err err =>
          (Error ("Failed to get home directory: " ++ err)%string m, None)
      | Ok home =>
          let passwordDir := (home ++ "/.config/lazyrestic/passwords")%string in
          let passwordFilePath := (passwordDir ++ "/" ++ name ++ ".txt")%string in
          match Env.MkdirAll env passwordDir with
          | Some err =>
              (Error ("Failed to create password directory: " ++ err)%string m,
               None)
          | None =>
              match Env.generateSecurePassword env 32 with
              | Err err =>
                  (Error ("Failed to generate password: " ++ err)%string m, None)
              | Ok generatedPassword =>
                  match Env.WriteFile env passwordFilePath generatedPassword with
                  | Some err =>
                      (Error ("Failed to write password file: " ++ err)%string m,
                       None)
                  | None =>
                      with_file
                        (Success ("Created password file: "
                                  ++ passwordFilePath)%string m)
                        passwordFilePath
                  end
              end
          end
      end
    else if is_empty password
    then (Error "Password file path is required" m, None)
    else with_file m password
  else if String.eqb (RepoForm.GetPasswordMethod form) "command" then
    if is_empty password then (Error "Password command is required" m, None)
    else (m, Some (RepositoryConfig.mk (RepositoryConfig.Name repoConfig)
                     (RepositoryConfig.Path repoConfig)
                     password
                     (RepositoryConfig.PasswordFile repoConfig)
                     (RepositoryConfig.Password repoConfig)))
  else (m, Some repoConfig).

Definition key_repo_form (key : string) (m : t) : handled :=
  match showRepoForm m, repoForm m with
  | true, Some form =>
      let pass_to_form :=
        let (f, cmd) := RepoForm.Update env key form in
        Some (Next (set_repoForm (Some f) m) (input_cmd cmd)) in
      if String.eqb key "esc" then
        let m := set_showRepoForm false m in
        let m := set_repoForm (Some RepoForm.NewRepoForm) m in
        Some (Next (Info "Cancelled repository creation" m) None)
      else if String.eqb key "enter" then
        if RepoForm.GetFocusedField form =? RepoForm.FieldSubmit then
          let name := RepoForm.GetName form in
          let path := RepoForm.GetPath form in
          let password := RepoForm.GetPassword form in
          if is_empty name || is_empty path
          then Some (Next (Error "Name and path are required" m) None)
          else
            let repoConfig := RepositoryConfig.mk name path "" "" "" in
            match repo_form_credentials form name password repoConfig m with
            | (m, None) => Some (Next m None)
            | (m, Some repoConfig) =>
                let m := set_config
                           (ResticConfig.mk
                              (ResticConfig.Repositories (config m) ++ [repoConfig]))
                           m in
                match Env.Save env (config m) "" with
                | Some err =>
                    Some (Next (Error ("Failed to save config: " ++ err)%string m)
                               None)
                | None =>
                    let m :=
                      if RepoForm.ShouldInitialize form then
                        match Env.Init env repoConfig with
                        | Some err =>
                            Error ("Failed to initialize repository: "
                                   ++ err)%string m
                        | None =>
                            Success ("Repository '" ++ name
                                     ++ "' created and initialized")%string m
                        end
                      else Success ("Added repository '" ++ name ++ "'")%string m in
                    let m := set_showRepoForm false m in
                    let m := set_repoForm (Some RepoForm.NewRepoForm) m in
                    let m := Info "Refreshing repository list..." m in
                    Some (Next m (Some loadRepositories))
                end
            end
        else pass_to_form
      else pass_to_form
  | _, _ => None
  end.

(** The final key switch of [Update]. *)
Definition key_main (key : string) (m : t) : outcome :=
  if is_key key ["ctrl+c"; "q"] then Next m (Some Quit)
  else if String.eqb key "?" then Next (set_showHelp true m) None
  else if is_key key ["tab"; "l"; "right"] then
    Next (set_activePanel (Z.rem (int_add (activePanel m) 1) 4) m) None
  else if is_key key ["shift+tab"; "h"; "left"] then
    Next (set_activePanel (Z.rem (int_add (activePanel m) 3) 4) m) None
  else if is_key key ["j"; "down"] then
    if activePanel m =? PanelRepositories then
      let m := set_repoPanel (RepositoryPanel.MoveDown (repoPanel m)) m in
      let m := set_currentRepoIndex (GetSelected m) m in
      match show_current_repo_metrics m with
      | None => Panic
      | Some m => let (m, cmd) := loadSnapshotsWithMessage m in Next m (Some cmd)
      end
    else if activePanel m =? PanelSnapshots then
      let m := set_snapPanel (SnapshotPanel.MoveDown (snapPanel m)) m in
      Next (logSelectedSnapshot m) None
    else Next m None
  else if is_key key ["k"; "up"] then
    if activePanel m =? PanelRepositories then
      let m := set_repoPanel (RepositoryPanel.MoveUp (repoPanel m)) m in
      let m := set_currentRepoIndex (GetSelected m) m in
      match show_current_repo_metrics m with
      | None => Panic
      | Some m => let (m, cmd) := loadSnapshotsWithMessage m in Next m (Some cmd)
      end
    else if activePanel m =? PanelSnapshots then
      let m := set_snapPanel (SnapshotPanel.MoveUp (snapPanel m)) m in
      Next (logSelectedSnapshot m) None
    else Next m None
  else if String.eqb key "enter" then
    if activePanel m =? PanelRepositories then
      let (m, cmd) := loadSnapshotsWithMessage m in Next m (Some cmd)
    else if activePanel m =? PanelSnapshots then
      match SnapshotPanel.GetSelected (snapPanel m) with
      | Some selectedSnapshot =>
          let fb := FileBrowser.NewFileBrowser (Some selectedSnapshot) in
          let fb := FileBrowser.SetSize (int_quot (int_mul (width m) 2) 3)
                                        (int_quot (int_mul (height m) 2) 3) fb in
          let m := set_fileBrowser (Some fb) m in
          let m := set_showFileBrowser true m in
          let m := Info ("Browsing snapshot " ++ Snapshot.ShortID selectedSnapshot
                         ++ "...")%string m in
          Next m (Some (loadFiles (currentRepoIndex m)))
      | None => Next m None
      end
    else Next m None
  else if String.eqb key "a" then
    if activePanel m =? PanelRepositories
    then Next (Info "Add new repository" (set_showRepoForm true m)) None
    else Next m None
  else if String.eqb key "s" then
    if activePanel m =? PanelRepositories
    then Next (Info "Scanning for repositories..." m) (Some scanForRepositories)
    else Next m None
  else if String.eqb key "r" then
    let m := Info "Refreshing repositories and snapshots..." m in
    let m := Dimmed "Reloading configuration and rescanning repository stats" m in
    let (m, cmd) := loadSnapshotsWithMessage m in
    Next m (Some (Batch [loadRepositories; cmd]))
  else if String.eqb key "C" then
    if len (repositories m) <=? currentRepoIndex m
    then Next (Warning "No repository selected for cache cleanup" m) None
    else with_current_repo m (fun repo =>
      let m := Info ("Running cache cleanup for '" ++ Repository.Name repo
                     ++ "'...")%string m in
      let m := Dimmed ("Command: restic -r " ++ Repository.Path repo
                       ++ " cache --cleanup")%string m in
      Next m (Some (cleanupCache (currentRepoIndex m))))
  else if String.eqb key "u" then
    if len (repositories m) <=? currentRepoIndex m
    then Next (Warning "No repository selected for unlock" m) None
    else with_current_repo m (fun repo =>
      let m := Info ("Unlocking repository '" ++ Repository.Name repo
                     ++ "'...")%string m in
      let m := Dimmed ("Removing stale locks from: "
                       ++ Repository.Path repo)%string m in
      let m := Dimmed ("Command: restic -r " ++ Repository.Path repo
                       ++ " unlock")%string m in
      Next m (Some (unlockRepository (currentRepoIndex m))))
  else if String.eqb key "x" then
    if len (repositories m) <=? currentRepoIndex m
    then Next (Warning "No repository selected to remove" m) None
    else with_current_repo m (fun repo =>
      let m := set_repoToRemove (Repository.Name repo) m in
      let dialog :=
        ConfirmationDialog.NewConfirmationDialog "REMOVE REPOSITORY"
          ("Remove '" ++ Repository.Name repo ++ "' from LazyRestic?" ++ nl ++ nl
           ++ "Path: " ++ Repository.Path repo ++ nl ++ nl
           ++ "This will only remove it from the LazyRestic configuration." ++ nl
           ++ "The repository files will NOT be deleted from disk.")%string
          "yes" in
      let dialog :=
        ConfirmationDialog.SetSize (int_quot (int_mul (width m) 3) 4)
                                   (int_quot (int_mul (height m) 3) 4) dialog in
      let m := set_removeConfirmDialog (Some dialog) m in
      let m := set_showRemoveConfirm true m in
      let m := Success rule m in
      let m := Info ("Removal requested for repository: "
                     ++ Repository.Name repo)%string m in
      let m := Dimmed ("Path: " ++ Repository.Path repo)%string m in
      let m := Warning "⚠️  Type 'yes' to confirm removal from configuration" m in
      Next (Success rule m) None)
  else if String.eqb key "b" then
    if negb (backupInProgress m) && (0 <? len (repositories m))
    then Next (set_showBackupForm true m) None
    else if backupInProgress m
    then Next (Warning "Backup already in progress" m) None
    else Next (Warning "No repository selected" m) None
  else if String.eqb key "R" then
    let selectedSnapshot := SnapshotPanel.GetSelected (snapPanel m) in
    match negb (restoreInProgress m), selectedSnapshot with
    | true, Some _ =>
        let form := RestoreForm.NewRestoreForm selectedSnapshot in
        let form := RestoreForm.SetSize (int_quot (int_mul (width m) 2) 3)
                                        (int_quot (int_mul (height m) 2) 3) form in
        let m := set_restoreForm (Some form) m in
        Next (set_showRestoreForm true m) None
    | _, _ =>
        if restoreInProgress m
        then Next (Warning "Restore already in progress" m) None
        else Next (Warning "No snapshot selected" m) None
    end
  else if String.eqb key "/" then
    if activePanel m =? PanelSnapshots then
      let m := set_filterInputActive true m in
      let m := set_filterInputText "" m in
      Next (Info "Filter mode: type to search, Enter to confirm, Esc to cancel" m)
           None
    else Next m None
  else if is_key key ["esc"; "c"] then
    if (activePanel m =? PanelSnapshots)
       && SnapshotPanel.IsFilterActive (snapPanel m) then
      let m := set_snapPanel (SnapshotPanel.ClearFilter (snapPanel m)) m in
      Next (Info "Filter cleared" m) None
    else Next m None
  else Next m None.

(** The blocks of the key handler in the order of the source; the first
    that handles the key decides. *)
Fixpoint first_handled (blocks : list (string -> t -> handled))
    (key : string) (m : t) : outcome :=
  match blocks with
  | [] => key_main key m
  | block :: rest =>
      match block key m with
      | Some o => o
      | None => first_handled rest key m
      end
  end.

Definition on_KeyMsg (key : string) (m : t) : outcome :=
  first_handled
    [key_help; key_backup_form; key_restore_form; key_filter_input;
     key_file_browser; key_found_repos; key_remove_confirm; key_repo_form]
    key m.

(** [Model.Update]. *)
Definition Update (m : t) (msg : Msg) : outcome :=
  match msg with
  | WindowSizeMsg Width Height => on_WindowSizeMsg Width Height m
  | RepositoriesLoadedMsg Repositories => on_RepositoriesLoadedMsg Repositories m
  | SnapshotsLoadedMsg Snapshots Error_ FilteredCount RepoName RepoPath =>
      on_SnapshotsLoadedMsg Snapshots Error_ FilteredCount RepoName RepoPath m
  | FilesLoadedMsg Files Error_ => on_FilesLoadedMsg Files Error_ m
  | BackupProgressMsg Progress Updates => on_BackupProgressMsg Progress Updates m
  | BackupSummaryMsg Summary Error_ => on_BackupSummaryMsg Summary Error_ m
  | RestoreProgressMsg Progress Updates => on_RestoreProgressMsg Progress Updates m
  | RestoreSummaryMsg Summary Error_ => on_RestoreSummaryMsg Summary Error_ m
  | ForgetDryRunMsg Results Policy Error_ =>
      on_ForgetDryRunMsg Results Policy Error_ m
  | ForgetCompleteMsg Error_ => on_ForgetCompleteMsg Error_ m
  | PruneDryRunMsg Output Error_ => on_PruneDryRunMsg Output Error_ m
  | PruneCompleteMsg Error_ => on_PruneCompleteMsg Error_ m
  | ScannedReposMsg FoundRepos => on_ScannedReposMsg FoundRepos m
  | CacheCleanupMsg Output Error_ => on_CacheCleanupMsg Output Error_ m
  | UnlockMsg Output Error_ => on_UnlockMsg Output Error_ m
  | RepoRemovedMsg RepoName Error_ => on_RepoRemovedMsg RepoName Error_ m
  | KeyMsg key => on_KeyMsg key m
  | OtherMsg => Next m None
  end.

(** What [View] writes into the state on its way to the panels: the list
    of the repository panel. *)
Definition View_effect (m : t) : t :=
  if negb (ready m) || tooSmall m || showHelp m || showBackupForm m
     || showRestoreForm m || showRepoForm m || showFileBrowser m
     || showFoundRepos m || showRemoveConfirm m
  then m
  else set_repoPanel
         (RepositoryPanel.SetRepositories (repositories m) (repoPanel m)) m.

(** The event loop on a list of messages: [Update], then [View], for each
    message; the commands returned are collected. *)
Fixpoint run (m : t) (msgs : list Msg) : option (t * list (option Cmd)) :=
  match msgs with
  | [] => Some (m, [])
  | msg :: rest =>
      match Update m msg with
      | Panic => None
      | Next m' cmd =>
          match run (View_effect m') rest with
          | Some (m'', cmds) => Some (m'', cmd :: cmds)
          | None => None
          end
      end
  end.

(** Following the listen commands of a backup session: the runtime calls
    the command, the listener receives from the channel, and [Update]
    handles the message, until a command is returned that is not a listen
    command.  The result has the state, that command and the messages that
    [Update] handled on the way. *)
Fixpoint listen_backup (fuel : nat) (m : t) (cmd : option Cmd)
  : option (t * option Cmd * list Msg) :=
  match cmd with
  | Some (listenForBackupUpdates updates) =>
      match fuel with
      | O => None
      | S fuel' =>
          let msg := waitForBackupUpdate updates in
          match Update m msg with
          | Panic => None
          | Next m' cmd' =>
              match listen_backup fuel' m' cmd' with
              | Some (m'', cmd'', msgs) => Some (m'', cmd'', msg :: msgs)
              | None => None
              end
          end
      end
  | _ => Some (m, cmd, [])
  end.

Fixpoint listen_restore (fuel : nat) (m : t) (cmd : option Cmd)
  : option (t * option Cmd * list Msg) :=
  match cmd with
  | Some (listenForRestoreUpdates updates) =>
      match fuel with
      | O => None
      | S fuel' =>
          let msg := waitForRestoreUpdate updates in
          match Update m msg with
          | Panic => None
          | Next m' cmd' =>
              match listen_restore fuel' m' cmd' with
              | Some (m'', cmd'', msgs) => Some (m'', cmd'', msg :: msgs)
              | None => None
              end
          end
      end
  | _ => Some (m, cmd, [])
  end.

End ModelUpdate.

(** The commands that start a session. *)
Definition is_runRestore (cmd : option Cmd) : bool :=
  match cmd with
  | Some (runRestore _ _) => true
  | _ => false
  end.

(** A command starts a backup session, by itself or inside a batch. *)
Fixpoint starts_backup (cmd : Cmd) : bool :=
  match cmd with
  | runBackup _ _ => true
  | Batch cmds => existsb starts_backup cmds
  | _ => false
  end.

Definition is_runBackup (cmd : option Cmd) : bool :=
  match cmd with
  | Some cmd => starts_backup cmd
  | None => false
  end.

(** The backup form is open only while no backup is in progress. *)
Definition backup_guarded (m : Model.t) : Prop :=
  Model.showBackupForm m = true -> Model.backupInProgress m = false.

(** One call of [Update] keeps [backup_guarded] and, with a backup in
    progress, returns no command that starts a backup session. *)
Definition backup_step (m m' : Model.t) (cmd : option Cmd) : Prop :=
  (backup_guarded m -> backup_guarded m')
  /\ (backup_guarded m -> Model.backupInProgress m = true ->
      is_runBackup cmd = false).

(** The states of the event loop: [Update] followed by [View], from a
    first state. *)
Inductive reaches (env : Env.t) (m0 : Model.t) : Model.t -> Prop :=
| reaches_start : reaches env m0 m0
| reaches_step (m m' : Model.t) (msg : Msg) (cmd : option Cmd) :
    reaches env m0 m ->
    Update env m msg = Next m' cmd ->
    reaches env m0 (View_effect m').

(** The last [n] entries of a log. *)
Definition last_entries (n : nat) (logs : list LogEntry.t) : list LogEntry.t :=
  skipn (List.length logs - n) logs.

(** No overlay is open: a key press reaches the final key switch. *)
Definition main_mode (m : Model.t) : Prop :=
  Model.showHelp m = false
  /\ Model.showBackupForm m = false
  /\ Model.showRestoreForm m = false
  /\ Model.filterInputActive m = false
  /\ Model.showFileBrowser m = false
  /\ Model.showFoundRepos m = false
  /\ Model.showRemoveConfirm m = false
  /\ Model.showRepoForm m = false.

(** A message on an update channel that is neither a summary nor an error. *)
Definition backup_not_terminal (u : BackupMessage.t) : Prop :=
  BackupMessage.Summary u = None /\ BackupMessage.Error u = None.

Definition restore_not_terminal (u : RestoreMessage.t) : Prop :=
  RestoreMessage.Summary u = None /\ RestoreMessage.Error u = None.

(** What the state is after the success report of a closed channel. *)
Definition backup_completed (m : Model.t) : Prop :=
  Model.backupInProgress m = false
  /\ Model.currentBackupProgress m = None
  /\ OperationsPanel.backupInProgress (Model.opsPanel m) = false
  /\ exists older,
       OperationsPanel.logs (Model.opsPanel m)
       = older ++ [LogEntry.mk "success" "Backup completed successfully";
                   LogEntry.mk "info" "Loading snapshots..."].

Definition restore_completed (m : Model.t) : Prop :=
  Model.restoreInProgress m = false
  /\ Model.currentRestoreProgress m = None
  /\ exists older,
       OperationsPanel.logs (Model.opsPanel m)
       = older ++ [LogEntry.mk "success" "Restore completed"].

(** The claim C3 on one completion message: [Update] answers it with a
    snapshot-listing query. *)
Definition issues_snapshot_listing (env : Env.t) (m : Model.t) (msg : Msg) : Prop :=
  exists m' i, Update env m msg = Next m' (Some (loadSnapshots i)).






(** A stand-in for the libraries and the system, for running the model on
    examples: a text input that appends one-character keys, integer
    arithmetic for the ratios, and system calls that succeed. *)
Module SampleModel.
Definition env : Env.t :=
  Env.mk
    (fun input key =>
       (if slen key =? 1
        then textinput.set_value (textinput.value input ++ key)%string input
        else input, None))
    (fun input value => textinput.set_value value input)
    (fun x r =>
       match r with
       | LeftPanelWidthRatio => Z.quot x 3
       | FormWidthRatio | FormHeightRatio => Z.quot (2 * x) 3
       | RepoHeightRatio => Z.quot (40 * x) 100
       | MetricsHeightRatio => Z.quot (36 * x) 100
       end)
    (fun _ => "2024-01-01 00:00:00")
    (fun _ => "1 day ago")
    (fun _ => "/")
    (Ok "/home/user")
    (fun _ => None)
    (fun _ => Ok "generated")
    (fun _ _ => None)
    (fun _ _ => None)
    (fun _ => None)
    "/home/user/.config/lazyrestic/config.yaml".

Definition repo_a : RepositoryConfig.t :=
  RepositoryConfig.mk "a" "/srv/a" "" "/home/user/.pass-a" "".
Definition repo_b : RepositoryConfig.t :=
  RepositoryConfig.mk "b" "/srv/b" "pass show restic/b" "" "".

Definition cfg : ResticConfig.t := ResticConfig.mk [repo_a; repo_b].

Definition info_a : Repository.t := Repository.mk "a" "/srv/a" 0 100 10 1 "healthy".
Definition info_b : Repository.t := Repository.mk "b" "/srv/b" 0 200 20 2 "healthy".

Definition snap_a : Snapshot.t :=
  Snapshot.mk "aaaa1111" 0 "hosta" "user" ["/home"] ["daily"] "aaaa".

Definition initial : Model.t :=
  Model.NewModel cfg OperationsPanel.NewOperationsPanel.

(** The program has started, both repositories are loaded and the
    snapshots of repository [a] are shown. *)
Definition startup : list Msg :=
  [WindowSizeMsg 120 40;
   RepositoriesLoadedMsg [info_a; info_b];
   SnapshotsLoadedMsg [snap_a] None 0 "a" "/srv/a"].

(** The user moves to repository [b]; the answer to the earlier query for
    [a] arrives afterwards. *)
Definition select_b_then_stale_a : list Msg :=
  startup
  ++ [KeyMsg "j";
      SnapshotsLoadedMsg [snap_a] None 0 "a" "/srv/a"].

(** A restore is started from the snapshot panel: the form is opened with
    [R], switched to the original location with the space key, and
    submitted. *)
Definition start_restore : list Msg :=
  startup ++ [KeyMsg "R"; KeyMsg " "; KeyMsg "enter"].

(** While that restore runs, the user opens the file browser on the
    snapshot, marks a file, asks to restore it and switches the form to the
    original location. *)
Definition browse_and_mark : list Msg :=
  [KeyMsg "tab"; KeyMsg "tab"; KeyMsg "enter";
   FilesLoadedMsg [FileNode.mk "node" "notes" "file" "/home/notes" 12 false] None;
   KeyMsg " "; KeyMsg "r"; KeyMsg " "].

(** ... and submits it. *)
Definition second_restore : list Msg := browse_and_mark ++ [KeyMsg "enter"].

(** A backup is started with the form. *)
Definition start_backup : list Msg :=
  startup ++ [KeyMsg "b"; KeyMsg "/"; KeyMsg "x"; KeyMsg "enter"].

(** The state and the commands after a list of messages, from the
    initial state. *)
Definition after (msgs : list Msg) : Model.t :=
  match run env initial msgs with
  | Some (m, _) => m
  | None => initial
  end.

Definition commands (msgs : list Msg) : list (option Cmd) :=
  match run env initial msgs with
  | Some (_, cmds) => cmds
  | None => []
  end.


(** A restore is running. *)
Definition restoring : Model.t := after start_restore.

(** A restore is running and the restore form is open again. *)
Definition restore_form_reopened : Model.t :=
  after (start_restore ++ browse_and_mark).

(** A backup is running. *)
Definition backing_up : Model.t := after start_backup.

(** Two repositories with the same name, as the form for adding a
    repository accepts them. *)
Definition dup_one : Repository.t :=
  Repository.mk "dup" "/srv/one" 0 100 10 1 "healthy".
Definition dup_two : Repository.t :=
  Repository.mk "dup" "/srv/two" 0 200 20 2 "healthy".

Definition same_names : list Msg :=
  [WindowSizeMsg 120 40; RepositoriesLoadedMsg [dup_one; dup_two]].
End SampleModel.

(** A configuration file with a literal password, and the system that
    holds it. *)
Module SampleConfig.
Definition path : string := "/home/user/.config/lazyrestic/config.yaml".

Definition entry_with_password : yaml :=
  YMap [(YStr "name", YStr "repo1"); (YStr "path", YStr "/tmp/repo1");
        (YStr "password", YStr "testpass")].

Definition document : yaml :=
  YMap [(YStr "repositories",
         YSeq [YMap [(YStr "name", YStr "repo0"); (YStr "path", YStr "/tmp/repo0");
                     (YStr "password_file", YStr "/home/user/.pass")];
               entry_with_password])].

Definition config_file : File.t := File.mk 384 true (Some document).

Definition os : OS.t :=
  OS.mk (Some "/home/user")
        (fun p => if String.eqb p path then Some config_file else None).

Definition with_file : RepositoryConfig.t :=
  RepositoryConfig.mk "local" "/tmp/repo" "" "/home/user/.pass" "".

Definition with_command : RepositoryConfig.t :=
  RepositoryConfig.mk "home" "/mnt/backup/restic" "pass show restic/home" "" "".

(** A repository with both methods, and the system whose configuration
    file holds it. *)
Definition with_both : RepositoryConfig.t :=
  RepositoryConfig.mk "both" "/tmp/both" "pass show restic/both"
    "/home/user/.pass" "".

Definition two_methods_os : OS.t :=
  OS.mk (Some "/home/user")
        (fun p =>
           if String.eqb p path
           then Some (File.mk 384 true
                        (Some (YMap [(YStr "repositories",
                                      YSeq [YMap [(YStr "name", YStr "both");
                                                  (YStr "path", YStr "/tmp/both");
                                                  (YStr "password_command",
                                                   YStr "pass show restic/both");
                                                  (YStr "password_file",
                                                   YStr "/home/user/.pass")]])])))
           else None).

(** A repository with a password file of mode 0400, and the system whose
    configuration file holds it. *)
Definition with_file_0 : RepositoryConfig.t :=
  RepositoryConfig.mk "repo0" "/tmp/repo0" "" "/home/user/.pass" "".

Definition valid_os : OS.t :=
  OS.mk (Some "/home/user")
        (fun p =>
           if String.eqb p path
           then Some (File.mk 384 true
                        (Some (YMap [(YStr "repositories",
                                      YSeq [YMap [(YStr "name", YStr "repo0");
                                                  (YStr "path", YStr "/tmp/repo0");
                                                  (YStr "password_file",
                                                   YStr "/home/user/.pass")]])])))
           else if String.eqb p "/home/user/.pass"
           then Some (File.mk 256 true None)
           else None).
End SampleConfig.

(** Sample states used to exercise the definitions. *)
Module Samples.
Definition snap (id host : string) (paths tags : list string) : Snapshot.t :=
  Snapshot.mk id 0 host "" paths tags "".

Definition file (name : string) : FileNode.t :=
  FileNode.mk "node" name "file" ("/" ++ name)%string 0 false.

(** Ten snapshots in a panel of height 9, hence three visible lines. *)
Definition ten_snapshots : list Snapshot.t :=
  map (fun id => snap id "host" ["/data"] []) 
      ["s0"; "s1"; "s2"; "s3"; "s4"; "s5"; "s6"; "s7"; "s8"; "s9"].

Definition ten_panel : SnapshotPanel.t :=
  SnapshotPanel.SetSize 40 9
    (SnapshotPanel.SetSnapshots ten_snapshots SnapshotPanel.NewSnapshotPanel).

Definition in_windowb (p : SnapshotPanel.t) : bool :=
  (SnapshotPanel.scrollOffset p <=? SnapshotPanel.selected p)
  && (SnapshotPanel.selected p
      <? SnapshotPanel.scrollOffset p + SnapshotPanel.visibleLines p).

(** The states met while stepping the selection down [n] times. *)
Fixpoint walk_down (n : nat) (p : SnapshotPanel.t) : list SnapshotPanel.t :=
  match n with
  | O => [p]
  | S n' => p :: walk_down n' (SnapshotPanel.MoveDown p)
  end.

Definition delete_dialog (typed : string) : ConfirmationDialog.t :=
  let cd := ConfirmationDialog.NewConfirmationDialog
              "FORGET SNAPSHOTS" "Type DELETE to confirm" "DELETE" in
  ConfirmationDialog.set_input
    (textinput.set_value typed (ConfirmationDialog.input cd)) cd.

Definition browser_with (n : nat) : FileBrowser.t :=
  FileBrowser.SetFiles (repeat (file "f") n) (FileBrowser.NewFileBrowser None).
End Samples.

(** ** Properties *)

(** *** Arithmetic on Go integers *)

Ltac go_int :=
  unfold int_add, int_sub, int_mul, int_quot, wrap, is_int, MinInt, MaxInt in *;
  change (2 ^ 63) with 9223372036854775808 in *;
  change (2 ^ 64) with 18446744073709551616 in *.

Lemma wrap_id (z : Z) : is_int z -> wrap z = z.
Proof. go_int. intros H. rewrite Z.mod_small; lia. Qed.

Lemma wrap_is_int (z : Z) : is_int (wrap z).
Proof.
  go_int.
  pose proof (Z.mod_pos_bound (z + 9223372036854775808) 18446744073709551616).
  lia.
Qed.

Lemma len_nonneg {A : Type} (l : list A) : 0 <= len l.
Proof. unfold len. lia. Qed.

Lemma len_nil_iff {A : Type} (l : list A) : len l = 0 <-> l = [].
Proof.
  unfold len. destruct l; simpl; split; intros H; try reflexivity;
    try discriminate; lia.
Qed.

(** *** The filter engine *)

Section Filter.
Import SnapshotPanel.

Lemma rangeContains_existsb (xs : list string) (needle : string) :
  rangeContains xs (ToLower needle)
  = existsb (fun x => FilterSpec.contains_ci x needle) xs.
Proof.
  induction xs as [|x rest IH]; simpl; [reflexivity|].
  unfold FilterSpec.contains_ci at 1.
  destruct (Contains (ToLower x) (ToLower needle)); simpl; auto.
Qed.

Lemma append_loop_filter {A : Type} (keep : A -> bool) (l acc : list A) :
  fold_left (fun acc x => if keep x then acc ++ [x] else acc) l acc
  = acc ++ filter keep l.
Proof.
  revert acc. induction l as [|x l IH]; intros acc; simpl.
  - now rewrite app_nil_r.
  - rewrite IH. destruct (keep x); [|reflexivity].
    now rewrite <- app_assoc.
Qed.

Lemma filter_all {A : Type} (keep : A -> bool) (l : list A) :
  (forall x, keep x = true) -> filter keep l = l.
Proof.
  intros H. induction l as [|x l IH]; simpl; [reflexivity|].
  now rewrite H, IH.
Qed.

Lemma filter_pointwise {A : Type} (f g : A -> bool) (l : list A) :
  (forall x, f x = g x) -> filter f l = filter g l.
Proof.
  intros H. induction l as [|x l IH]; simpl; [reflexivity|].
  now rewrite H, IH.
Qed.

Lemma matchesFilter_passes (p : t) (snap : Snapshot.t) :
  filterActive p = true ->
  matchesFilter p snap = FilterSpec.passes p snap.
Proof.
  intros Hact.
  unfold matchesFilter, FilterSpec.passes, FilterSpec.category_active,
    FilterSpec.tag_passes, FilterSpec.host_passes, FilterSpec.text_passes.
  rewrite Hact, !rangeContains_existsb. simpl.
  fold (FilterSpec.contains_ci (Snapshot.Hostname snap) (filterHost p)).
  fold (FilterSpec.contains_ci (Snapshot.ID snap) (filterText p)).
  fold (FilterSpec.contains_ci (Snapshot.ShortID snap) (filterText p)).
  destruct (is_empty (filterTag p)), (is_empty (filterHost p)),
    (is_empty (filterText p)); simpl;
    repeat match goal with
           | |- context [existsb ?f ?l] => destruct (existsb f l); simpl
           | |- context [FilterSpec.contains_ci ?a ?b] =>
               destruct (FilterSpec.contains_ci a b); simpl
           end; reflexivity.
Qed.

Lemma filteredSnapshots_set_scrollOffset v p :
  filteredSnapshots (set_scrollOffset v p) = filteredSnapshots p.
Proof. reflexivity. Qed.

(** C5: for every snapshot collection and every filter state the
    filtered view computed by [ApplyFilter] is the order-preserving
    sublist of the snapshots that pass every active predicate category:
    some tag contains the tag filter, the hostname contains the host
    filter, and the identifier, the short identifier, some path or some
    tag contains the free text, each compared case-insensitively. *)
Theorem ApplyFilter_is_spec_filter (p : t) :
  filteredSnapshots (ApplyFilter p) = FilterSpec.filtered p.
Proof.
  unfold ApplyFilter, FilterSpec.filtered.
  destruct (filterActive p) eqn:Hact; simpl.
  - destruct (is_empty (filterText p) && is_empty (filterTag p)
              && is_empty (filterHost p)) eqn:Hempty.
    + simpl. symmetry. apply filter_all. intros snap.
      apply andb_prop in Hempty as [Hempty Hhost].
      apply andb_prop in Hempty as [Htext Htag].
      unfold FilterSpec.passes, FilterSpec.category_active.
      now rewrite Hact, Htext, Htag, Hhost.
    + rewrite append_loop_filter. simpl.
      match goal with
      | |- context [if ?c then _ else _] => destruct c
      end; simpl; apply filter_pointwise; intros snap;
        now apply matchesFilter_passes.
  - simpl. symmetry. apply filter_all. intros snap.
    unfold FilterSpec.passes, FilterSpec.category_active.
    now rewrite Hact.
Qed.
End Filter.

Section FilterExamples.
Import SnapshotPanel.

Example filter_on_text_home :
  map Snapshot.ID
      (filteredSnapshots
         (SetFilter "home"
            (SetSnapshots [Samples.snap "abc123" "" ["/home"] [];
                           Samples.snap "def456" "" ["/var"] []]
                          NewSnapshotPanel)))
  = ["abc123"%string].
Proof. reflexivity. Qed.

Example filter_tag_and_host :
  map Snapshot.Hostname
      (filteredSnapshots
         (SetHostFilter "web1"
            (SetTagFilter "daily"
               (SetSnapshots [Samples.snap "a" "web1" [] ["daily"];
                              Samples.snap "b" "db1" [] ["daily"]]
                             NewSnapshotPanel))))
  = ["web1"%string].
Proof. reflexivity. Qed.

Example filter_ignores_case :
  map Snapshot.ID
      (filteredSnapshots
         (SetFilter "HOME"
            (SetSnapshots [Samples.snap "abc123" "" ["/Home/user"] []]
                          NewSnapshotPanel)))
  = ["abc123"%string].
Proof. reflexivity. Qed.
End FilterExamples.

(** *** The scrolling viewport *)

Section Scrolling.
Import SnapshotPanel.

Lemma visibleLines_bounds (p : t) : 1 <= visibleLines p <= MaxInt.
Proof.
  unfold visibleLines.
  pose proof (wrap_is_int (height p - 6)) as H.
  unfold int_sub. destruct (Z.ltb_spec (wrap (height p - 6)) 1);
    unfold is_int, MaxInt, MinInt in *; lia.
Qed.

Lemma visibleLines_set_selected v p :
  visibleLines (set_selected v p) = visibleLines p.
Proof. reflexivity. Qed.

Lemma visibleLines_set_scrollOffset v p :
  visibleLines (set_scrollOffset v p) = visibleLines p.
Proof. reflexivity. Qed.

Ltac panel_fields :=
  rewrite ?visibleLines_set_scrollOffset, ?visibleLines_set_selected;
  cbn [selected scrollOffset set_selected set_scrollOffset].

Ltac case_cmp :=
  match goal with
  | |- context [?a <? ?b] => destruct (Z.ltb_spec a b)
  | |- context [?a <=? ?b] => destruct (Z.leb_spec a b)
  end; panel_fields.

Ltac int_bounds := unfold is_int, MinInt, MaxInt in *; lia.

Lemma MoveUp_in_window (p : t) :
  panel_ints p -> in_window p -> in_window (MoveUp p).
Proof.
  unfold panel_ints, in_window, MoveUp.
  intros (Hs & Ho & Hh & Hl) [H1 H2].
  pose proof (visibleLines_bounds p) as Hv.
  case_cmp; [|split; assumption].
  assert (E : int_sub (selected p) 1 = selected p - 1)
    by (apply wrap_id; int_bounds).
  rewrite E. case_cmp; lia.
Qed.

Lemma MoveDown_in_window (p : t) :
  panel_ints p -> in_window p -> in_window (MoveDown p).
Proof.
  unfold panel_ints, in_window, MoveDown.
  intros (Hs & Ho & Hh & Hl) [H1 H2].
  pose proof (visibleLines_bounds p) as Hv.
  pose proof (len_nonneg (filteredSnapshots p)) as Hlen.
  assert (El : int_sub (len (filteredSnapshots p)) 1
               = len (filteredSnapshots p) - 1)
    by (apply wrap_id; int_bounds).
  rewrite El. panel_fields. case_cmp; [|split; assumption].
  assert (E : int_add (selected p) 1 = selected p + 1)
    by (apply wrap_id; int_bounds).
  rewrite E.
  assert (Hwrap : scrollOffset p + visibleLines p <= MaxInt ->
                  int_add (scrollOffset p) (visibleLines p)
                  = scrollOffset p + visibleLines p)
    by (intros; apply wrap_id; int_bounds).
  assert (Hover : MaxInt < scrollOffset p + visibleLines p ->
                  int_add (scrollOffset p) (visibleLines p) < 0).
  { intros Hov. unfold int_add, wrap.
    replace ((scrollOffset p + visibleLines p + 2 ^ 63) mod 2 ^ 64)
      with (scrollOffset p + visibleLines p - 2 ^ 63).
    - int_bounds.
    - apply (Z.mod_unique _ _ 1); int_bounds. }
  case_cmp.
  - assert (Hrange : is_int (selected p + 1 - visibleLines p)).
    { destruct (Z_le_gt_dec (scrollOffset p + visibleLines p) MaxInt)
        as [Hok|Hov].
      - rewrite Hwrap in * by assumption. int_bounds.
      - int_bounds. }
    assert (E2 : int_add (int_sub (selected p + 1) (visibleLines p)) 1
                 = selected p + 1 - visibleLines p + 1).
    { unfold int_add, int_sub. rewrite (wrap_id _ Hrange).
      apply wrap_id. int_bounds. }
    rewrite E2. lia.
  - split; [lia|].
    destruct (Z_le_gt_dec (scrollOffset p + visibleLines p) MaxInt)
      as [Hok|Hov].
    + rewrite Hwrap in * by assumption. lia.
    + apply Z.gt_lt, Hover in Hov. int_bounds.
Qed.

Lemma MoveDown_shift (p : t) :
  panel_ints p ->
  selected p < len (filteredSnapshots p) - 1 ->
  selected p = scrollOffset p + visibleLines p - 1 ->
  selected (MoveDown p) = selected p + 1
  /\ scrollOffset (MoveDown p) = scrollOffset p + 1.
Proof.
  unfold panel_ints, MoveDown.
  intros (Hs & Ho & Hh & Hl) Hmove Hedge.
  pose proof (visibleLines_bounds p) as Hv.
  assert (El : int_sub (len (filteredSnapshots p)) 1
               = len (filteredSnapshots p) - 1)
    by (apply wrap_id; int_bounds).
  rewrite El. panel_fields. case_cmp; [|lia].
  assert (E : int_add (selected p) 1 = selected p + 1)
    by (apply wrap_id; int_bounds).
  assert (E1 : int_add (scrollOffset p) (visibleLines p)
               = scrollOffset p + visibleLines p)
    by (apply wrap_id; int_bounds).
  rewrite E, E1. case_cmp; [|lia].
  split; [reflexivity|].
  unfold int_add, int_sub.
  rewrite (wrap_id (selected p + 1 - visibleLines p)) by int_bounds.
  rewrite wrap_id by int_bounds. lia.
Qed.

Lemma MoveUp_shift (p : t) :
  panel_ints p ->
  0 < selected p ->
  selected p = scrollOffset p ->
  selected (MoveUp p) = selected p - 1
  /\ scrollOffset (MoveUp p) = scrollOffset p - 1.
Proof.
  unfold panel_ints, MoveUp.
  intros (Hs & Ho & Hh & Hl) Hpos Hedge.
  case_cmp; [|lia].
  assert (E : int_sub (selected p) 1 = selected p - 1)
    by (apply wrap_id; int_bounds).
  rewrite E. case_cmp; lia.
Qed.

(** C9: from a state whose selection lies in the visible window
    [[offset, offset + visibleCapacity)], one step up and one step down
    both keep the selection in the window; and a step that leaves the
    window (down from its last row, up from its first row) shifts the
    offset by exactly one, the deficit of that step. *)
Theorem scroll_window_containment (p : t) :
  panel_ints p ->
  in_window p ->
  in_window (MoveUp p)
  /\ in_window (MoveDown p)
  /\ (selected p < len (filteredSnapshots p) - 1 ->
      selected p = scrollOffset p + visibleLines p - 1 ->
      selected (MoveDown p) = selected p + 1
      /\ scrollOffset (MoveDown p) = scrollOffset p + 1)
  /\ (0 < selected p ->
      selected p = scrollOffset p ->
      selected (MoveUp p) = selected p - 1
      /\ scrollOffset (MoveUp p) = scrollOffset p - 1).
Proof.
  intros Hints Hwin. repeat split.
  - now apply MoveUp_in_window.
  - now apply MoveUp_in_window.
  - now apply MoveDown_in_window.
  - now apply MoveDown_in_window.
  - now apply MoveDown_shift.
  - now apply MoveDown_shift.
  - now apply MoveUp_shift.
  - now apply MoveUp_shift.
Qed.
End Scrolling.


Lemma ten_panel_walk :
  map (fun p => (SnapshotPanel.selected p, SnapshotPanel.scrollOffset p))
      (Samples.walk_down 9 Samples.ten_panel)
  = [(0, 0); (1, 0); (2, 0); (3, 1); (4, 2); (5, 3); (6, 4); (7, 5); (8, 6);
     (9, 7)]
  /\ forallb Samples.in_windowb (Samples.walk_down 9 Samples.ten_panel) = true.
Proof. split; vm_compute; reflexivity. Qed.

Lemma scroll_window_containment_witness :
  let p := SnapshotPanel.MoveDown (SnapshotPanel.MoveDown Samples.ten_panel) in
  SnapshotPanel.selected p = 2 /\ SnapshotPanel.scrollOffset p = 0
  /\ SnapshotPanel.selected (SnapshotPanel.MoveDown p) = 3
  /\ SnapshotPanel.scrollOffset (SnapshotPanel.MoveDown p) = 1
  /\ in_window (SnapshotPanel.MoveDown p).
Proof.
  intros p.
  assert (Hints : panel_ints p)
    by (vm_compute; repeat split; discriminate).
  assert (Hwin : in_window p)
    by (vm_compute; repeat split; discriminate).
  destruct (scroll_window_containment p Hints Hwin) as (_ & Hdown & Hshift & _).
  destruct Hshift as [Hsel Hoff]; [vm_compute; reflexivity .. |].
  repeat split; try reflexivity; try exact Hsel; try exact Hoff; apply Hdown.
Defined.

(** *** The typed-word confirmation *)

(** C6: the confirmation is accepted exactly when the typed input equals
    the expected word, character for character and with the same case; for
    the expected word DELETE the inputs delet, delete and DELETE followed by
    a space are refused and DELETE itself is accepted. *)
Theorem typed_confirmation_exact :
  (forall cd : ConfirmationDialog.t,
      ConfirmationDialog.IsConfirmed cd = true
      <-> ConfirmationDialog.GetInput cd = ConfirmationDialog.confirmationWord cd)
  /\ ConfirmationDialog.IsConfirmed (Samples.delete_dialog "delet") = false
  /\ ConfirmationDialog.IsConfirmed (Samples.delete_dialog "delete") = false
  /\ ConfirmationDialog.IsConfirmed (Samples.delete_dialog "DELETE ") = false
  /\ ConfirmationDialog.IsConfirmed (Samples.delete_dialog "DELETE") = true.
Proof.
  split; [|repeat split; reflexivity].
  intros cd. unfold ConfirmationDialog.IsConfirmed, ConfirmationDialog.GetInput.
  apply String.eqb_eq.
Qed.

(** *** The paged viewport *)

Section Paging.
Import FileBrowser.

Lemma getTotalPages_empty (fb : t) : files fb = [] -> getTotalPages fb = 1.
Proof. unfold getTotalPages. intros ->. reflexivity. Qed.

Lemma update_nth_nil_iff {A : Type} (n : nat) (f : A -> A) (l : list A) :
  update_nth n f l = [] <-> l = [].
Proof.
  destruct l as [|x r], n; simpl; split; intros H;
    try reflexivity; discriminate H.
Qed.

Lemma map_nil_iff {A B : Type} (f : A -> B) (l : list A) :
  map f l = [] <-> l = [].
Proof. destruct l; simpl; split; intros H; try reflexivity; discriminate H. Qed.

Lemma NextPage_inv (fb : t) : page_inv fb -> page_inv (NextPage fb).
Proof.
  unfold page_inv, NextPage. intros (Hsize & Hpage & Hempty).
  destruct (Z.ltb_spec (currentPage fb) (int_sub (getTotalPages fb) 1))
    as [Hlt|Hge]; [|exact (conj Hsize (conj Hpage Hempty))].
  cbn [pageSize currentPage files set_selected set_currentPage].
  pose proof (wrap_is_int (getTotalPages fb - 1)) as Hw.
  unfold int_sub in Hlt.
  assert (E : int_add (currentPage fb) 1 = currentPage fb + 1)
    by (apply wrap_id; unfold is_int, MinInt, MaxInt in *; lia).
  rewrite E. split; [assumption|].
  split; [unfold is_int, MinInt, MaxInt in *; lia|].
  intros Hnil. exfalso.
  rewrite (getTotalPages_empty fb Hnil) in Hlt.
  rewrite (Hempty Hnil) in Hlt. vm_compute in Hlt. discriminate Hlt.
Qed.

Lemma PrevPage_inv (fb : t) : page_inv fb -> page_inv (PrevPage fb).
Proof.
  unfold page_inv, PrevPage. intros (Hsize & Hpage & Hempty).
  destruct (Z.ltb_spec 0 (currentPage fb)) as [Hlt|Hge];
    [|exact (conj Hsize (conj Hpage Hempty))].
  cbn [pageSize currentPage files set_selected set_currentPage].
  assert (E : int_sub (currentPage fb) 1 = currentPage fb - 1)
    by (apply wrap_id; unfold is_int, MinInt, MaxInt in *; lia).
  rewrite E. split; [assumption|]. split; [lia|].
  intros Hnil. apply Hempty in Hnil. lia.
Qed.

Lemma SetFiles_currentPage (fs : list FileNode.t) (fb : t) :
  currentPage (SetFiles fs fb) = 0
  /\ pageSize (SetFiles fs fb) = pageSize fb
  /\ files (SetFiles fs fb) = fs.
Proof.
  unfold SetFiles.
  cbn [currentPage set_currentPage set_files pageSize files].
  set (fb0 := set_currentPage 0 (set_files fs fb)).
  assert (E1 : (getTotalPages fb0 <=? 0) && (0 <? getTotalPages fb0) = false).
  { destruct (Z.leb_spec (getTotalPages fb0) 0);
      destruct (Z.ltb_spec 0 (getTotalPages fb0)); simpl; try reflexivity; lia. }
  rewrite E1. cbn [currentPage fb0 set_currentPage]. simpl (0 <? 0).
  cbv iota.
  repeat match goal with
         | |- context [if ?c then _ else _] => destruct c
         end; repeat split; reflexivity.
Qed.

Lemma apply_inv (o : op) (fb : t) : page_inv fb -> page_inv (apply o fb).
Proof.
  intros Hinv. destruct o; cbn [apply].
  - destruct (SetFiles_currentPage fs fb) as (Hp & Hs & Hf).
    destruct Hinv as (Hsize & _ & _).
    unfold page_inv. rewrite Hp, Hs, Hf.
    split; [assumption|]. split; [unfold MaxInt; lia|reflexivity].
  - exact Hinv.
  - now apply NextPage_inv.
  - now apply PrevPage_inv.
  - unfold MoveUp. destruct (0 <? selected fb); exact Hinv.
  - unfold MoveDown.
    destruct (selected fb <? int_sub (len (files fb)) 1); exact Hinv.
  - unfold ToggleSelection.
    destruct ((0 <=? selected fb) && (selected fb <? len (files fb)));
      [|exact Hinv].
    destruct Hinv as (Hsize & Hpage & Hempty).
    unfold page_inv. cbn [pageSize currentPage files set_files].
    split; [assumption|]. split; [assumption|].
    intros Hnil. apply update_nth_nil_iff in Hnil. auto.
  - destruct Hinv as (Hsize & Hpage & Hempty).
    unfold page_inv, ClearSelection. cbn [pageSize currentPage files set_files].
    split; [assumption|]. split; [assumption|].
    intros Hnil. apply map_nil_iff in Hnil. auto.
  - exact Hinv.
  - unfold EnterDirectory. destruct (GetSelected fb) as [sel|]; [|exact Hinv].
    destruct (FileNode.IsDir sel); exact Hinv.
Qed.

Lemma run_inv (ops : list op) (fb : t) : page_inv fb -> page_inv (run ops fb).
Proof.
  unfold run. revert fb.
  induction ops as [|o ops IH]; intros fb Hinv; simpl; [exact Hinv|].
  apply IH, apply_inv, Hinv.
Qed.

Lemma NewFileBrowser_inv (s : option Snapshot.t) : page_inv (NewFileBrowser s).
Proof.
  unfold page_inv, MaxInt. cbn.
  split; [reflexivity|]. split; [lia|reflexivity].
Qed.

Lemma quot_50_bounds (x : Z) :
  is_int x -> - 2 ^ 62 <= Z.quot x 50 <= 2 ^ 62.
Proof.
  unfold is_int, MinInt, MaxInt. intros Hx.
  change (2 ^ 63) with 9223372036854775808 in Hx.
  change (2 ^ 62) with 4611686018427387904.
  Z.quot_rem_to_equations. lia.
Qed.

Lemma getTotalPages_bounds (fb : t) :
  pageSize fb = 50 -> - 2 ^ 62 <= getTotalPages fb <= 2 ^ 62.
Proof.
  intros Hsize. unfold getTotalPages. rewrite Hsize.
  destruct (len (files fb) =? 0); [change (2 ^ 62) with 4611686018427387904; lia|].
  unfold int_quot.
  pose proof (quot_50_bounds (int_sub (int_add (len (files fb)) 50) 1)
                (wrap_is_int _)) as Hq.
  rewrite wrap_id; [exact Hq|].
  unfold is_int, MinInt, MaxInt.
  change (2 ^ 62) with 4611686018427387904 in Hq.
  change (2 ^ 63) with 9223372036854775808. lia.
Qed.

Lemma NextPage_on_last_page (fb : t) :
  pageSize fb = 50 ->
  currentPage fb = getTotalPages fb - 1 -> NextPage fb = fb.
Proof.
  intros Hsize Hlast. unfold NextPage.
  destruct (Z.ltb_spec (currentPage fb) (int_sub (getTotalPages fb) 1))
    as [Hlt|Hge]; [|reflexivity].
  exfalso. pose proof (getTotalPages_bounds fb Hsize) as Hb.
  unfold int_sub in Hlt. rewrite wrap_id in Hlt; [lia|].
  unfold is_int, MinInt, MaxInt.
  change (2 ^ 62) with 4611686018427387904 in Hb.
  change (2 ^ 63) with 9223372036854775808. lia.
Qed.

Lemma getTotalPages_101 (fb : t) :
  len (files fb) = 101 -> pageSize fb = 50 -> getTotalPages fb = 3.
Proof.
  intros Hlen Hsize. unfold getTotalPages. rewrite Hlen, Hsize. reflexivity.
Qed.

(** C8: an empty collection has exactly one page; in every browser reached
    from [NewFileBrowser] the page index is never negative and is 0 while
    the collection is empty; 101 items with 50 per page make 3 pages; and
    [NextPage] on the last page changes nothing. *)
Theorem pagination_clamp :
  (forall fb, files fb = [] -> getTotalPages fb = 1)
  /\ (forall s ops,
         let fb := run ops (NewFileBrowser s) in
         0 <= currentPage fb /\ (files fb = [] -> currentPage fb = 0))
  /\ (forall fb,
         len (files fb) = 101 -> pageSize fb = 50 -> getTotalPages fb = 3)
  /\ (forall s ops,
         let fb := run ops (NewFileBrowser s) in
         currentPage fb = getTotalPages fb - 1 -> NextPage fb = fb).
Proof.
  split; [exact getTotalPages_empty|].
  split.
  { intros s ops fb.
    destruct (run_inv ops _ (NewFileBrowser_inv s)) as (_ & Hpage & Hempty).
    split; [apply Hpage | exact Hempty]. }
  split; [exact getTotalPages_101|].
  intros s ops fb.
  destruct (run_inv ops _ (NewFileBrowser_inv s)) as (Hsize & _ & _).
  now apply NextPage_on_last_page.
Qed.
End Paging.


Lemma pagination_clamp_witness :
  let empty := FileBrowser.run [FileBrowser.OpNextPage; FileBrowser.OpPrevPage]
                 (FileBrowser.NewFileBrowser None) in
  let full := FileBrowser.run
                [FileBrowser.OpSetFiles (repeat (Samples.file "f") 101);
                 FileBrowser.OpNextPage; FileBrowser.OpNextPage]
                (FileBrowser.NewFileBrowser None) in
  FileBrowser.getTotalPages empty = 1
  /\ FileBrowser.currentPage empty = 0
  /\ FileBrowser.getTotalPages full = 3
  /\ FileBrowser.currentPage full = 2
  /\ FileBrowser.NextPage full = full.
Proof.
  intros empty full.
  destruct pagination_clamp as (Hone & Hzero & Hthree & Hlast).
  split; [apply Hone; reflexivity|].
  split; [apply (Hzero None [FileBrowser.OpNextPage; FileBrowser.OpPrevPage]);
          reflexivity|].
  split; [apply Hthree; reflexivity|].
  split; [reflexivity|].
  apply (Hlast None [FileBrowser.OpSetFiles (repeat (Samples.file "f") 101);
                     FileBrowser.OpNextPage; FileBrowser.OpNextPage]).
  reflexivity.
Defined.


(** *** Credentials: configuration validation and the subprocess environment *)

Section Credentials.
Import config.

Lemma find_password_field_finds (repos : list yaml) (entry : yaml) :
  In entry repos -> has_literal_password entry = true ->
  forall i, exists j name, find_password_field i repos = Some (j, name).
Proof.
  induction repos as [|r rest IH]; intros Hin Hpw i; [contradiction|].
  destruct Hin as [->|Hin].
  - destruct entry as [| | | | |repoMap]; try discriminate Hpw.
    simpl in *. destruct (yaml_get "password" repoMap); [|discriminate Hpw].
    eauto.
  - destruct r as [| | | | |repoMap]; simpl; try (apply IH; assumption).
    destruct (yaml_get "password" repoMap); [eauto|]. apply IH; assumption.
Qed.

Lemma Load_resolved_path (os : OS.t) (path : string) :
  Load os (if is_empty path then DefaultConfigPath os else path) = Load os path.
Proof.
  unfold Load. destruct (is_empty path) eqn:E; [|now rewrite E].
  destruct (is_empty (DefaultConfigPath os)) eqn:E'; [|reflexivity].
  reflexivity.
Qed.

Lemma Load_rejects_literal_password (os : OS.t) (path : string) (f : File.t)
    (doc entry : yaml) :
  OS.stat os (if is_empty path then DefaultConfigPath os else path) = Some f ->
  File.readable f = true ->
  File.document f = Some doc ->
  In entry (repository_entries doc) ->
  has_literal_password entry = true ->
  exists msg, Load os path = Err msg.
Proof.
  intros Hstat Hread Hdoc Hin Hpw. unfold Load.
  rewrite Hstat, Hread, Hdoc. simpl.
  unfold repository_entries in Hin.
  destruct doc as [| | | | |rawConfig]; try contradiction.
  destruct (yaml_get "repositories" rawConfig) as [[| | | |repos|]|];
    try contradiction.
  destruct (find_password_field_finds repos entry Hin Hpw 0) as (j & name & ->).
  eauto.
Qed.

Lemma validateRepositoryConfig_counts (os : OS.t) (repo : RepositoryConfig.t)
    (i : Z) :
  (RepositoryConfig.PasswordFile repo = "" ->
   RepositoryConfig.PasswordCommand repo = "" ->
   validateRepositoryConfig os repo i
   = Some "no password method specified (password_file or password_command required)")
  /\ (RepositoryConfig.PasswordFile repo <> "" ->
      RepositoryConfig.PasswordCommand repo <> "" ->
      validateRepositoryConfig os repo i
      = Some "multiple password methods specified, use only one of: password_file or password_command")
  /\ (validateRepositoryConfig os repo i = None -> one_credential_method repo).
Proof.
  unfold validateRepositoryConfig, one_credential_method, is_empty.
  destruct (String.eqb_spec (RepositoryConfig.PasswordFile repo) "") as [Ef|Ef];
    destruct (String.eqb_spec (RepositoryConfig.PasswordCommand repo) "")
      as [Ec|Ec]; cbn [negb];
    change (int_add 0 1) with 1; change (int_add 1 1) with 2; cbn.
  all: split; [|split]; intros; try congruence; try discriminate.
  - right. split; assumption.
  - left. split; assumption.
Qed.

Lemma buildEnv_one_method (repo : RepositoryConfig.t) :
  one_credential_method repo ->
  Client.buildEnv (Client.NewClient repo)
  = [("RESTIC_REPOSITORY=" ++ RepositoryConfig.Path repo)%string;
     credential_variable repo].
Proof.
  unfold one_credential_method, Client.buildEnv, credential_variable, is_empty.
  cbn [Client.config Client.NewClient].
  intros [[Hf Hc]|[Hf Hc]]; rewrite ?Hf, ?Hc; cbn.
  - destruct (String.eqb_spec (RepositoryConfig.PasswordFile repo) "");
      [contradiction|reflexivity].
  - destruct (String.eqb_spec (RepositoryConfig.PasswordCommand repo) "");
      [contradiction|reflexivity].
Qed.

Lemma validate_repositories_one_method (os : OS.t)
    (repos : list RepositoryConfig.t) :
  forall i, validate_repositories os i repos = None ->
            Forall one_credential_method repos.
Proof.
  induction repos as [|repo repos IH]; intros i H; [constructor|].
  simpl in H.
  destruct (validateRepositoryConfig os repo i) eqn:E; [discriminate H|].
  constructor.
  - exact (proj2 (proj2 (validateRepositoryConfig_counts os repo i)) E).
  - now apply (IH (i + 1)).
Qed.

Lemma LoadAndValidate_Ok (os : OS.t) (path : string) (cfg : ResticConfig.t) :
  LoadAndValidate os path = Ok cfg ->
  Load os path = Ok cfg
  /\ validate_repositories os 0 (ResticConfig.Repositories cfg) = None.
Proof.
  unfold LoadAndValidate. rewrite Load_resolved_path.
  destruct (Load os path) as [cfg0|err]; [|discriminate].
  unfold ValidateConfig.
  destruct (validateConfigFilePermissions os
              (if is_empty path then DefaultConfigPath os else path));
    [discriminate|].
  destruct (validate_repositories os 0 (ResticConfig.Repositories cfg0)) eqn:E;
    [discriminate|].
  intros H. injection H as <-. split; [reflexivity|exact E].
Qed.

Lemma LoadAndValidate_one_method (os : OS.t) (path : string)
    (cfg : ResticConfig.t) :
  LoadAndValidate os path = Ok cfg ->
  Forall one_credential_method (ResticConfig.Repositories cfg).
Proof.
  intros H. destruct (LoadAndValidate_Ok os path cfg H) as [_ Hval].
  now apply (validate_repositories_one_method os _ 0).
Qed.

Lemma zero_or_two_not_one (repo : RepositoryConfig.t) :
  zero_or_two_methods repo -> ~ one_credential_method repo.
Proof.
  unfold zero_or_two_methods, one_credential_method.
  intros [[Hf Hc]|[Hf Hc]] [[Hf' Hc']|[Hf' Hc']]; contradiction.
Qed.

Lemma LoadAndValidate_rejects_methods (os : OS.t) (path : string)
    (cfg : ResticConfig.t) (repo : RepositoryConfig.t) :
  Load os path = Ok cfg ->
  In repo (ResticConfig.Repositories cfg) ->
  zero_or_two_methods repo ->
  (exists msg, LoadAndValidate os path = Err msg)
  /\ LoadOrDefault os path = ResticConfig.mk [].
Proof.
  intros Hload Hin Hbad.
  assert (Herr : exists msg, LoadAndValidate os path = Err msg).
  { destruct (LoadAndValidate os path) as [cfg'|msg] eqn:E; [|eauto].
    exfalso.
    destruct (LoadAndValidate_Ok os path cfg' E) as [Hload' _].
    rewrite Hload in Hload'. injection Hload' as <-.
    pose proof (LoadAndValidate_one_method os path cfg E) as Hall.
    rewrite Forall_forall in Hall.
    exact (zero_or_two_not_one repo Hbad (Hall repo Hin)). }
  split; [exact Herr|].
  destruct Herr as [msg Herr]. unfold LoadOrDefault. now rewrite Herr.
Qed.

Lemma HasPrefix_app (p s : string) : HasPrefix (p ++ s) p = true.
Proof.
  induction p as [|c p IH]; simpl; [now destruct s|].
  now rewrite Ascii.eqb_refl, IH.
Qed.

Lemma credential_variable_is_credential (repo : RepositoryConfig.t) :
  is_credential_variable (credential_variable repo) = true.
Proof.
  unfold credential_variable, is_credential_variable.
  destruct (is_empty (RepositoryConfig.PasswordFile repo)).
  - rewrite (HasPrefix_app "RESTIC_PASSWORD_COMMAND=").
    now rewrite !orb_true_r.
  - rewrite (HasPrefix_app "RESTIC_PASSWORD_FILE=").
    now rewrite orb_true_r.
Qed.

Lemma credential_variables_none (environ : list string) :
  Forall (fun entry => is_credential_variable entry = false) environ ->
  credential_variables environ = [].
Proof.
  unfold credential_variables.
  induction 1 as [|entry environ Hentry _ IH]; simpl; [reflexivity|].
  now rewrite Hentry.
Qed.

Lemma command_env_credentials (environ : list string)
    (repo : RepositoryConfig.t) :
  one_credential_method repo ->
  credential_variables (Client.command_env environ (Client.NewClient repo))
  = credential_variables environ ++ [credential_variable repo].
Proof.
  intros Hone. unfold Client.command_env, credential_variables.
  rewrite (buildEnv_one_method repo Hone), filter_app.
  f_equal. cbn [filter].
  rewrite credential_variable_is_credential.
  assert (E : is_credential_variable
                ("RESTIC_REPOSITORY=" ++ RepositoryConfig.Path repo) = false)
    by reflexivity.
  now rewrite E.
Qed.

(** C7, amended: a configuration file in which a repository entry carries
    a literal [password] is refused by [Load], so that [LoadOrDefault]
    hands the program a configuration without repositories and no client
    exists to spawn a subprocess; [validateRepositoryConfig] refuses a
    repository with no credential method and one with both and accepts
    only those with exactly one of password file and password command,
    and so does the validation of a whole file: every repository of a
    configuration returned by [LoadAndValidate] has exactly one method,
    and a file with a repository of zero or two methods is refused and
    replaced by the empty configuration; for a repository with one method
    [buildEnv] yields the repository location followed by the one
    configured credential variable, which [command_env] appends to the
    inherited environment, passed on as it is: the credential variables of
    the subprocess are the inherited ones followed by the configured one,
    and the configured one is the only one when none is inherited. *)
Theorem credential_validation :
  (forall os path f doc entry,
      OS.stat os (if is_empty path then DefaultConfigPath os else path) = Some f ->
      File.readable f = true ->
      File.document f = Some doc ->
      In entry (repository_entries doc) ->
      has_literal_password entry = true ->
      (exists msg, Load os path = Err msg)
      /\ LoadOrDefault os path = ResticConfig.mk [])
  /\ (forall os repo i,
         (RepositoryConfig.PasswordFile repo = "" ->
          RepositoryConfig.PasswordCommand repo = "" ->
          validateRepositoryConfig os repo i <> None)
         /\ (RepositoryConfig.PasswordFile repo <> "" ->
             RepositoryConfig.PasswordCommand repo <> "" ->
             validateRepositoryConfig os repo i <> None)
         /\ (validateRepositoryConfig os repo i = None ->
             one_credential_method repo))
  /\ (forall os path cfg,
         LoadAndValidate os path = Ok cfg ->
         Forall one_credential_method (ResticConfig.Repositories cfg))
  /\ (forall os path cfg repo,
         Load os path = Ok cfg ->
         In repo (ResticConfig.Repositories cfg) ->
         zero_or_two_methods repo ->
         (exists msg, LoadAndValidate os path = Err msg)
         /\ LoadOrDefault os path = ResticConfig.mk [])
  /\ (forall environ repo,
         one_credential_method repo ->
         Client.buildEnv (Client.NewClient repo)
         = [("RESTIC_REPOSITORY=" ++ RepositoryConfig.Path repo)%string;
            credential_variable repo]
         /\ Client.command_env environ (Client.NewClient repo)
            = environ ++ [("RESTIC_REPOSITORY=" ++ RepositoryConfig.Path repo)%string;
                          credential_variable repo]
         /\ credential_variables
              (Client.command_env environ (Client.NewClient repo))
            = credential_variables environ ++ [credential_variable repo]
         /\ (Forall (fun entry => is_credential_variable entry = false) environ ->
             only_configured_credential environ repo)).
Proof.
  split; [|split; [|split; [|split]]].
  - intros os path f doc entry Hstat Hread Hdoc Hin Hpw.
    destruct (Load_rejects_literal_password os path f doc entry
                Hstat Hread Hdoc Hin Hpw) as [msg Hload].
    split; [eauto|].
    unfold LoadOrDefault, LoadAndValidate.
    rewrite Load_resolved_path, Hload. reflexivity.
  - intros os repo i.
    destruct (validateRepositoryConfig_counts os repo i) as (H0 & H2 & H1).
    split; [|split].
    + intros Hf Hc. rewrite (H0 Hf Hc). discriminate.
    + intros Hf Hc. rewrite (H2 Hf Hc). discriminate.
    + exact H1.
  - exact LoadAndValidate_one_method.
  - exact LoadAndValidate_rejects_methods.
  - intros environ repo Hone. unfold Client.command_env.
    rewrite (buildEnv_one_method repo Hone).
    split; [reflexivity|]. split; [reflexivity|].
    pose proof (command_env_credentials environ repo Hone) as Hcred.
    unfold Client.command_env in Hcred.
    rewrite (buildEnv_one_method repo Hone) in Hcred.
    split; [exact Hcred|].
    intros Hnone. unfold only_configured_credential.
    rewrite (command_env_credentials environ repo Hone).
    now rewrite (credential_variables_none environ Hnone).
Qed.
End Credentials.


(** *** The streaming adapters *)

Section Streaming.

Lemma sent_map_Send {M : Type} (body : list M) :
  sent (map Send body ++ [Close]) = body.
Proof. induction body as [|m body IH]; simpl; [reflexivity|now rewrite IH]. Qed.

Lemma count_app {A : Type} (p : A -> bool) (l1 l2 : list A) :
  count p (l1 ++ l2) = (count p l1 + count p l2)%nat.
Proof. unfold count. now rewrite filter_app, length_app. Qed.

Lemma count_none {A : Type} (p : A -> bool) (l : list A) :
  (forall x, In x l -> p x = false) -> count p l = 0%nat.
Proof.
  unfold count. induction l as [|x l IH]; intros H; simpl; [reflexivity|].
  rewrite (H x (or_introl eq_refl)). apply IH. intros y Hy. apply H. now right.
Qed.

(** In a list that ends with its only element satisfying [p], whatever
    follows an element satisfying [p] is empty. *)
Lemma last_is_only {A : Type} (p : A -> bool) (ps : list A) (t : A) :
  (forall x, In x ps -> p x = false) ->
  forall before m after,
    ps ++ [t] = before ++ m :: after -> p m = true -> after = [].
Proof.
  induction ps as [|x ps IH]; intros Hps before m after Heq Hm.
  - destruct before as [|b before]; simpl in Heq.
    + now injection Heq as _ <-.
    + injection Heq as _ Heq. destruct before; discriminate Heq.
  - destruct before as [|b before]; simpl in Heq.
    + injection Heq as <- _.
      rewrite (Hps x (or_introl eq_refl)) in Hm. discriminate Hm.
    + injection Heq as _ Heq.
      apply (IH (fun y Hy => Hps y (or_intror Hy)) before m after Heq Hm).
Qed.

Lemma one_terminal_last {M : Type} (terminal : M -> bool) (ps : list M) (t : M) :
  (forall x, In x ps -> terminal x = false) ->
  terminal t = true ->
  terminal_exclusive terminal (map Send (ps ++ [t]) ++ [Close])
  /\ count terminal (sent (map Send (ps ++ [t]) ++ [Close])) = 1%nat.
Proof.
  intros Hps Ht. rewrite sent_map_Send.
  assert (Hcount : count terminal (ps ++ [t]) = 1%nat).
  { rewrite count_app, (count_none terminal ps Hps).
    unfold count. simpl. now rewrite Ht. }
  split; [|exact Hcount].
  split; [rewrite sent_map_Send, Hcount; auto|].
  split; [|eauto].
  rewrite sent_map_Send. now apply last_is_only.
Qed.

Lemma restore_lines_progress (lines : list string) :
  exists ps,
    flat_map restic.restore_line_sends lines = map Send ps
    /\ forall x, In x ps -> restore_terminal x = false.
Proof.
  induction lines as [|line lines (ps & Heq & Hps)]; simpl.
  - exists []. split; [reflexivity|]. intros x [].
  - unfold restic.restore_line_sends at 1.
    destruct (Contains line "restoring").
    + exists (RestoreMessage.mk (Some (RestoreProgress.mk "status")) None None
              :: ps).
      split; [simpl; now rewrite Heq|].
      intros x [<-|Hx]; [reflexivity|auto].
    + exists ps. split; [exact Heq|exact Hps].
Qed.

Lemma RestoreWithChannel_shape (proc : Process.t string) :
  exists ps t,
    restic.RestoreWithChannel proc = map Send (ps ++ [t]) ++ [Close]
    /\ (forall x, In x ps -> restore_terminal x = false)
    /\ restore_terminal t = true.
Proof.
  unfold restic.RestoreWithChannel, restic.restore_error.
  destruct (Process.stdoutPipeErr proc) as [e|];
    [exists [], (RestoreMessage.mk None None
                   (Some ("failed to create stdout pipe: " ++ e)%string));
     repeat split; intros x []|].
  destruct (Process.stderrPipeErr proc) as [e|];
    [exists [], (RestoreMessage.mk None None
                   (Some ("failed to create stderr pipe: " ++ e)%string));
     repeat split; intros x []|].
  destruct (Process.startErr proc) as [e|];
    [exists [], (RestoreMessage.mk None None
                   (Some ("failed to start restore: " ++ e)%string));
     repeat split; intros x []|].
  destruct (restore_lines_progress (Process.stdout proc)) as (ps & Heq & Hps).
  rewrite Heq.
  destruct (Process.scanErr proc) as [e|];
    [|destruct (Process.waitErr proc) as [e|]];
    eexists ps, _; (split; [rewrite map_app; reflexivity|]);
    (split; [exact Hps|reflexivity]).
Qed.

Lemma backup_lines_no_error (lines : list backup_line) :
  exists ms,
    flat_map restic.backup_line_sends lines = map Send ms
    /\ forall x, In x ms -> backup_is_error x = false.
Proof.
  induction lines as [|line lines (ms & Heq & Hms)]; simpl.
  - exists []. split; [reflexivity|]. intros x [].
  - destruct line as [text|ty pr su]; simpl.
    + exists ms. split; [exact Heq|exact Hms].
    + destruct (String.eqb ty "status"); [|destruct (String.eqb ty "summary")].
      * destruct pr as [pr|]; simpl.
        -- exists (BackupMessage.mk (Some pr) None None :: ms).
           split; [simpl; now rewrite Heq|].
           intros x [<-|Hx]; [reflexivity|auto].
        -- exists ms. split; [exact Heq|exact Hms].
      * destruct su as [su|]; simpl.
        -- exists (BackupMessage.mk None (Some su) None :: ms).
           split; [simpl; now rewrite Heq|].
           intros x [<-|Hx]; [reflexivity|auto].
        -- exists ms. split; [exact Heq|exact Hms].
      * exists ms. split; [exact Heq|exact Hms].
Qed.

(** The messages of a backup session: those of the output lines, none of
    them an error, followed by at most one error. *)
Lemma BackupWithChannel_shape (proc : Process.t backup_line) :
  exists ms tail,
    restic.BackupWithChannel proc = map Send (ms ++ tail) ++ [Close]
    /\ (forall x, In x ms -> backup_is_error x = false)
    /\ (tail = [] \/ exists e, tail = [BackupMessage.mk None None (Some e)]).
Proof.
  unfold restic.BackupWithChannel, restic.backup_error.
  destruct (Process.stdoutPipeErr proc) as [e|];
    [exists [], [BackupMessage.mk None None
                   (Some ("failed to create stdout pipe: " ++ e)%string)];
     repeat split; [intros x []|eauto]|].
  destruct (Process.stderrPipeErr proc) as [e|];
    [exists [], [BackupMessage.mk None None
                   (Some ("failed to create stderr pipe: " ++ e)%string)];
     repeat split; [intros x []|eauto]|].
  destruct (Process.startErr proc) as [e|];
    [exists [], [BackupMessage.mk None None
                   (Some ("failed to start backup: " ++ e)%string)];
     repeat split; [intros x []|eauto]|].
  destruct (backup_lines_no_error (Process.stdout proc)) as (ms & Heq & Hms).
  rewrite Heq.
  destruct (Process.scanErr proc) as [e|];
    [|destruct (Process.waitErr proc) as [e|]].
  - eexists ms, [_]. split; [rewrite map_app; reflexivity|].
    split; [exact Hms|eauto].
  - eexists ms, [_]. split; [rewrite map_app; reflexivity|].
    split; [exact Hms|eauto].
  - exists ms, []. split; [rewrite map_app; reflexivity|].
    split; [exact Hms|auto].
Qed.

(** The claim C1 as stated fails for a backup whose subprocess prints a
    summary and then exits with a non-zero status: the channel carries the
    summary and then an error. *)
Lemma backup_two_terminal_events :
  sent (restic.BackupWithChannel SampleProcess.incomplete_backup)
  = [BackupMessage.mk (Some SampleProcess.progress) None None;
     BackupMessage.mk None (Some SampleProcess.summary) None;
     BackupMessage.mk None None
       (Some "backup failed: exit status 3 (stderr: Warning: failed to read all source data)")]
  /\ ~ terminal_exclusive backup_terminal
         (restic.BackupWithChannel SampleProcess.incomplete_backup).
Proof.
  split; [reflexivity|].
  intros (Hcount & _). vm_compute in Hcount. lia.
Qed.

(** Progress after a summary is forwarded as well. *)
Lemma backup_progress_after_summary :
  sent (restic.BackupWithChannel SampleProcess.summary_then_status)
  = [BackupMessage.mk None (Some SampleProcess.summary) None;
     BackupMessage.mk (Some SampleProcess.progress) None None].
Proof. reflexivity. Qed.

(** C1, amended: a restore session sends exactly one terminal event, sends
    nothing after it and closes the channel; a backup session closes the
    channel after its last message and sends at most one error, which is
    then the last message, while the messages before it are those of the
    output lines, none of which is an error (summaries are forwarded as
    often as the subprocess prints them). *)
Theorem session_terminal_events :
  (forall proc : Process.t string,
      terminal_exclusive restore_terminal (restic.RestoreWithChannel proc)
      /\ count restore_terminal (sent (restic.RestoreWithChannel proc)) = 1%nat)
  /\ (forall proc : Process.t backup_line,
         (exists body, restic.BackupWithChannel proc = map Send body ++ [Close])
         /\ (count backup_is_error (sent (restic.BackupWithChannel proc)) <= 1)%nat
         /\ (forall before m after,
                sent (restic.BackupWithChannel proc) = before ++ m :: after ->
                backup_is_error m = true -> after = [])
         /\ (Process.stdoutPipeErr proc = None ->
             Process.stderrPipeErr proc = None ->
             Process.startErr proc = None ->
             exists tail,
               restic.BackupWithChannel proc
               = flat_map restic.backup_line_sends (Process.stdout proc)
                 ++ tail ++ [Close]
               /\ (List.length tail <= 1)%nat)).
Proof.
  split.
  - intros proc.
    destruct (RestoreWithChannel_shape proc) as (ps & t & -> & Hps & Ht).
    now apply one_terminal_last.
  - intros proc.
    destruct (BackupWithChannel_shape proc) as (ms & tail & Heq & Hms & Htail).
    split; [rewrite Heq; eauto|].
    split; [|split].
    + rewrite Heq, sent_map_Send, count_app, (count_none _ ms Hms).
      destruct Htail as [->|[e ->]]; vm_compute; lia.
    + rewrite Heq, sent_map_Send. intros before m after Hsplit Hm.
      destruct Htail as [->|[e ->]].
      * exfalso. rewrite app_nil_r in Hsplit.
        rewrite (Hms m) in Hm; [discriminate Hm|].
        rewrite Hsplit. apply in_or_app. right. now left.
      * exact (last_is_only backup_is_error ms _ Hms before m after Hsplit Hm).
    + intros H1 H2 H3. unfold restic.BackupWithChannel.
      rewrite H1, H2, H3.
      destruct (Process.scanErr proc); [|destruct (Process.waitErr proc)];
        eexists; (split; [rewrite <- app_assoc; reflexivity|]); simpl; lia.
Qed.
End Streaming.

Lemma session_terminal_events_witness :
  sent (restic.RestoreWithChannel SampleProcess.clean_restore)
  = [RestoreMessage.mk (Some (RestoreProgress.mk "status")) None None;
     RestoreMessage.mk None (Some (RestoreSummary.mk "summary")) None]
  /\ count restore_terminal
       (sent (restic.RestoreWithChannel SampleProcess.clean_restore)) = 1%nat
  /\ exists tail,
       restic.BackupWithChannel SampleProcess.incomplete_backup
       = flat_map restic.backup_line_sends
           (Process.stdout SampleProcess.incomplete_backup)
         ++ tail ++ [Close]
       /\ (List.length tail <= 1)%nat.
Proof.
  destruct session_terminal_events as [Hrestore Hbackup].
  split; [reflexivity|].
  split; [apply Hrestore|].
  destruct (Hbackup SampleProcess.incomplete_backup) as (_ & _ & _ & Hlines).
  apply Hlines; reflexivity.
Defined.

(** *** The listener of an update channel *)

Section Listener.
Variable env : Env.t.
Import Model.

Lemma AddLog_ends (level message : string) (p : OperationsPanel.t) :
  exists older,
    OperationsPanel.logs (OperationsPanel.AddLog level message p)
    = older ++ [LogEntry.mk level message].
Proof.
  unfold OperationsPanel.AddLog. cbn [OperationsPanel.logs OperationsPanel.set_logs].
  destruct (100 <? len (OperationsPanel.logs p ++ [LogEntry.mk level message]))
    eqn:Hlen; [|eauto].
  unfold OperationsPanel.last_100.
  apply Z.ltb_lt in Hlen. unfold len in Hlen.
  rewrite length_app in *. simpl List.length in *.
  rewrite skipn_app.
  replace (List.length (OperationsPanel.logs p) + 1 - 100
           - List.length (OperationsPanel.logs p))%nat with 0%nat by lia.
  simpl skipn. eauto.
Qed.

Lemma AddLog_keeps_last (level message : string) (p : OperationsPanel.t)
    (older : list LogEntry.t) (e : LogEntry.t) :
  OperationsPanel.logs p = older ++ [e] ->
  exists older',
    OperationsPanel.logs (OperationsPanel.AddLog level message p)
    = older' ++ [e; LogEntry.mk level message].
Proof.
  intros Hp. unfold OperationsPanel.AddLog.
  cbn [OperationsPanel.logs OperationsPanel.set_logs]. rewrite Hp.
  rewrite <- app_assoc. simpl app.
  destruct (100 <? len (older ++ [e; LogEntry.mk level message])) eqn:Hlen;
    [|eauto].
  unfold OperationsPanel.last_100.
  apply Z.ltb_lt in Hlen. unfold len in Hlen.
  rewrite length_app in *. simpl List.length in *.
  rewrite skipn_app.
  replace (List.length older + 2 - 100 - List.length older)%nat with 0%nat by lia.
  simpl skipn. eauto.
Qed.

Lemma wait_backup_not_terminal (u : BackupMessage.t) (rest : list BackupMessage.t) :
  backup_not_terminal u ->
  exists progress,
    waitForBackupUpdate (u :: rest) = BackupProgressMsg progress (Some rest).
Proof.
  intros [Hs He]. unfold waitForBackupUpdate. rewrite Hs, He.
  destruct (BackupMessage.Progress u); eauto.
Qed.

Lemma wait_restore_not_terminal (u : RestoreMessage.t)
    (rest : list RestoreMessage.t) :
  restore_not_terminal u ->
  exists progress,
    waitForRestoreUpdate (u :: rest) = RestoreProgressMsg progress (Some rest).
Proof.
  intros [Hs He]. unfold waitForRestoreUpdate. rewrite Hs, He.
  destruct (RestoreMessage.Progress u); eauto.
Qed.

Lemma backup_progress_step (m : t) (progress : option BackupProgress.t)
    (rest : list BackupMessage.t) :
  exists m',
    Update env m (BackupProgressMsg progress (Some rest))
    = Next m' (Some (listenForBackupUpdates rest))
    /\ currentRepoIndex m' = currentRepoIndex m.
Proof.
  cbn [Update]. unfold on_BackupProgressMsg.
  destruct progress; eexists; split; reflexivity.
Qed.

Lemma restore_progress_step (m : t) (progress : option RestoreProgress.t)
    (rest : list RestoreMessage.t) :
  exists m',
    Update env m (RestoreProgressMsg progress (Some rest))
    = Next m' (Some (listenForRestoreUpdates rest)).
Proof.
  cbn [Update]. unfold on_RestoreProgressMsg.
  destruct progress; eexists; reflexivity.
Qed.

Lemma backup_summary_nil (m : t) :
  exists m',
    Update env m (BackupSummaryMsg None None)
    = Next m' (Some (loadSnapshots (currentRepoIndex m)))
    /\ backup_completed m'.
Proof.
  cbn [Update]. unfold on_BackupSummaryMsg, loadSnapshotsWithMessage.
  eexists. split; [reflexivity|].
  unfold backup_completed.
  split; [reflexivity|]. split; [reflexivity|]. split; [reflexivity|].
  unfold Info, Success.
  cbn [opsPanel set_opsPanel set_loadingSnapshots set_backupInProgress
       set_currentBackupProgress].
  unfold OperationsPanel.Info, OperationsPanel.Success.
  match goal with
  | |- context [OperationsPanel.AddLog "success" ?msg ?p] =>
      destruct (AddLog_ends "success" msg p) as [older Holder]
  end.
  eapply AddLog_keeps_last. exact Holder.
Qed.

Lemma restore_summary_nil (m : t) :
  exists m',
    Update env m (RestoreSummaryMsg None None) = Next m' None
    /\ restore_completed m'.
Proof.
  cbn [Update]. unfold on_RestoreSummaryMsg.
  eexists. split; [reflexivity|].
  unfold restore_completed.
  split; [reflexivity|]. split; [reflexivity|].
  unfold Success. cbn [opsPanel set_opsPanel].
  apply AddLog_ends.
Qed.

Lemma listen_backup_step (fuel : nat) (m : t) (updates : list BackupMessage.t) :
  listen_backup env (S fuel) m (Some (listenForBackupUpdates updates))
  = match Update env m (waitForBackupUpdate updates) with
    | Panic => None
    | Next m' cmd' =>
        match listen_backup env fuel m' cmd' with
        | Some (m'', cmd'', msgs) =>
            Some (m'', cmd'', waitForBackupUpdate updates :: msgs)
        | None => None
        end
    end.
Proof. reflexivity. Qed.

Lemma listen_restore_step (fuel : nat) (m : t) (updates : list RestoreMessage.t) :
  listen_restore env (S fuel) m (Some (listenForRestoreUpdates updates))
  = match Update env m (waitForRestoreUpdate updates) with
    | Panic => None
    | Next m' cmd' =>
        match listen_restore env fuel m' cmd' with
        | Some (m'', cmd'', msgs) =>
            Some (m'', cmd'', waitForRestoreUpdate updates :: msgs)
        | None => None
        end
    end.
Proof. reflexivity. Qed.

Lemma listen_backup_closed (updates : list BackupMessage.t) :
  Forall backup_not_terminal updates ->
  forall m,
  exists m' handled,
    listen_backup env (S (List.length updates)) m
      (Some (listenForBackupUpdates updates))
    = Some (m', Some (loadSnapshots (currentRepoIndex m)),
            handled ++ [BackupSummaryMsg None None])
    /\ List.length handled = List.length updates
    /\ backup_completed m'.
Proof.
  induction updates as [|u rest IH]; intros Hall m.
  - destruct (backup_summary_nil m) as (m' & Hupd & Hdone).
    exists m', []. rewrite listen_backup_step. cbn [waitForBackupUpdate].
    rewrite Hupd. cbn [listen_backup List.length app]. auto.
  - inversion Hall as [|u' rest' Hu Hrest]; subst.
    destruct (wait_backup_not_terminal u rest Hu) as [progress Hwait].
    destruct (backup_progress_step m progress rest) as (m1 & Hstep & Hidx).
    destruct (IH Hrest m1) as (m' & handled & Hlisten & Hlen & Hdone).
    exists m', (BackupProgressMsg progress (Some rest) :: handled).
    change (List.length (u :: rest)) with (S (List.length rest)).
    rewrite listen_backup_step, Hwait, Hstep, Hlisten, Hidx.
    split; [reflexivity|]. split; [simpl; now rewrite Hlen|exact Hdone].
Qed.

Lemma listen_restore_closed (updates : list RestoreMessage.t) :
  Forall restore_not_terminal updates ->
  forall m,
  exists m' handled,
    listen_restore env (S (List.length updates)) m
      (Some (listenForRestoreUpdates updates))
    = Some (m', None, handled ++ [RestoreSummaryMsg None None])
    /\ List.length handled = List.length updates
    /\ restore_completed m'.
Proof.
  induction updates as [|u rest IH]; intros Hall m.
  - destruct (restore_summary_nil m) as (m' & Hupd & Hdone).
    exists m', []. rewrite listen_restore_step. cbn [waitForRestoreUpdate].
    rewrite Hupd. cbn [listen_restore List.length app]. auto.
  - inversion Hall as [|u' rest' Hu Hrest]; subst.
    destruct (wait_restore_not_terminal u rest Hu) as [progress Hwait].
    destruct (restore_progress_step m progress rest) as (m1 & Hstep).
    destruct (IH Hrest m1) as (m' & handled & Hlisten & Hlen & Hdone).
    exists m', (RestoreProgressMsg progress (Some rest) :: handled).
    change (List.length (u :: rest)) with (S (List.length rest)).
    rewrite listen_restore_step, Hwait, Hstep, Hlisten.
    split; [reflexivity|]. split; [simpl; now rewrite Hlen|exact Hdone].
Qed.

(** C10: a receive on a closed update channel yields a summary message
    with a nil error and no payload; and when a channel carries neither a
    summary nor an error before it is closed, the listener, after handing
    over the progress messages, ends with that message, upon which
    [Update] clears the in-progress state and logs the completion as a
    success. *)
Theorem closed_channel_reports_success :
  waitForBackupUpdate [] = BackupSummaryMsg None None
  /\ waitForRestoreUpdate [] = RestoreSummaryMsg None None
  /\ (forall updates m,
         Forall backup_not_terminal updates ->
         exists m' handled,
           listen_backup env (S (List.length updates)) m
             (Some (listenForBackupUpdates updates))
           = Some (m', Some (loadSnapshots (currentRepoIndex m)),
                   handled ++ [BackupSummaryMsg None None])
           /\ List.length handled = List.length updates
           /\ backup_completed m')
  /\ (forall updates m,
         Forall restore_not_terminal updates ->
         exists m' handled,
           listen_restore env (S (List.length updates)) m
             (Some (listenForRestoreUpdates updates))
           = Some (m', None, handled ++ [RestoreSummaryMsg None None])
           /\ List.length handled = List.length updates
           /\ restore_completed m').
Proof.
  split; [reflexivity|]. split; [reflexivity|]. split.
  - intros updates m Hall. now apply listen_backup_closed.
  - intros updates m Hall. now apply listen_restore_closed.
Qed.
End Listener.


Lemma closed_channel_reports_success_witness :
  let updates := sent (restic.BackupWithChannel SampleProcess.silent_backup) in
  updates = [BackupMessage.mk (Some SampleProcess.progress) None None]
  /\ exists m' handled,
       listen_backup SampleModel.env (S (List.length updates)) SampleModel.initial
         (Some (listenForBackupUpdates updates))
       = Some (m', Some (loadSnapshots 0),
               handled ++ [BackupSummaryMsg None None])
       /\ List.length handled = List.length updates
       /\ backup_completed m'.
Proof.
  intros updates. split; [reflexivity|].
  destruct (closed_channel_reports_success SampleModel.env) as (_ & _ & H & _).
  apply (H updates SampleModel.initial).
  repeat constructor.
Defined.

(** *** Follow-up actions of completion messages *)

Section Completion.
Variable env : Env.t.
Import Model.

Lemma index_in_range {A : Type} (l : list A) (i : Z) :
  0 <= i < len l -> exists x, index l i = Some x.
Proof.
  intros [H0 H1]. unfold index.
  destruct (Z.leb_spec 0 i); [|lia]. destruct (Z.ltb_spec i (len l)); [|lia].
  simpl. destruct (nth_error l (Z.to_nat i)) eqn:E; [eauto|].
  apply nth_error_None in E. unfold len in *. lia.
Qed.

Lemma RepositoriesLoaded_reloads (m : t) (repos : list Repository.t) :
  repos <> [] -> 0 <= currentRepoIndex m ->
  exists m',
    Update env m (RepositoriesLoadedMsg repos)
    = Next m' (Some (loadSnapshots (currentRepoIndex m))).
Proof.
  intros Hne Hidx.
  change (Update env m (RepositoriesLoadedMsg repos))
    with (on_RepositoriesLoadedMsg repos m).
  unfold on_RepositoriesLoadedMsg.
  assert (Hlen : (len repos =? 0) = false).
  { apply Z.eqb_neq. intros H. apply len_nil_iff in H. contradiction. }
  rewrite Hlen. cbv zeta.
  set (m1 := Success _ (set_repositories repos (set_loadingRepositories false m))).
  assert (Hi : currentRepoIndex m1 = currentRepoIndex m) by reflexivity.
  assert (Hr : repositories m1 = repos) by reflexivity.
  rewrite Hi, Hr.
  destruct (Z.ltb_spec (currentRepoIndex m) (len repos)) as [Hlt|Hge].
  - destruct (index_in_range repos (currentRepoIndex m) (conj Hidx Hlt))
      as [repo ->].
    unfold loadSnapshotsWithMessage. eexists. reflexivity.
  - unfold loadSnapshotsWithMessage. eexists. reflexivity.
Qed.

(** The claim C3 as stated fails for restore and for prune: the
    completion of a restore is answered with no command and that of a
    prune with the repository-info query. *)
Lemma restore_and_prune_issue_no_listing :
  Update SampleModel.env SampleModel.initial
    (RestoreSummaryMsg (Some (RestoreSummary.mk "summary")) None)
  = Next (Success "Restore completed successfully" SampleModel.initial) None
  /\ ~ issues_snapshot_listing SampleModel.env SampleModel.initial
         (RestoreSummaryMsg (Some (RestoreSummary.mk "summary")) None)
  /\ ~ issues_snapshot_listing SampleModel.env SampleModel.initial
         (PruneCompleteMsg None).
Proof.
  split; [vm_compute; reflexivity|]. split.
  - intros (m' & i & H). vm_compute in H. discriminate H.
  - intros (m' & i & H). vm_compute in H. discriminate H.
Qed.

(** C3, amended: the completion message of a backup and that of a forget
    are answered with a snapshot-listing query for the selected repository,
    whether the operation succeeded or failed; that of a prune is answered
    with the repository-info query, whose result, when it lists at least
    one repository, is answered with the snapshot-listing query; that of a
    restore is answered with no command. *)
Theorem completion_follow_up (m : t) :
  (forall summary err,
      exists m',
        Update env m (BackupSummaryMsg summary err)
        = Next m' (Some (loadSnapshots (currentRepoIndex m))))
  /\ (forall err,
         exists m',
           Update env m (ForgetCompleteMsg err)
           = Next m' (Some (loadSnapshots (currentRepoIndex m))))
  /\ (forall err,
         exists m',
           Update env m (PruneCompleteMsg err) = Next m' (Some loadRepositories))
  /\ (forall repos,
         repos <> [] -> 0 <= currentRepoIndex m ->
         exists m',
           Update env m (RepositoriesLoadedMsg repos)
           = Next m' (Some (loadSnapshots (currentRepoIndex m))))
  /\ (forall summary err,
         exists m', Update env m (RestoreSummaryMsg summary err) = Next m' None).
Proof.
  split; [|split; [|split; [|split]]].
  - intros summary err. cbn [Update].
    unfold on_BackupSummaryMsg, loadSnapshotsWithMessage.
    destruct err, summary; eexists; reflexivity.
  - intros err. cbn [Update].
    unfold on_ForgetCompleteMsg, loadSnapshotsWithMessage.
    destruct err; eexists; reflexivity.
  - intros err. cbn [Update]. unfold on_PruneCompleteMsg.
    destruct err; eexists; reflexivity.
  - apply RepositoriesLoaded_reloads.
  - intros summary err. cbn [Update]. unfold on_RestoreSummaryMsg.
    destruct err, summary; eexists; reflexivity.
Qed.
End Completion.

Lemma completion_follow_up_witness :
  exists m',
    Update SampleModel.env SampleModel.initial
      (RepositoriesLoadedMsg [SampleModel.info_a; SampleModel.info_b])
    = Next m' (Some (loadSnapshots 0)).
Proof.
  destruct (completion_follow_up SampleModel.env SampleModel.initial)
    as (_ & _ & _ & H & _).
  apply (H [SampleModel.info_a; SampleModel.info_b]).
  - discriminate.
  - vm_compute. discriminate.
Defined.

(** *** Key presses in the main mode *)

Section MainMode.
Variable env : Env.t.
Import Model.

Lemma main_mode_key (m : t) (key : string) :
  main_mode m -> Update env m (KeyMsg key) = key_main env key m.
Proof.
  intros (H1 & H2 & H3 & H4 & H5 & H6 & H7 & H8).
  change (Update env m (KeyMsg key)) with (on_KeyMsg env key m).
  unfold on_KeyMsg, first_handled, key_help, key_backup_form, key_restore_form,
    key_filter_input, key_file_browser, key_found_repos, key_remove_confirm,
    key_repo_form.
  rewrite H1, H2, H3, H4, H5, H6, H7, H8. reflexivity.
Qed.

Ltac decide_key :=
  cbv beta iota delta [is_key existsb String.eqb Ascii.eqb Bool.eqb orb andb].

Lemma backup_request_rejected (m : t) :
  main_mode m -> backupInProgress m = true ->
  Update env m (KeyMsg "b")
  = Next (Warning "Backup already in progress" m) None.
Proof.
  intros Hmain Hbusy. rewrite (main_mode_key m "b" Hmain).
  unfold key_main. decide_key. rewrite Hbusy. reflexivity.
Qed.

Lemma restore_request_rejected (m : t) :
  main_mode m -> restoreInProgress m = true ->
  Update env m (KeyMsg "R")
  = Next (Warning "Restore already in progress" m) None.
Proof.
  intros Hmain Hbusy. rewrite (main_mode_key m "R" Hmain).
  unfold key_main. decide_key. rewrite Hbusy. cbv beta iota zeta delta [negb].
  reflexivity.
Qed.

Lemma restore_request_accepted (m : t) (snapshot : Snapshot.t) :
  main_mode m -> restoreInProgress m = false ->
  SnapshotPanel.GetSelected (snapPanel m) = Some snapshot ->
  exists form,
    Update env m (KeyMsg "R")
    = Next (set_showRestoreForm true (set_restoreForm (Some form) m)) None
    /\ RestoreForm.snapshot form = Some snapshot.
Proof.
  intros Hmain Hfree Hsel. rewrite (main_mode_key m "R" Hmain).
  unfold key_main. decide_key. rewrite Hfree, Hsel.
  cbv beta iota zeta delta [negb]. eexists. split; reflexivity.
Qed.

(** *** Selecting a repository and receiving snapshot listings *)











(** What [View] establishes in the main view: the panel shows the
    repositories of the model and, when there are any, its selection is
    one of the rows. *)
Lemma View_effect_rows (m : t) :
  ready m = true -> tooSmall m = false -> main_mode m ->
  is_int (len (repositories m)) ->
  0 <= RepositoryPanel.selected (repoPanel m) ->
  repositories m <> [] ->
  RepositoryPanel.repositories (repoPanel (View_effect m)) = repositories m
  /\ repositories (View_effect m) = repositories m
  /\ 0 <= RepositoryPanel.selected (repoPanel (View_effect m))
     < len (repositories m).
Proof.
  intros Hready Hsmall (H1 & H2 & H3 & H4 & H5 & H6 & H7 & H8) Hint Hsel Hne.
  unfold View_effect. rewrite Hready, Hsmall, H1, H2, H3, H5, H6, H7, H8.
  cbv beta iota delta [negb orb].
  change (repoPanel (set_repoPanel ?p m)) with p.
  split; [|split; [reflexivity|]].
  - unfold RepositoryPanel.SetRepositories. cbv zeta.
    match goal with
    | |- context [if ?c then _ else _] => destruct c
    end; reflexivity.
  - unfold RepositoryPanel.SetRepositories. cbv zeta.
    cbn [RepositoryPanel.selected RepositoryPanel.set_repositories].
    assert (Hpos : 0 < len (repositories m)).
    { pose proof (len_nonneg (repositories m)).
      destruct (Z.eq_dec (len (repositories m)) 0) as [E|E]; [|lia].
      apply len_nil_iff in E. contradiction. }
    assert (E : int_sub (len (repositories m)) 1 = len (repositories m) - 1)
      by (apply wrap_id; unfold is_int, MinInt, MaxInt in *; lia).
    destruct (Z.leb_spec (len (repositories m))
                (RepositoryPanel.selected (repoPanel m)));
      destruct (Z.ltb_spec 0 (len (repositories m)));
      cbn [andb RepositoryPanel.selected RepositoryPanel.set_selected
           RepositoryPanel.set_scrollOffset RepositoryPanel.set_repositories];
      rewrite ?E; lia.
Qed.




End MainMode.



(** Without distinct names the query goes to the first repository that
    carries the name of the selected row: with two repositories of one
    name, a step down selects row 1 of the panel and queries repository 0. *)
Lemma same_names_query_first :
  let m := SampleModel.after SampleModel.same_names in
  main_mode m
  /\ Model.activePanel m = PanelRepositories
  /\ RepositoryPanel.selected (Model.repoPanel m) = 0
  /\ exists m',
       Update SampleModel.env m (KeyMsg "j") = Next m' (Some (loadSnapshots 0))
       /\ RepositoryPanel.selected (Model.repoPanel m') = 1
       /\ Model.currentRepoIndex m' = 0.
Proof.
  intros m. split; [vm_compute; repeat split|].
  split; [vm_compute; reflexivity|]. split; [vm_compute; reflexivity|].
  eexists. split; [vm_compute; reflexivity|]. split; reflexivity.
Qed.

(** *** One operation of a kind at a time *)

Section SubmitRestore.
Variable env : Env.t.
Import Model.

(** Submitting a valid restore form starts a restore session whatever the
    value of [restoreInProgress]: the handler of the form has no guard. *)
Lemma restore_form_submit_unguarded (m : t) (form : RestoreForm.t)
    (snapshot : Snapshot.t) (repoConfig : RepositoryConfig.t) :
  showHelp m = false -> showBackupForm m = false ->
  showRestoreForm m = true -> restoreForm m = Some form ->
  RestoreForm.IsValid form = true ->
  SnapshotPanel.GetSelected (snapPanel m) = Some snapshot ->
  currentRepoIndex m < len (ResticConfig.Repositories (config m)) ->
  index (ResticConfig.Repositories (config m)) (currentRepoIndex m)
  = Some repoConfig ->
  exists m',
    Update env m (KeyMsg "enter")
    = Next m' (Some (runRestore repoConfig
                       (RestoreOptions.mk (Snapshot.ID snapshot)
                          (RestoreForm.GetTarget form)
                          (RestoreForm.GetInclude form))))
    /\ restoreInProgress m' = true.
Proof.
  intros Hhelp Hbackup Hshow Hform Hvalid Hsel Hlt Hidx.
  change (Update env m (KeyMsg "enter")) with (on_KeyMsg env "enter" m).
  unfold on_KeyMsg, first_handled, key_help, key_backup_form, key_restore_form.
  rewrite Hhelp, Hbackup, Hshow, Hform.
  cbv beta iota delta [String.eqb Ascii.eqb Bool.eqb].
  rewrite Hvalid, Hsel. cbv zeta. unfold executeRestore.
  set (m1 := Info _ (set_restoreInProgress true (set_showRestoreForm false m))).
  assert (Hc : config m1 = config m) by reflexivity.
  assert (Hi : currentRepoIndex m1 = currentRepoIndex m) by reflexivity.
  rewrite Hc, Hi, Hidx.
  destruct (Z.leb_spec (len (ResticConfig.Repositories (config m)))
                       (currentRepoIndex m)); [lia|].
  exists m1. split; reflexivity.
Qed.
End SubmitRestore.

(** C2, the restore half fails on the code: while a restore is in
    progress the key [R] is refused with a warning, but the restore form
    opened from the file browser is not, and submitting it starts a second
    restore session. *)
Theorem second_restore_while_restoring :
  Model.restoreInProgress SampleModel.restoring = true
  /\ Update SampleModel.env SampleModel.restoring (KeyMsg "R")
     = Next (Model.Warning "Restore already in progress" SampleModel.restoring)
            None
  /\ Model.restoreInProgress SampleModel.restore_form_reopened = true
  /\ Model.showRestoreForm SampleModel.restore_form_reopened = true
  /\ (exists m',
        Update SampleModel.env SampleModel.restore_form_reopened (KeyMsg "enter")
        = Next m' (Some (runRestore SampleModel.repo_a
                           (RestoreOptions.mk "aaaa1111" "" ["/home/notes"]))))
  /\ filter is_runRestore
       (SampleModel.commands
          (SampleModel.start_restore ++ SampleModel.second_restore))
     = [Some (runRestore SampleModel.repo_a
                (RestoreOptions.mk "aaaa1111" "" []));
        Some (runRestore SampleModel.repo_a
                (RestoreOptions.mk "aaaa1111" "" ["/home/notes"]))].
Proof.
  split; [vm_compute; reflexivity|].
  split; [vm_compute; reflexivity|].
  split; [vm_compute; reflexivity|].
  split; [vm_compute; reflexivity|].
  split; [|vm_compute; reflexivity].
  eexists. vm_compute. reflexivity.
Qed.

(** The backup half and the independence of the two kinds hold on the key
    switch: with a backup in progress, [b] only logs a warning and [R]
    opens the restore form. *)
Lemma backup_guard_on_sample :
  Model.backupInProgress SampleModel.backing_up = true
  /\ Update SampleModel.env SampleModel.backing_up (KeyMsg "b")
     = Next (Model.Warning "Backup already in progress" SampleModel.backing_up)
            None
  /\ exists m',
       Update SampleModel.env SampleModel.backing_up (KeyMsg "R") = Next m' None
       /\ Model.showRestoreForm m' = true
       /\ Model.backupInProgress m' = true.
Proof.
  split; [vm_compute; reflexivity|].
  split; [vm_compute; reflexivity|].
  eexists. split; [vm_compute; reflexivity|]. split; reflexivity.
Qed.


(** The claim C7 as stated fails on the environment: the inherited
    environment is passed on unfiltered, so a literal password exported
    by the calling shell reaches the subprocess next to the configured
    password command. *)
Lemma inherited_password_is_passed_on :
  one_credential_method SampleConfig.with_command
  /\ Client.command_env ["HOME=/home/user"; "RESTIC_PASSWORD=hunter2"]
       (Client.NewClient SampleConfig.with_command)
     = ["HOME=/home/user"; "RESTIC_PASSWORD=hunter2";
        "RESTIC_REPOSITORY=/mnt/backup/restic";
        "RESTIC_PASSWORD_COMMAND=pass show restic/home"]
  /\ ~ only_configured_credential ["HOME=/home/user"; "RESTIC_PASSWORD=hunter2"]
         SampleConfig.with_command.
Proof.
  split; [right; split; [reflexivity|discriminate]|].
  split; [reflexivity|].
  intros H. vm_compute in H. discriminate H.
Qed.

Lemma credential_validation_witness :
  config.Load SampleConfig.os ""
  = Err "repository 1 (repo1) uses deprecated 'password' field"
  /\ config.LoadOrDefault SampleConfig.os "" = ResticConfig.mk []
  /\ (config.Load SampleConfig.two_methods_os ""
      = Ok (ResticConfig.mk [SampleConfig.with_both])
      /\ (exists msg, config.LoadAndValidate SampleConfig.two_methods_os "" = Err msg)
      /\ config.LoadOrDefault SampleConfig.two_methods_os "" = ResticConfig.mk [])
  /\ config.validateRepositoryConfig SampleConfig.two_methods_os
       SampleConfig.with_both 0 <> None
  /\ config.validateRepositoryConfig SampleConfig.two_methods_os
       (RepositoryConfig.mk "none" "/tmp/none" "" "" "") 0 <> None
  /\ Forall one_credential_method
       (ResticConfig.Repositories (ResticConfig.mk [SampleConfig.with_file_0]))
  /\ Client.buildEnv (Client.NewClient SampleConfig.with_file)
     = ["RESTIC_REPOSITORY=/tmp/repo"; "RESTIC_PASSWORD_FILE=/home/user/.pass"]
  /\ Client.command_env ["HOME=/home/user"]
       (Client.NewClient SampleConfig.with_command)
     = ["HOME=/home/user"; "RESTIC_REPOSITORY=/mnt/backup/restic";
        "RESTIC_PASSWORD_COMMAND=pass show restic/home"]
  /\ only_configured_credential ["HOME=/home/user"; "PATH=/usr/bin"]
       SampleConfig.with_command.
Proof.
  destruct credential_validation as (Hload & Hvalid & Hall & Hfile & Henv).
  split; [reflexivity|].
  split.
  { apply (Hload SampleConfig.os "" SampleConfig.config_file
             SampleConfig.document SampleConfig.entry_with_password);
      try reflexivity.
    simpl. right. left. reflexivity. }
  split.
  { split; [reflexivity|].
    apply (Hfile SampleConfig.two_methods_os ""
             (ResticConfig.mk [SampleConfig.with_both]) SampleConfig.with_both).
    - reflexivity.
    - left. reflexivity.
    - right. split; discriminate. }
  split.
  { destruct (Hvalid SampleConfig.two_methods_os SampleConfig.with_both 0)
      as (_ & Htwo & _).
    apply Htwo; discriminate. }
  split.
  { destruct (Hvalid SampleConfig.two_methods_os
                (RepositoryConfig.mk "none" "/tmp/none" "" "" "") 0)
      as (Hzero & _ & _).
    apply Hzero; reflexivity. }
  split.
  { apply (Hall SampleConfig.valid_os ""). reflexivity. }
  split.
  { apply (Henv [] SampleConfig.with_file). left. split; [discriminate|reflexivity]. }
  assert (Hone : one_credential_method SampleConfig.with_command)
    by (right; split; [reflexivity|discriminate]).
  split.
  { apply (Henv ["HOME=/home/user"] SampleConfig.with_command Hone). }
  apply (Henv ["HOME=/home/user"; "PATH=/usr/bin"] SampleConfig.with_command Hone).
  repeat constructor.
Defined.


(** *** No second backup session *)

Section BackupGuard.
Variable env : Env.t.
Import Model.

(** Case analysis on the conditions of a handler, innermost first. *)
Ltac split_matches H :=
  cbv beta iota zeta in H;
  repeat (match type of H with
          | context [match ?x with _ => _ end] =>
              lazymatch x with
              | context [match _ with _ => _ end] => fail
              | _ => destruct x eqn:?
              end
          end; cbv beta iota zeta in H).

Ltac bool_facts :=
  repeat match goal with
         | H : negb _ = true |- _ => apply negb_true_iff in H
         | H : negb _ = false |- _ => apply negb_false_iff in H
         | H : _ && _ = true |- _ => apply andb_prop in H; destruct H
         end.

(** A branch of a handler: the two flags of the result are read off the
    chain of field updates. *)
Ltac leaf H :=
  first [ discriminate H
        | injection H as <- <-;
          unfold backup_step, backup_guarded; bool_facts;
          repeat match goal with
                 | Hx : showBackupForm _ = _ |- _ => revert Hx
                 | Hx : backupInProgress _ = _ |- _ => revert Hx
                 end;
          lazy; intuition congruence ].

Lemma step_WindowSize w h (m m' : t) cmd :
  on_WindowSizeMsg env w h m = Next m' cmd -> backup_step m m' cmd.
Proof. intros H; unfold on_WindowSizeMsg in H; split_matches H; leaf H. Qed.

Lemma step_RepositoriesLoaded r (m m' : t) cmd :
  on_RepositoriesLoadedMsg r m = Next m' cmd -> backup_step m m' cmd.
Proof.
  intros H; unfold on_RepositoriesLoadedMsg, loadSnapshotsWithMessage in H;
    split_matches H; leaf H.
Qed.

Lemma step_SnapshotsLoaded s e n a b (m m' : t) cmd :
  on_SnapshotsLoadedMsg env s e n a b m = Next m' cmd -> backup_step m m' cmd.
Proof.
  intros H; unfold on_SnapshotsLoadedMsg, logSelectedSnapshot in H;
    split_matches H; leaf H.
Qed.

Lemma step_FilesLoaded f e (m m' : t) cmd :
  on_FilesLoadedMsg f e m = Next m' cmd -> backup_step m m' cmd.
Proof. intros H; unfold on_FilesLoadedMsg in H; split_matches H; leaf H. Qed.

Lemma step_BackupProgress p u (m m' : t) cmd :
  on_BackupProgressMsg p u m = Next m' cmd -> backup_step m m' cmd.
Proof. intros H; unfold on_BackupProgressMsg in H; split_matches H; leaf H. Qed.

Lemma step_BackupSummary s e (m m' : t) cmd :
  on_BackupSummaryMsg s e m = Next m' cmd -> backup_step m m' cmd.
Proof.
  intros H; unfold on_BackupSummaryMsg, loadSnapshotsWithMessage in H;
    split_matches H; leaf H.
Qed.

Lemma step_RestoreProgress p u (m m' : t) cmd :
  on_RestoreProgressMsg p u m = Next m' cmd -> backup_step m m' cmd.
Proof. intros H; unfold on_RestoreProgressMsg in H; split_matches H; leaf H. Qed.

Lemma step_RestoreSummary s e (m m' : t) cmd :
  on_RestoreSummaryMsg s e m = Next m' cmd -> backup_step m m' cmd.
Proof. intros H; unfold on_RestoreSummaryMsg in H; split_matches H; leaf H. Qed.

Lemma step_ForgetDryRun r p e (m m' : t) cmd :
  on_ForgetDryRunMsg r p e m = Next m' cmd -> backup_step m m' cmd.
Proof. intros H; unfold on_ForgetDryRunMsg in H; split_matches H; leaf H. Qed.

Lemma step_ForgetComplete e (m m' : t) cmd :
  on_ForgetCompleteMsg e m = Next m' cmd -> backup_step m m' cmd.
Proof.
  intros H; unfold on_ForgetCompleteMsg, loadSnapshotsWithMessage in H;
    split_matches H; leaf H.
Qed.

Lemma step_PruneDryRun o e (m m' : t) cmd :
  on_PruneDryRunMsg o e m = Next m' cmd -> backup_step m m' cmd.
Proof. intros H; unfold on_PruneDryRunMsg in H; split_matches H; leaf H. Qed.

Lemma step_PruneComplete e (m m' : t) cmd :
  on_PruneCompleteMsg e m = Next m' cmd -> backup_step m m' cmd.
Proof. intros H; unfold on_PruneCompleteMsg in H; split_matches H; leaf H. Qed.

Lemma step_ScannedRepos f (m m' : t) cmd :
  on_ScannedReposMsg f m = Next m' cmd -> backup_step m m' cmd.
Proof. intros H; unfold on_ScannedReposMsg in H; split_matches H; leaf H. Qed.

Lemma step_CacheCleanup o e (m m' : t) cmd :
  on_CacheCleanupMsg o e m = Next m' cmd -> backup_step m m' cmd.
Proof. intros H; unfold on_CacheCleanupMsg in H; split_matches H; leaf H. Qed.

Lemma step_Unlock o e (m m' : t) cmd :
  on_UnlockMsg o e m = Next m' cmd -> backup_step m m' cmd.
Proof. intros H; unfold on_UnlockMsg in H; split_matches H; leaf H. Qed.

Lemma step_RepoRemoved n e (m m' : t) cmd :
  on_RepoRemovedMsg env n e m = Next m' cmd -> backup_step m m' cmd.
Proof. intros H; unfold on_RepoRemovedMsg in H; split_matches H; leaf H. Qed.

Lemma step_key_help key (m m' : t) cmd :
  key_help key m = Some (Next m' cmd) -> backup_step m m' cmd.
Proof. intros H; unfold key_help in H; split_matches H; leaf H. Qed.

Lemma step_key_backup_form key (m m' : t) cmd :
  key_backup_form env key m = Some (Next m' cmd) -> backup_step m m' cmd.
Proof.
  intros H; unfold key_backup_form, executeBackup, input_cmd in H;
    split_matches H; leaf H.
Qed.

Lemma step_key_restore_form key (m m' : t) cmd :
  key_restore_form env key m = Some (Next m' cmd) -> backup_step m m' cmd.
Proof.
  intros H; unfold key_restore_form, executeRestore, input_cmd in H;
    split_matches H; leaf H.
Qed.

Lemma step_key_filter_input key (m m' : t) cmd :
  key_filter_input key m = Some (Next m' cmd) -> backup_step m m' cmd.
Proof. intros H; unfold key_filter_input in H; split_matches H; leaf H. Qed.

Lemma step_key_file_browser key (m m' : t) cmd :
  key_file_browser env key m = Some (Next m' cmd) -> backup_step m m' cmd.
Proof. intros H; unfold key_file_browser in H; split_matches H; leaf H. Qed.

Lemma step_key_found_repos key (m m' : t) cmd :
  key_found_repos env key m = Some (Next m' cmd) -> backup_step m m' cmd.
Proof. intros H; unfold key_found_repos in H; split_matches H; leaf H. Qed.

Lemma step_key_remove_confirm key (m m' : t) cmd :
  key_remove_confirm env key m = Some (Next m' cmd) -> backup_step m m' cmd.
Proof.
  intros H; unfold key_remove_confirm, ConfirmationDialog_Update, input_cmd in H;
    split_matches H; leaf H.
Qed.

Lemma step_key_repo_form key (m m' : t) cmd :
  key_repo_form env key m = Some (Next m' cmd) -> backup_step m m' cmd.
Proof.
  intros H; unfold key_repo_form, repo_form_credentials, input_cmd in H;
    split_matches H; leaf H.
Qed.

Lemma step_key_main key (m m' : t) cmd :
  key_main env key m = Next m' cmd -> backup_step m m' cmd.
Proof.
  intros H; unfold key_main, loadSnapshotsWithMessage, with_current_repo,
    show_current_repo_metrics, logSelectedSnapshot in H;
    split_matches H; leaf H.
Qed.

Lemma step_on_KeyMsg key (m m' : t) cmd :
  on_KeyMsg env key m = Next m' cmd -> backup_step m m' cmd.
Proof.
  unfold on_KeyMsg, first_handled. intros H.
  destruct (key_help key m) as [o|] eqn:E1;
    [subst o; now apply (step_key_help key)|].
  destruct (key_backup_form env key m) as [o|] eqn:E2;
    [subst o; now apply (step_key_backup_form key)|].
  destruct (key_restore_form env key m) as [o|] eqn:E3;
    [subst o; now apply (step_key_restore_form key)|].
  destruct (key_filter_input key m) as [o|] eqn:E4;
    [subst o; now apply (step_key_filter_input key)|].
  destruct (key_file_browser env key m) as [o|] eqn:E5;
    [subst o; now apply (step_key_file_browser key)|].
  destruct (key_found_repos env key m) as [o|] eqn:E6;
    [subst o; now apply (step_key_found_repos key)|].
  destruct (key_remove_confirm env key m) as [o|] eqn:E7;
    [subst o; now apply (step_key_remove_confirm key)|].
  destruct (key_repo_form env key m) as [o|] eqn:E8;
    [subst o; now apply (step_key_repo_form key)|].
  now apply (step_key_main key).
Qed.

(** Every call of [Update] is a [backup_step]. *)
Lemma Update_backup_step (m m' : t) (msg : Msg) (cmd : option Cmd) :
  Update env m msg = Next m' cmd -> backup_step m m' cmd.
Proof.
  destruct msg; cbn [Update]; intros H.
  - eapply step_WindowSize; exact H.
  - eapply step_RepositoriesLoaded; exact H.
  - eapply step_SnapshotsLoaded; exact H.
  - eapply step_FilesLoaded; exact H.
  - eapply step_BackupProgress; exact H.
  - eapply step_BackupSummary; exact H.
  - eapply step_RestoreProgress; exact H.
  - eapply step_RestoreSummary; exact H.
  - eapply step_ForgetDryRun; exact H.
  - eapply step_ForgetComplete; exact H.
  - eapply step_PruneDryRun; exact H.
  - eapply step_PruneComplete; exact H.
  - eapply step_ScannedRepos; exact H.
  - eapply step_CacheCleanup; exact H.
  - eapply step_Unlock; exact H.
  - eapply step_RepoRemoved; exact H.
  - eapply step_on_KeyMsg; exact H.
  - injection H as <- <-. split; [auto|reflexivity].
Qed.

Lemma View_effect_guarded (m : t) :
  backup_guarded m -> backup_guarded (View_effect m).
Proof.
  unfold View_effect.
  match goal with
  | |- context [if ?c then _ else _] => destruct c
  end; auto.
Qed.

Lemma NewModel_guarded (cfg : ResticConfig.t) (ops : OperationsPanel.t) :
  backup_guarded (NewModel cfg ops).
Proof. intros H. reflexivity. Qed.

(** In every state that the event loop reaches from a guarded state, the
    backup form is open only while no backup runs. *)
Lemma reaches_guarded (m0 m : t) :
  backup_guarded m0 -> reaches env m0 m -> backup_guarded m.
Proof.
  intros H0 Hreach. induction Hreach as [|m m' msg cmd Hreach IH Hupd];
    [exact H0|].
  apply View_effect_guarded.
  now apply (proj1 (Update_backup_step m m' msg cmd Hupd)).
Qed.

(** The backup half of the single-operation rule holds in every reachable
    state: while a backup is in progress no message makes [Update] return
    a command that starts a backup session, and the start-backup key is
    answered with a warning and an unchanged backup state. *)
Lemma no_second_backup (cfg : ResticConfig.t) (ops : OperationsPanel.t)
    (m m' : t) (msg : Msg) (cmd : option Cmd) :
  reaches env (NewModel cfg ops) m ->
  backupInProgress m = true ->
  Update env m msg = Next m' cmd ->
  is_runBackup cmd = false.
Proof.
  intros Hreach Hbusy Hupd.
  apply (proj2 (Update_backup_step m m' msg cmd Hupd)); [|exact Hbusy].
  apply (reaches_guarded (NewModel cfg ops)); [apply NewModel_guarded|exact Hreach].
Qed.
End BackupGuard.
